(** * Evaluation metrics of the multimodal RAG test services

    A shallow embedding of the scoring code found in
    - [tests/simple-ragas-test.py]                       (module [SimpleRAGAS]),
    - [tests/rag-evaluation/python/evaluation_service.py] (module [BasicRAGMetrics]),
    - [tests/multimodal-evaluation/multimodal-ragas-service.py]
                                                         (module [Multimodal]),
    - [tests/rag-evaluation/python/ragas_service.py]     (module [RagasService]),
    - [tests/comprehensive-phase2-test.py]               (module [Phase2]).

    Conventions of the embedding.
    - A Python [str] is a [string]; a character is a code point below 256.
    - A Python [float] that the code obtains from counts, constants and
      [+ - * / min] is an exact rational [Q]; IEEE rounding is not modelled.
      Vectors of the similarity gateway, which need a square root, are lists
      of real numbers [R].
    - A Python [set] of words is a duplicate-free list.
    - A call that may raise returns a [result]. *)

From Stdlib Require Import List Bool Arith Lia ZArith QArith Qminmax Qabs Ascii String.
From Stdlib Require Import Reals Psatz.
From Stdlib Require DecimalString.
Import ListNotations.

Close Scope Q_scope.
Close Scope R_scope.
Local Open Scope string_scope.

(** ** Python primitives *)

Module Py.

(** Exceptions the modelled code can raise or catch. *)
Inductive exn : Type :=
| ZeroDivisionError
| ValueError (msg : string)
| KeyError (key : string)
| IndexError (msg : string)
| FileNotFoundError (path : string)
| AttributeError (msg : string)
| ValidationError (missing : list string)
| RequestException (msg : string)
| HTTPException (status_code : Z) (detail : string).

Inductive result (A : Type) : Type :=
| Ok (a : A)
| Raise (e : exn).
Arguments Ok {A} a.
Arguments Raise {A} e.

Definition bind {A B : Type} (m : result A) (k : A -> result B) : result B :=
  match m with
  | Ok a => k a
  | Raise e => Raise e
  end.

Notation "x <- m ;; k" := (bind m (fun x => k))
  (at level 61, m at next level, right associativity).

(** [str(e)] of the exceptions above; the text of a validation error and
    of a nested [HTTPException] is shortened. *)
Definition str_of_exn (e : exn) : string :=
  match e with
  | ZeroDivisionError => "division by zero"
  | ValueError msg => msg
  | KeyError key => "'" ++ key ++ "'"
  | IndexError msg => msg
  | FileNotFoundError path => path
  | AttributeError msg => msg
  | ValidationError _ => "validation error"
  | RequestException msg => msg
  | HTTPException _ detail => detail
  end.

(** [c.isspace()] for a code point below 256: tab to carriage return,
    the four separators 28..31, space, NEL (133) and no-break space (160). *)
Definition isspace (c : ascii) : bool :=
  let n := nat_of_ascii c in
  (((9 <=? n) && (n <=? 13)) || ((28 <=? n) && (n <=? 32))
   || (n =? 133) || (n =? 160))%nat.

(** [c.lower()]: A..Z and the Latin-1 capitals 192..222 (but the
    multiplication sign 215) move up by 32. *)
Definition lower_char (c : ascii) : ascii :=
  let n := nat_of_ascii c in
  if (((65 <=? n) && (n <=? 90))
      || ((192 <=? n) && (n <=? 222) && negb (n =? 215)))%nat
  then ascii_of_nat (n + 32) else c.

Fixpoint lower (s : string) : string :=
  match s with
  | EmptyString => EmptyString
  | String c s' => String (lower_char c) (lower s')
  end.

(** [s.split()]: maximal runs of non-space characters, in order.
    [w] is the run read so far. *)
Fixpoint split_from (w s : string) : list string :=
  match s with
  | EmptyString =>
      match w with EmptyString => [] | _ => [w] end
  | String c s' =>
      if isspace c then
        match w with
        | EmptyString => split_from EmptyString s'
        | _ => w :: split_from EmptyString s'
        end
      else split_from (w ++ String c EmptyString) s'
  end.

Definition split (s : string) : list string := split_from EmptyString s.

(** [sep.join(l)]. *)
Definition join (sep : string) (l : list string) : string := String.concat sep l.

(** [sub in s] on strings: [sub] occurs in [s] as a contiguous substring. *)
Fixpoint contains (sub s : string) : bool :=
  String.prefix sub s
  || match s with
     | EmptyString => false
     | String _ s' => contains sub s'
     end.

(** Truth value of a string: [not s] holds for the empty string only. *)
Definition truthy (s : string) : bool :=
  match s with EmptyString => false | _ => true end.

(** Truth value of a list. *)
Definition nonempty {A : Type} (l : list A) : bool :=
  match l with [] => false | _ => true end.

(** [l[:n]]. *)
Definition take {A : Type} (n : nat) (l : list A) : list A := firstn n l.

(** A Python set of hashable values, kept as a duplicate-free list. *)
Section Sets.
Context {A : Type} (eq_dec : forall x y : A, {x = y} + {x <> y}).

Definition mem (x : A) (s : list A) : bool :=
  if in_dec eq_dec x s then true else false.

Definition set_of (l : list A) : list A := nodup eq_dec l.

Definition intersection (s t : list A) : list A :=
  filter (fun x => mem x t) s.

Definition union (s t : list A) : list A := nodup eq_dec (s ++ t).
End Sets.

Definition words (l : list string) : list string := set_of string_dec l.
Definition inter (s t : list string) : list string := intersection string_dec s t.
Definition uni (s t : list string) : list string := union string_dec s t.

(** [len(x)] as a float operand. *)
Definition len {A : Type} (l : list A) : Q := inject_Z (Z.of_nat (List.length l)).

(** [a / b] on numbers: raises on a zero divisor. *)
Definition div (a b : Q) : result Q :=
  if Qeq_bool b 0 then Raise ZeroDivisionError else Ok (a / b)%Q.

(** [sum(l)] and [np.mean(l)], [np.var(l)] for a non-empty [l]. *)
Definition sum (l : list Q) : Q := fold_right Qplus 0%Q l.
Definition mean (l : list Q) : Q := (sum l / len l)%Q.
Definition var (l : list Q) : Q :=
  let m := mean l in mean (map (fun x => (x - m) * (x - m))%Q l).

End Py.

Import Py.

(** ** tests/simple-ragas-test.py *)

Module SimpleRAGAS.

(** [SimpleRAGASEvaluator.calculate_basic_relevance]. *)
Definition calculate_basic_relevance (query : string) (contexts : list string) : Q :=
  if negb (truthy query) || negb (nonempty contexts) then 0%Q
  else
    let query_words := words (split (lower query)) in
    if negb (nonempty query_words) then 0%Q
    else
      let total_relevance :=
        fold_left
          (fun total_relevance context =>
             let context_words := words (split (lower context)) in
             if nonempty context_words then
               let overlap := len (inter query_words context_words) in
               let relevance := (overlap / len (uni query_words context_words))%Q in
               (total_relevance + relevance)%Q
             else total_relevance)
          contexts 0%Q in
      if nonempty contexts then (total_relevance / len contexts)%Q else 0%Q.

(** [context_words.update(...)] over all contexts. *)
Definition context_vocabulary (contexts : list string) : list string :=
  fold_left (fun context_words context => uni context_words (split (lower context)))
    contexts [].

(** [SimpleRAGASEvaluator.calculate_context_utilization]. *)
Definition calculate_context_utilization (contexts : list string) (answer : string) : Q :=
  if negb (nonempty contexts) || negb (truthy answer) then 0%Q
  else
    let answer_words := words (split (lower answer)) in
    let context_words := context_vocabulary contexts in
    if negb (nonempty context_words) then 0%Q
    else
      let utilization := (len (inter answer_words context_words) / len context_words)%Q in
      Qmin utilization 1%Q.

(** [SimpleRAGASEvaluator.calculate_answer_completeness]. *)
Definition calculate_answer_completeness (query answer : string) : result Q :=
  if negb (truthy query) || negb (truthy answer) then Ok 0%Q
  else
    let query_words := words (split (lower query)) in
    let answer_words := words (split (lower answer)) in
    coverage <- div (len (inter query_words answer_words)) (len query_words) ;;
    let length_factor := Qmin (len (split answer) / 20)%Q 1%Q in
    Ok ((coverage + length_factor) / 2)%Q.

(** [SimpleRAGASEvaluator.calculate_faithfulness]. *)
Definition calculate_faithfulness (contexts : list string) (answer : string) : Q :=
  if negb (nonempty contexts) || negb (truthy answer) then 0%Q
  else
    let answer_words := words (split (lower answer)) in
    let context_content := lower (join " " contexts) in
    let context_words := words (split context_content) in
    if negb (nonempty context_words) then 0%Q
    else
      let grounded_words := inter answer_words context_words in
      let faithfulness :=
        if nonempty answer_words
        then (len grounded_words / len answer_words)%Q
        else 0%Q in
      Qmin faithfulness 1%Q.

(** [SimpleRAGASEvaluator.calculate_answer_similarity]. *)
Definition calculate_answer_similarity (answer ground_truth : string) : Q :=
  if negb (truthy answer) || negb (truthy ground_truth) then 0%Q
  else
    let answer_words := words (split (lower answer)) in
    let truth_words := words (split (lower ground_truth)) in
    if negb (nonempty answer_words) || negb (nonempty truth_words) then 0%Q
    else
      let intersection := len (inter answer_words truth_words) in
      let union := len (uni answer_words truth_words) in
      if Qlt_le_dec 0 union then (intersection / union)%Q else 0%Q.

(** The [metrics] dictionary of [evaluate_rag_response]. *)
Record Metrics : Type := {
  basic_relevance : Q;
  context_utilization : Q;
  answer_completeness : Q;
  faithfulness : Q;
  answer_similarity : option Q;
  overall_score : Q
}.

(** [SimpleRAGASEvaluator.evaluate_rag_response]; [ground_truth = None]
    is the default argument. *)
Definition evaluate_rag_response (query : string) (contexts : list string)
    (answer : string) (ground_truth : option string) : result Metrics :=
  let m_basic_relevance := calculate_basic_relevance query contexts in
  let m_context_utilization := calculate_context_utilization contexts answer in
  m_answer_completeness <- calculate_answer_completeness query answer ;;
  let m_faithfulness := calculate_faithfulness contexts answer in
  let m_answer_similarity :=
    match ground_truth with
    | Some gt => if truthy gt then Some (calculate_answer_similarity answer gt) else None
    | None => None
    end in
  let core_metrics :=
    [m_basic_relevance; m_context_utilization; m_answer_completeness; m_faithfulness] in
  Ok {| basic_relevance := m_basic_relevance;
        context_utilization := m_context_utilization;
        answer_completeness := m_answer_completeness;
        faithfulness := m_faithfulness;
        answer_similarity := m_answer_similarity;
        overall_score := (sum core_metrics / len core_metrics)%Q |}.

(** The gate of [run_ragas_tests] for its tests 1 and 4:
    ["PASS" if metrics['overall_score'] >= 0.7 else "FAIL"]. *)
Definition quality_gate (metrics : Metrics) : string :=
  if Qle_bool (7 # 10) (overall_score metrics) then "PASS" else "FAIL".

(** The gate of its test 2, which expects a low score:
    ["PASS" if metrics2['overall_score'] < 0.3 else "FAIL"]. *)
Definition quality_gate_low (metrics : Metrics) : string :=
  if negb (Qle_bool (3 # 10) (overall_score metrics)) then "PASS" else "FAIL".

(** The gate of its test 3, which expects a medium score:
    ["PASS" if 0.4 <= metrics3['overall_score'] <= 0.8 else "FAIL"]. *)
Definition quality_gate_medium (metrics : Metrics) : string :=
  if Qle_bool (4 # 10) (overall_score metrics) && Qle_bool (overall_score metrics) (8 # 10)
  then "PASS" else "FAIL".

(** The gate of its test 5, on the time per query of a batch of three:
    ["PASS" if batch_duration/len(batch_queries) < 100 else "FAIL"]. *)
Definition quality_gate_batch (batch_duration : Q) : string :=
  if negb (Qle_bool 100 (batch_duration / 3)) then "PASS" else "FAIL".

End SimpleRAGAS.

(** ** tests/rag-evaluation/python/evaluation_service.py *)

Module BasicRAGMetrics.

(** [BasicRAGMetrics.calculate_answer_completeness]. *)
Definition calculate_answer_completeness (query answer : string) : result Q :=
  if negb (truthy query) || negb (truthy answer) then Ok 0%Q
  else
    let query_words := words (split (lower query)) in
    let answer_words := words (split (lower answer)) in
    coverage <- div (len (inter query_words answer_words)) (len query_words) ;;
    let length_factor := Qmin (len (split answer) / 20)%Q 1%Q in
    Ok ((coverage + length_factor) / 2)%Q.

End BasicRAGMetrics.

(** ** tests/comprehensive-phase2-test.py *)

Module Phase2.

(** A [Dict[str, float]]. *)
Definition table : Type := list (string * Q).

Fixpoint lookup (t : table) (k : string) : option Q :=
  match t with
  | [] => None
  | (k', v) :: t' => if String.eqb k k' then Some v else lookup t' k
  end.

(** [t.get(k, d)] and [t[k]]. *)
Definition get (t : table) (k : string) (d : Q) : Q :=
  match lookup t k with Some v => v | None => d end.

Definition getitem (t : table) (k : string) : result Q :=
  match lookup t k with Some v => Ok v | None => Raise (KeyError k) end.

(** [TEST_CONFIG.quality_thresholds]. *)
Definition quality_thresholds : table :=
  [ ("embedding_similarity", 7 # 10); ("extraction_completeness", 8 # 10);
    ("search_precision", 6 # 10); ("overall_quality", 75 # 100);
    ("ragas_faithfulness", 7 # 10); ("ragas_answer_relevancy", 7 # 10);
    ("ragas_context_precision", 7 # 10) ]%Q.

(** [mock_ragas_scores] of [test_quality_gates]. *)
Definition mock_ragas_scores : table :=
  [ ("faithfulness", 78 # 100); ("answer_relevancy", 82 # 100);
    ("context_precision", 75 # 100); ("context_recall", 79 # 100) ]%Q.

(** The fields of [TestResult] that a quality gate sets; [metric] is the
    name the display name ["RAGAS <Metric> Quality Gate"] is built from,
    ["overall"] for ["Overall System Quality Gate"]. *)
Record TestResult : Type := {
  metric : string;
  category : string;
  status : string;
  score : Q;
  threshold : Q
}.

Definition status_of (score threshold : Q) : string :=
  if Qle_bool threshold score then "passed" else "failed".

(** Body of the loop over [mock_ragas_scores.items()]. *)
Definition metric_gate (thresholds : table) (item : string * Q) : TestResult :=
  let '(metric_name, score) := item in
  let threshold := get thresholds ("ragas_" ++ metric_name) (7 # 10) in
  {| metric := metric_name; category := "quality_gates";
     status := status_of score threshold;
     score := score; threshold := threshold |}.

(** The overall quality gate: the mean score against
    [quality_thresholds['overall_quality']]. *)
Definition overall_gate (thresholds scores : table) : result TestResult :=
  let overall_quality := mean (map snd scores) in
  threshold <- getitem thresholds "overall_quality" ;;
  Ok {| metric := "overall"; category := "quality_gates";
        status := status_of overall_quality threshold;
        score := overall_quality; threshold := threshold |}.

(** [test_quality_gates], with the threshold table and the scores it reads
    as arguments: the results it appends to [self.test_results]. *)
Definition test_quality_gates_with (thresholds scores : table) : result (list TestResult) :=
  let gates := map (metric_gate thresholds) scores in
  overall <- overall_gate thresholds scores ;;
  Ok (gates ++ [overall])%list.

Definition test_quality_gates : result (list TestResult) :=
  test_quality_gates_with quality_thresholds mock_ragas_scores.

End Phase2.

(** ** tests/multimodal-evaluation/multimodal-ragas-service.py *)

Module Multimodal.

(** An image descriptor, a [Dict[str, Any]] read with [get]. *)
Record Image : Type := {
  image_path : option string;
  extracted_text : option string;
  caption : option string
}.

(** [d.get(k)] used as a condition, for a string field. *)
Definition get_truthy (field : option string) : option string :=
  match field with
  | Some s => if truthy s then Some s else None
  | None => None
  end.

(** A cross-modal pair, a [Dict[str, Any]] read with [get]. *)
Record CrossModalPair : Type := {
  relationship_type : option string;
  confidence : option Q
}.

Definition confidence_or_default (pair : CrossModalPair) : Q :=
  match confidence pair with Some c => c | None => (5 # 10)%Q end.

(** The [score] of one pair in [evaluate_cross_modal_consistency]. *)
Definition pair_score (pair : CrossModalPair) : Q :=
  match relationship_type pair with
  | Some t =>
      if String.eqb t "caption" then (confidence_or_default pair * (12 # 10))%Q
      else if String.eqb t "reference" then (confidence_or_default pair * 1)%Q
      else (confidence_or_default pair * (8 # 10))%Q
  | None => (confidence_or_default pair * (8 # 10))%Q
  end.

(** [MultimodalQualityEvaluator.evaluate_cross_modal_consistency]. *)
Definition evaluate_cross_modal_consistency (cross_modal_pairs : list CrossModalPair) : Q :=
  if negb (nonempty cross_modal_pairs) then 1%Q
  else
    let consistency_scores :=
      map (fun pair => Qmin (pair_score pair) 1%Q) cross_modal_pairs in
    if nonempty consistency_scores then mean consistency_scores else (5 # 10)%Q.

Definition visual_keywords : list string :=
  ["figure"; "image"; "chart"; "graph"; "diagram"; "illustration"; "shown"; "depicted"].

(** [any(keyword in answer.lower() for keyword in visual_keywords)]. *)
Definition mentions_visual (answer : string) : bool :=
  existsb (fun keyword => contains keyword (lower answer)) visual_keywords.

(** [any(word in answer.lower() for word in text.lower().split()[:10])]. *)
Definition mentions_text (answer text : string) : bool :=
  existsb (fun word => contains word (lower answer)) (take 10 (split (lower text))).

(** One turn of the loop of [evaluate_visual_grounding] on the pair
    [(visual_references, total_visual_content)]. *)
Definition grounding_step (answer : string) (st : Q * nat) (image : Image) : Q * nat :=
  let '(visual_references, total_visual_content) := st in
  let total_visual_content := S total_visual_content in
  let visual_references :=
    if mentions_visual answer then (visual_references + 1)%Q else visual_references in
  let visual_references :=
    match get_truthy (extracted_text image) with
    | Some text =>
        if mentions_text answer text then (visual_references + (5 # 10))%Q
        else visual_references
    | None => visual_references
    end in
  (visual_references, total_visual_content).

(** [MultimodalQualityEvaluator.evaluate_visual_grounding]. *)
Definition evaluate_visual_grounding (answer : string) (images : list Image) : Q :=
  if negb (nonempty images) then 1%Q
  else
    let '(visual_references, total_visual_content) :=
      fold_left (grounding_step answer) images (0%Q, 0%nat) in
    if (0 <? total_visual_content)%nat
    then Qmin (visual_references / inject_Z (Z.of_nat total_visual_content))%Q 1%Q
    else 1%Q.

(** [MultimodalQualityEvaluator.evaluate_content_coverage]. *)
Definition evaluate_content_coverage (answer : string) (contexts : list string)
    (images : list Image) : Q :=
  let total_content_elements := (List.length contexts + List.length images)%nat in
  if (total_content_elements =? 0)%nat then 1%Q
  else
    let answer_words := words (split (lower answer)) in
    let covered_elements :=
      fold_left
        (fun covered_elements context =>
           let context_words := words (split (lower context)) in
           let overlap := List.length (inter answer_words context_words) in
           if (3 <? overlap)%nat then (covered_elements + 1)%Q else covered_elements)
        contexts 0%Q in
    let covered_elements :=
      fold_left
        (fun covered_elements image =>
           match get_truthy (extracted_text image) with
           | Some text =>
               let image_words := words (split (lower text)) in
               let overlap := List.length (inter answer_words image_words) in
               if (1 <? overlap)%nat then (covered_elements + (5 # 10))%Q
               else covered_elements
           | None => covered_elements
           end)
        images covered_elements in
    Qmin (covered_elements / inject_Z (Z.of_nat total_content_elements))%Q 1%Q.

(** A search result and its ["metadata"], [Dict[str, Any]] read with [get]. *)
Record Metadata : Type := {
  document_id : option string;
  content_type : option string;
  page_number : option Z
}.

Record SearchResult : Type := {
  node_id : option string;
  score : option Q;
  metadata : option Metadata
}.

(** [result.get("metadata", {}).get(k, d)]. *)
Definition metadata_get {A : Type} (field : Metadata -> option A) (d : A)
    (result : SearchResult) : A :=
  match metadata result with
  | Some m => match field m with Some v => v | None => d end
  | None => d
  end.

(** [SearchQualityEvaluator.evaluate_result_diversity]. *)
Definition evaluate_result_diversity (search_results : list SearchResult) : Q :=
  if (List.length search_results <? 2)%nat then 1%Q
  else
    let doc_ids := map (metadata_get document_id "") search_results in
    let unique_docs := len (set_of string_dec doc_ids) in
    let doc_diversity := (unique_docs / len search_results)%Q in
    let content_types := map (metadata_get content_type "text") search_results in
    let unique_types := len (set_of string_dec content_types) in
    let type_diversity := Qmin (unique_types / 3)%Q 1%Q in
    let pages := map (metadata_get page_number 1%Z) search_results in
    let unique_pages := len (set_of Z.eq_dec pages) in
    let page_diversity := Qmin (unique_pages / 5)%Q 1%Q in
    ((doc_diversity + type_diversity + page_diversity) / 3)%Q.

(** [all(scores[i] >= scores[i+1] for i in range(len(scores)-1))]. *)
Fixpoint non_increasing (scores : list Q) : bool :=
  match scores with
  | x :: (y :: _) as rest => Qle_bool y x && non_increasing rest
  | _ => true
  end.

(** [evaluate_ranking_quality]. *)
Definition evaluate_ranking_quality (search_results : list SearchResult) : Q :=
  if negb (nonempty search_results) then 0%Q
  else
    let scores :=
      map (fun result => match score result with Some s => s | None => (5 # 10)%Q end)
        search_results in
    let is_sorted := non_increasing scores in
    let sorting_score := if is_sorted then 1%Q else (5 # 10)%Q in
    let variance_score :=
      if (1 <? List.length scores)%nat
      then let score_variance := var scores in Qmin (score_variance * 2)%Q 1%Q
      else (5 # 10)%Q in
    ((sorting_score + variance_score) / 2)%Q.

(** *** Similarity gateway: embeddings are vectors of reals *)

(** A numpy float: a number or nan. *)
Inductive npfloat : Type :=
| Num (r : R)
| NaN.

(** [np.dot] of two one-dimensional arrays of the same length. *)
Fixpoint dot (v1 v2 : list R) : R :=
  match v1, v2 with
  | x :: v1', y :: v2' => (x * y + dot v1' v2')%R
  | _, _ => 0%R
  end.

(** [np.linalg.norm]. *)
Definition norm (v : list R) : R := sqrt (dot v v).

(** [a / b] on numpy floats: [0 / 0] is nan and nothing is raised.  The
    numerator of the only division below vanishes with its divisor, so
    infinities do not occur. *)
Definition np_div (a b : R) : npfloat :=
  if Req_dec_T b 0%R then NaN else Num (a / b)%R.

(** [MultimodalQualityEvaluator.cosine_similarity]; [np.dot] raises
    [ValueError] on arrays of different lengths. *)
Definition cosine_similarity (vec1 vec2 : list R) : result npfloat :=
  if (List.length vec1 =? List.length vec2)%nat
  then Ok (np_div (dot vec1 vec2) (norm vec1 * norm vec2)%R)
  else Raise (ValueError "shapes not aligned").

Definition np_add (a b : npfloat) : npfloat :=
  match a, b with
  | Num x, Num y => Num (x + y)%R
  | _, _ => NaN
  end.

(** [np.mean] and [np.max] of a non-empty list. *)
Definition np_mean (l : list npfloat) : npfloat :=
  match fold_right np_add (Num 0%R) l with
  | Num s => Num (s / INR (List.length l))%R
  | NaN => NaN
  end.

Definition np_max2 (a b : npfloat) : npfloat :=
  match a, b with
  | Num x, Num y => Num (Rmax x y)
  | _, _ => NaN
  end.

Definition np_max (l : list npfloat) : result npfloat :=
  match l with
  | [] => Raise (ValueError "zero-size array to reduction operation maximum")
  | x :: l' => Ok (fold_left np_max2 l' x)
  end.

(** [x < c] on a numpy float; false on nan. *)
Definition np_ltb (x : npfloat) (c : R) : bool :=
  match x with
  | Num r => if Rlt_dec r c then true else false
  | NaN => false
  end.

(** What the code reads of a [requests] response of the embedding
    provider: the status and [response.json()["embedding"]]. *)
Record Response : Type := {
  status_code : Z;
  json_embedding : result (list R)
}.

(** What the code reads of the response of the RAGAS service:
    [response.json()] and, inside it, the optional ["metrics"]. *)
Record RagasResponse : Type := {
  ragas_status_code : Z;
  ragas_json_metrics : result (option (list (string * Q)))
}.

(** [MultimodalEvaluationRequest]. *)
Record MultimodalEvaluationRequest : Type := {
  query : string;
  retrieved_contexts : list string;
  retrieved_images : list Image;
  generated_answer : string;
  ground_truth : option string;
  cross_modal_pairs : list CrossModalPair;
  evaluation_types : list string
}.

(** [MultimodalEvaluationResult]. *)
Record MultimodalEvaluationResult : Type := {
  r_query : string;
  ragas_metrics : list (string * Q);
  image_relevance : npfloat;
  cross_modal_consistency : Q;
  multimodal_faithfulness : npfloat;
  visual_grounding : Q;
  content_coverage : Q;
  recommendations : list string;
  evaluation_time : Q;
  models_used : list string
}.

(** The constraint [Field(ge=0.0, le=1.0)] on a supplied value. *)
Definition unit_q (v : Q) : bool := Qle_bool 0 v && Qle_bool v 1.

Definition unit_np (v : npfloat) : bool :=
  match v with
  | Num r => (if Rle_dec 0 r then true else false) && (if Rle_dec r 1 then true else false)
  | NaN => false
  end.

(** The check pydantic makes of one field declared
    [float = Field(ge=0.0, le=1.0)]: the field has no default, so it is
    required; [None] stands for a keyword that the call does not pass. *)
Definition check_field {A : Type} (name : string) (ok : A -> bool) (v : option A)
  : list string :=
  match v with
  | Some x => if ok x then [] else [name]
  | None => [name]
  end.

(** [MultimodalEvaluationResult(query=..., evaluation_time=..., models_used=...,
    ...)]: the five score fields are declared without a default. *)
Definition new_MultimodalEvaluationResult (query : string)
    (image_relevance : option npfloat) (cross_modal_consistency : option Q)
    (multimodal_faithfulness : option npfloat) (visual_grounding : option Q)
    (content_coverage : option Q) (evaluation_time : Q) (models_used : list string)
  : result MultimodalEvaluationResult :=
  match image_relevance, cross_modal_consistency, multimodal_faithfulness,
        visual_grounding, content_coverage with
  | Some ir, Some cmc, Some mf, Some vg, Some cc =>
      if unit_np ir && unit_q cmc && unit_np mf && unit_q vg && unit_q cc then
        Ok {| r_query := query; ragas_metrics := [];
              image_relevance := ir; cross_modal_consistency := cmc;
              multimodal_faithfulness := mf; visual_grounding := vg;
              content_coverage := cc; recommendations := [];
              evaluation_time := evaluation_time; models_used := models_used |}
      else
        Raise (ValidationError
                 (check_field "image_relevance" unit_np image_relevance
                  ++ check_field "cross_modal_consistency" unit_q cross_modal_consistency
                  ++ check_field "multimodal_faithfulness" unit_np multimodal_faithfulness
                  ++ check_field "visual_grounding" unit_q visual_grounding
                  ++ check_field "content_coverage" unit_q content_coverage)%list)
  | _, _, _, _, _ =>
      Raise (ValidationError
               (check_field "image_relevance" unit_np image_relevance
                ++ check_field "cross_modal_consistency" unit_q cross_modal_consistency
                ++ check_field "multimodal_faithfulness" unit_np multimodal_faithfulness
                ++ check_field "visual_grounding" unit_q visual_grounding
                ++ check_field "content_coverage" unit_q content_coverage)%list)
  end.

(** [generate_multimodal_recommendations]. *)
Definition generate_multimodal_recommendations (result : MultimodalEvaluationResult)
  : list string :=
  ((if np_ltb (image_relevance result) (7 / 10)%R
    then ["Consider improving image relevance by using more targeted visual content"]
    else [])
   ++ (if Qlt_le_dec (cross_modal_consistency result) (6 # 10)
       then ["Improve text-image alignment and relationship identification"]
       else [])
   ++ (if Qlt_le_dec (visual_grounding result) (5 # 10)
       then ["Increase references to visual content in generated answers"]
       else [])
   ++ (if Qlt_le_dec (Phase2.get (ragas_metrics result) "basic_relevance" 0) (7 # 10)
       then ["Enhance text-based relevance through better keyword matching"]
       else []))%list.

Section Service.

(** The collaborators reached over HTTP and the loaded model. *)
Variable post_embed_text : string -> result Response.
Variable post_embed_image : string -> result Response.
Variable post_ragas_evaluate : MultimodalEvaluationRequest -> result RagasResponse.
Variable similarity_model : option (list string -> result (list (list R))).
(** [time.time() - start_time]. *)
Variable elapsed : Q.

(** The loop over [images] of [evaluate_image_relevance]. *)
Fixpoint relevance_loop (query_embedding : list R) (images : list Image)
    (relevance_scores : list npfloat) : result (list npfloat) :=
  match images with
  | [] => Ok relevance_scores
  | image :: rest =>
      match get_truthy (image_path image) with
      | Some path =>
          img_response <- post_embed_image path ;;
          if (status_code img_response =? 200)%Z then
            img_embedding <- json_embedding img_response ;;
            similarity <- cosine_similarity query_embedding img_embedding ;;
            relevance_loop query_embedding rest (relevance_scores ++ [similarity])%list
          else relevance_loop query_embedding rest relevance_scores
      | None => relevance_loop query_embedding rest relevance_scores
      end
  end.

(** The [try] block of [evaluate_image_relevance]. *)
Definition image_relevance_try (query : string) (images : list Image) : result npfloat :=
  query_response <- post_embed_text query ;;
  if negb (status_code query_response =? 200)%Z then Ok (Num (5 / 10)%R)
  else
    query_embedding <- json_embedding query_response ;;
    relevance_scores <- relevance_loop query_embedding images [] ;;
    Ok (if nonempty relevance_scores then np_mean relevance_scores else Num 0%R).

(** [MultimodalQualityEvaluator.evaluate_image_relevance]. *)
Definition evaluate_image_relevance (query : string) (images : list Image) : npfloat :=
  if negb (nonempty images) then Num 0%R
  else
    match image_relevance_try query images with
    | Ok v => v
    | Raise _ => Num (5 / 10)%R
    end.

(** [all_contexts] of [evaluate_multimodal_faithfulness]. *)
Definition all_contexts (contexts : list string) (images : list Image) : list string :=
  fold_left
    (fun all_contexts image =>
       let all_contexts :=
         match get_truthy (extracted_text image) with
         | Some t => (all_contexts ++ [("Image content: " ++ t)%string])%list
         | None => all_contexts
         end in
       match get_truthy (caption image) with
       | Some c => (all_contexts ++ [("Image caption: " ++ c)%string])%list
       | None => all_contexts
       end)
    images contexts.

Fixpoint similarities (answer_embedding : list R) (context_embeddings : list (list R))
  : result (list npfloat) :=
  match context_embeddings with
  | [] => Ok []
  | context_emb :: rest =>
      sim <- cosine_similarity answer_embedding context_emb ;;
      sims <- similarities answer_embedding rest ;;
      Ok (sim :: sims)
  end.

(** [MultimodalQualityEvaluator.evaluate_multimodal_faithfulness]. *)
Definition evaluate_multimodal_faithfulness (answer : string) (contexts : list string)
    (images : list Image) : npfloat :=
  let attempt : result npfloat :=
    let all_contexts := all_contexts contexts images in
    if negb (nonempty all_contexts) then Ok (Num 0%R)
    else
      match similarity_model with
      | Some encode =>
          answer_embedding <- encode [answer] ;;
          context_embeddings <- encode all_contexts ;;
          match answer_embedding with
          | a0 :: _ =>
              sims <- similarities a0 context_embeddings ;;
              np_max sims
          | [] => Raise (ValueError "index 0 is out of bounds")
          end
      | None => Ok (Num (7 / 10)%R)
      end in
  match attempt with
  | Ok v => v
  | Raise _ => Num (5 / 10)%R
  end.

(** The [text_quality] step of [evaluate_multimodal_response]: the
    metrics the result holds afterwards. *)
Definition ragas_step (request : MultimodalEvaluationRequest)
    (current : list (string * Q)) : list (string * Q) :=
  let attempt : result (list (string * Q)) :=
    ragas_response <- post_ragas_evaluate request ;;
    if (ragas_status_code ragas_response =? 200)%Z then
      ragas_data <- ragas_json_metrics ragas_response ;;
      Ok (match ragas_data with Some m => m | None => [] end)
    else Ok current in
  match attempt with
  | Ok m => m
  | Raise _ =>
      [("basic_relevance", 5 # 10); ("context_utilization", 5 # 10);
       ("answer_completeness", 5 # 10)]%Q
  end.

Definition requested (name : string) (request : MultimodalEvaluationRequest) : bool :=
  mem string_dec name (evaluation_types request).

(** The [try] block of [evaluate_multimodal_response]. *)
Definition multimodal_response_try (request : MultimodalEvaluationRequest)
  : result MultimodalEvaluationResult :=
  result <- new_MultimodalEvaluationResult (query request) None None None None None 0%Q
              ["multimodal_ragas"; "m_clip"; "sentence_transformers"] ;;
  let m_ragas :=
    if requested "text_quality" request
    then ragas_step request (ragas_metrics result) else ragas_metrics result in
  let m_image :=
    if requested "image_relevance" request
    then evaluate_image_relevance (query request) (retrieved_images request)
    else image_relevance result in
  let m_cross :=
    if requested "cross_modal_consistency" request
    then evaluate_cross_modal_consistency (cross_modal_pairs request)
    else cross_modal_consistency result in
  let m_faith :=
    if requested "multimodal_faithfulness" request
    then evaluate_multimodal_faithfulness (generated_answer request)
           (retrieved_contexts request) (retrieved_images request)
    else multimodal_faithfulness result in
  let scored :=
    {| r_query := r_query result; ragas_metrics := m_ragas;
       image_relevance := m_image; cross_modal_consistency := m_cross;
       multimodal_faithfulness := m_faith;
       visual_grounding :=
         evaluate_visual_grounding (generated_answer request) (retrieved_images request);
       content_coverage :=
         evaluate_content_coverage (generated_answer request)
           (retrieved_contexts request) (retrieved_images request);
       recommendations := recommendations result;
       evaluation_time := evaluation_time result;
       models_used := models_used result |} in
  Ok {| r_query := r_query scored; ragas_metrics := ragas_metrics scored;
        image_relevance := image_relevance scored;
        cross_modal_consistency := cross_modal_consistency scored;
        multimodal_faithfulness := multimodal_faithfulness scored;
        visual_grounding := visual_grounding scored;
        content_coverage := content_coverage scored;
        recommendations := generate_multimodal_recommendations scored;
        evaluation_time := elapsed;
        models_used := models_used scored |}.

(** [evaluate_multimodal_response]: every exception of the block becomes
    an [HTTPException] with status 500. *)
Definition evaluate_multimodal_response (request : MultimodalEvaluationRequest)
  : result MultimodalEvaluationResult :=
  match multimodal_response_try request with
  | Ok result => Ok result
  | Raise e =>
      Raise (HTTPException 500 ("Multimodal evaluation failed: " ++ str_of_exn e))
  end.

End Service.

(** *** The batch endpoint *)

Section Batch.

(** The JSON object under ["data"] and what an endpoint returns. *)
Variable Data : Type.
Variable Output : Type.

(** Building the request model from the data and awaiting the endpoint:
    [evaluate_multimodal_response], [evaluate_document_processing],
    [evaluate_search_quality]. *)
Variable run_multimodal : Data -> result Output.
Variable run_document_processing : Data -> result Output.
Variable run_search : Data -> result Output.

(** One entry of [evaluation_requests]. *)
Record RequestData : Type := {
  type : option string;
  data : option Data
}.

(** What is stored under ["result"]. *)
Inductive Outcome : Type :=
| Evaluated (output : Output)
| UnknownType (error : string).

(** One entry of ["batch_results"]. *)
Inductive BatchEntry : Type :=
| EntryResult (index : nat) (result : Outcome)
| EntryError (index : nat) (error : string).

(** [request_data["data"]]. *)
Definition data_of (request_data : RequestData) : result Data :=
  match data request_data with
  | Some d => Ok d
  | None => Raise (KeyError "data")
  end.

(** The [try] block of the loop of [batch_evaluate]. *)
Definition batch_try (request_data : RequestData) : result Outcome :=
  let eval_type := match type request_data with Some t => t | None => "multimodal" end in
  if String.eqb eval_type "multimodal" then
    d <- data_of request_data ;; r <- run_multimodal d ;; Ok (Evaluated r)
  else if String.eqb eval_type "document_processing" then
    d <- data_of request_data ;; r <- run_document_processing d ;; Ok (Evaluated r)
  else if String.eqb eval_type "search" then
    d <- data_of request_data ;; r <- run_search d ;; Ok (Evaluated r)
  else Ok (UnknownType ("Unknown evaluation type: " ++ eval_type)).

Definition batch_entry (i : nat) (request_data : RequestData) : BatchEntry :=
  match batch_try request_data with
  | Ok result => EntryResult i result
  | Raise e => EntryError i (str_of_exn e)
  end.

(** The loop of [batch_evaluate] from index [i] on. *)
Fixpoint batch_loop (i : nat) (evaluation_requests : list RequestData)
    (results : list BatchEntry) : list BatchEntry :=
  match evaluation_requests with
  | [] => results
  | request_data :: rest =>
      batch_loop (S i) rest (results ++ [batch_entry i request_data])%list
  end.

(** [batch_evaluate]: the list under ["batch_results"]. *)
Definition batch_evaluate (evaluation_requests : list RequestData) : list BatchEntry :=
  batch_loop 0 evaluation_requests [].

End Batch.

End Multimodal.

(** ** tests/rag-evaluation/python/ragas_service.py *)

Module RagasService.

(** One object of the ground-truth JSON file, read with [item[k]]. *)
Record Item : Type := {
  question : option string;
  contexts : option (list string);
  answer : option string;
  ground_truth : option string
}.

(** [item[name]]. *)
Definition field {A : Type} (name : string) (v : option A) : result A :=
  match v with
  | Some x => Ok x
  | None => Raise (KeyError name)
  end.

(** [[item[name] for item in ground_truth_data]]. *)
Fixpoint column {A : Type} (name : string) (get : Item -> option A)
    (ground_truth_data : list Item) : result (list A) :=
  match ground_truth_data with
  | [] => Ok []
  | item :: rest =>
      x <- field name (get item) ;;
      xs <- column name get rest ;;
      Ok (x :: xs)
  end.

(** The dictionary given to [Dataset.from_dict]. *)
Record Dataset : Type := {
  ds_question : list string;
  ds_contexts : list (list string);
  ds_answer : list string;
  ds_ground_truth : list string
}.

(** [result[metric]]: one number or an array of numbers. *)
Inductive ragas_value : Type :=
| Scalar (q : Q)
| Scores (l : list Q).

(** [np.mean(result[metric])]; [None] is nan, the mean of an empty array. *)
Definition np_mean (v : ragas_value) : option Q :=
  match v with
  | Scalar q => Some q
  | Scores [] => None
  | Scores l => Some (mean l)
  end.

Definition available_metrics : list string :=
  ["faithfulness"; "answer_relevancy"; "context_precision"; "context_recall";
   "answer_correctness"].

Definition default_metrics : list string :=
  ["faithfulness"; "answer_relevancy"; "context_precision"; "context_recall"].

(** [d[k] = v] on a dictionary kept in insertion order. *)
Fixpoint assoc_set {V : Type} (d : list (string * V)) (k : string) (v : V)
  : list (string * V) :=
  match d with
  | [] => [(k, v)]
  | (k', v') :: d' =>
      if String.eqb k k' then (k', v) :: d' else (k', v') :: assoc_set d' k v
  end.

Fixpoint assoc_get {V : Type} (d : list (string * V)) (k : string) : option V :=
  match d with
  | [] => None
  | (k', v) :: d' => if String.eqb k k' then Some v else assoc_get d' k
  end.

(** The statistics of one metric. *)
Record Stats : Type := {
  st_mean : Q;
  st_std : Q;
  st_min : Q;
  st_max : Q
}.

(** One entry of [individual_results]. *)
Record Individual : Type := {
  question_id : nat;
  ind_question : string;
  ind_metrics : list (string * Q)
}.

(** The value [batch_evaluate_ground_truth] returns. *)
Record BatchReport : Type := {
  samples_evaluated : nat;
  metrics_used : list string;
  aggregate_results : list (string * Stats);
  individual_results : list Individual;
  total_entries : nat
}.

(** One value of [comparison]. *)
Record Comparison : Type := {
  system_a : option Q;
  system_b : option Q;
  difference : option Q;
  winner : string
}.

(** The value [compare_rag_systems] returns. *)
Record CompareReport : Type := {
  comparison_results : list (string * Comparison);
  overall_winner : string;
  evaluated_samples : nat
}.

(** [x > y] on floats; false when one of them is nan. *)
Definition float_gt (x y : option Q) : bool :=
  match x, y with
  | Some a, Some b => if Qlt_le_dec b a then true else false
  | _, _ => false
  end.

Definition float_sub (x y : option Q) : option Q :=
  match x, y with
  | Some a, Some b => Some (a - b)%Q
  | _, _ => None
  end.

Definition float_abs (x : option Q) : option Q := option_map Qabs x.

(** [max(l, key=key)]: the first element whose key no later one exceeds. *)
Fixpoint max_from {A : Type} (key : A -> option Q) (best : A) (l : list A) : A :=
  match l with
  | [] => best
  | x :: l' => max_from key (if float_gt (key x) (key best) then x else best) l'
  end.

Definition py_max {A : Type} (key : A -> option Q) (l : list A) : result A :=
  match l with
  | [] => Raise (ValueError "max() arg is an empty sequence")
  | x :: l' => Ok (max_from key x l')
  end.

(** The comparison of one metric in [compare_rag_systems]. *)
Definition compare_scores (score_a score_b : option Q) : Comparison :=
  {| system_a := score_a;
     system_b := score_b;
     difference := float_sub score_b score_a;
     winner := if float_gt score_b score_a then "System B"
               else if float_gt score_a score_b then "System A"
               else "Tie" |}.

Section Service.

(** The language model, and RAGAS's [evaluate] on the data set built by
    [Dataset.from_dict], with what the code observes of its result. *)
Variable LLM : Type.
Variable RagasResult : Type.
Variable get_llm_and_embeddings : result LLM.
Variable evaluate : Dataset -> list string -> LLM -> result RagasResult.
(** [hasattr(result, 'to_pandas')] and the columns of [result.to_pandas()]. *)
Variable to_pandas : RagasResult -> option (result (list (string * list Q))).
(** [metric in result] and [result[metric]]. *)
Variable contains_metric : RagasResult -> string -> bool.
Variable getitem : RagasResult -> string -> ragas_value.
(** [np.std] of a non-empty array. *)
Variable np_std : list Q -> Q.

(** The dictionary of [mean], [std], [min] and [max]; [np.min] raises on
    an empty array. *)
Definition stats_of (scores : list Q) : result Stats :=
  match scores with
  | [] => Raise (ValueError "zero-size array to reduction operation minimum")
  | x :: l =>
      Ok {| st_mean := mean scores; st_std := np_std scores;
            st_min := fold_left Qmin l x; st_max := fold_left Qmax l x |}
  end.

(** [individual_results[i]["metrics"][metric_name] = score]. *)
Fixpoint set_metric (individual_results : list Individual) (i : nat)
    (metric_name : string) (score : Q) : list Individual :=
  match individual_results, i with
  | [], _ => []
  | r :: rest, O =>
      {| question_id := question_id r; ind_question := ind_question r;
         ind_metrics := assoc_set (ind_metrics r) metric_name score |} :: rest
  | r :: rest, S i' => r :: set_metric rest i' metric_name score
  end.

(** The loop [for i, score in enumerate(scores)] from index [i] on. *)
Fixpoint record_scores (questions : list string) (metric_name : string) (i : nat)
    (scores : list Q) (individual_results : list Individual)
  : result (list Individual) :=
  match scores with
  | [] => Ok individual_results
  | score :: rest =>
      individual_results <-
        (if (List.length individual_results <=? i)%nat then
           match nth_error questions i with
           | Some q =>
               Ok (individual_results
                   ++ [{| question_id := i; ind_question := q; ind_metrics := [] |}])%list
           | None => Raise (IndexError "list index out of range")
           end
         else Ok individual_results) ;;
      record_scores questions metric_name (S i) rest
        (set_metric individual_results i metric_name score)
  end.

(** The scores of one metric that the result gives, if any. *)
Definition scores_of (ragas_result : RagasResult) (metric_name : string)
  : result (option (list Q)) :=
  match to_pandas ragas_result with
  | Some frame =>
      result_df <- frame ;;
      Ok (assoc_get result_df metric_name)
  | None =>
      if contains_metric ragas_result metric_name then
        match getitem ragas_result metric_name with
        | Scores l => Ok (Some l)
        | Scalar _ => Ok None
        end
      else Ok None
  end.

(** The loop [for metric_name in metrics] over the result. *)
Fixpoint aggregate (ragas_result : RagasResult) (questions : list string)
    (metrics : list string) (aggregate_results : list (string * Stats))
    (individual_results : list Individual)
    : result (list (string * Stats) * list Individual) :=
  match metrics with
  | [] => Ok (aggregate_results, individual_results)
  | metric_name :: rest =>
      found <- scores_of ragas_result metric_name ;;
      match found with
      | Some scores =>
          st <- stats_of scores ;;
          individual_results <-
            record_scores questions metric_name 0 scores individual_results ;;
          aggregate ragas_result questions rest
            (assoc_set aggregate_results metric_name st) individual_results
      | None => aggregate ragas_result questions rest aggregate_results individual_results
      end
  end.

(** The [try] block of [batch_evaluate_ground_truth]; [ground_truth_file]
    is the content of [default_qa.json], [None] when the file is absent. *)
Definition batch_try (ground_truth_file : option (list Item)) (metrics : list string)
  : result BatchReport :=
  let metrics := if nonempty metrics then metrics else default_metrics in
  ground_truth_data <-
    match ground_truth_file with
    | Some d => Ok d
    | None => Raise (HTTPException 404 "No ground truth data found")
    end ;;
  if negb (nonempty ground_truth_data)
  then Raise (HTTPException 400 "Ground truth dataset is empty")
  else
    llm <- get_llm_and_embeddings ;;
    questions <- column "question" question ground_truth_data ;;
    contexts <- column "contexts" contexts ground_truth_data ;;
    answers <- column "answer" answer ground_truth_data ;;
    ground_truths <- column "ground_truth" ground_truth ground_truth_data ;;
    let dataset :=
      {| ds_question := questions; ds_contexts := contexts;
         ds_answer := answers; ds_ground_truth := ground_truths |} in
    let selected_metrics :=
      filter (fun m => mem string_dec m available_metrics) metrics in
    ragas_result <- evaluate dataset selected_metrics llm ;;
    agg <- aggregate ragas_result questions metrics [] [] ;;
    let '(aggregate_results, individual_results) := agg in
    Ok {| samples_evaluated := List.length ground_truth_data;
          metrics_used := metrics;
          aggregate_results := aggregate_results;
          individual_results := take 5 individual_results;
          total_entries := List.length individual_results |}.

(** [batch_evaluate_ground_truth]. *)
Definition batch_evaluate_ground_truth (ground_truth_file : option (list Item))
    (metrics : list string) : result BatchReport :=
  match batch_try ground_truth_file metrics with
  | Ok report => Ok report
  | Raise e => Raise (HTTPException 500 ("Batch evaluation failed: " ++ str_of_exn e))
  end.

(** The loop over the four metrics in [compare_rag_systems]. *)
Definition compare_results (result_a result_b : RagasResult)
  : list (string * Comparison) :=
  fold_left
    (fun comparison metric =>
       if contains_metric result_a metric && contains_metric result_b metric then
         let score_a := np_mean (getitem result_a metric) in
         let score_b := np_mean (getitem result_b metric) in
         assoc_set comparison metric (compare_scores score_a score_b)
       else comparison)
    default_metrics [].

(** The [try] block of [compare_rag_systems]. *)
Definition compare_try (ground_truth_file : option (list Item))
    (system_a_responses system_b_responses : list string) : result CompareReport :=
  ground_truth_data <-
    match ground_truth_file with
    | Some d => Ok d
    | None => Raise (FileNotFoundError "default_qa.json")
    end ;;
  if negb (List.length system_a_responses =? List.length system_b_responses)%nat
     || negb (List.length system_a_responses =? List.length ground_truth_data)%nat
  then Raise (HTTPException 400 "Response arrays must match ground truth length")
  else
    llm <- get_llm_and_embeddings ;;
    questions_a <- column "question" question ground_truth_data ;;
    contexts_a <- column "contexts" contexts ground_truth_data ;;
    ground_truths_a <- column "ground_truth" ground_truth ground_truth_data ;;
    result_a <-
      evaluate {| ds_question := questions_a; ds_contexts := contexts_a;
                  ds_answer := system_a_responses;
                  ds_ground_truth := ground_truths_a |} default_metrics llm ;;
    questions_b <- column "question" question ground_truth_data ;;
    contexts_b <- column "contexts" contexts ground_truth_data ;;
    ground_truths_b <- column "ground_truth" ground_truth ground_truth_data ;;
    result_b <-
      evaluate {| ds_question := questions_b; ds_contexts := contexts_b;
                  ds_answer := system_b_responses;
                  ds_ground_truth := ground_truths_b |} default_metrics llm ;;
    let comparison := compare_results result_a result_b in
    top <- py_max (fun x : string * Comparison => float_abs (difference (snd x)))
             comparison ;;
    Ok {| comparison_results := comparison;
          overall_winner := winner (snd top);
          evaluated_samples := List.length ground_truth_data |}.

(** [compare_rag_systems]. *)
Definition compare_rag_systems (ground_truth_file : option (list Item))
    (system_a_responses system_b_responses : list string) : result CompareReport :=
  match compare_try ground_truth_file system_a_responses system_b_responses with
  | Ok report => Ok report
  | Raise e => Raise (HTTPException 500 ("System comparison failed: " ++ str_of_exn e))
  end.

End Service.

End RagasService.

(** ** The specification's wording of the metrics *)

Module Spec.

(** The lower-cased whitespace tokens of a text, each once. *)
Definition tokens (text : string) : list string := words (split (lower text)).

(** The tokens of the concatenated context text. *)
Definition vocabulary (contexts : list string) : list string :=
  tokens (join " " contexts).

(** The fraction of the answer's tokens that occur among the tokens of
    the contexts. *)
Definition grounded_fraction (contexts : list string) (answer : string) : Q :=
  (len (filter (fun t => mem string_dec t (vocabulary contexts)) (tokens answer))
   / len (tokens answer))%Q.

(** The weight of a relationship type: 1.2 for a caption, 1.0 for a
    reference, 0.8 for anything else. *)
Definition weight (relationship_type : option string) : Q :=
  match relationship_type with
  | Some t =>
      if String.eqb t "caption" then (12 # 10)%Q
      else if String.eqb t "reference" then 1%Q
      else (8 # 10)%Q
  | None => (8 # 10)%Q
  end.

(** A pair that carries a confidence, as the dictionary the code reads. *)
Definition pair_dict (p : option string * Q) : Multimodal.CrossModalPair :=
  {| Multimodal.relationship_type := fst p; Multimodal.confidence := Some (snd p) |}.

(** The mean over the pairs of the weighted confidence capped at 1. *)
Definition weighted_confidence_mean (pairs : list (option string * Q)) : Q :=
  mean (map (fun p => Qmin (snd p * weight (fst p)) 1%Q) pairs).

(** An image counts as reflected when the answer holds a visual keyword
    or shares a token with the image's extracted text. *)
Definition lexical_overlap (answer text : string) : bool :=
  nonempty (inter (tokens answer) (tokens text)).

Definition reflected (answer : string) (image : Multimodal.Image) : bool :=
  Multimodal.mentions_visual answer
  || match Multimodal.extracted_text image with
     | Some text => lexical_overlap answer text
     | None => false
     end.

(** The fraction of reflected images, 1 for no image. *)
Definition reflected_fraction (answer : string) (images : list Multimodal.Image) : Q :=
  if nonempty images
  then (len (filter (reflected answer) images) / len images)%Q
  else 1%Q.

(** The image's extracted text is referenced: one of its first ten
    lower-cased words occurs in the lower-cased answer. *)
Definition text_referenced (answer : string) (image : Multimodal.Image) : bool :=
  match Multimodal.get_truthy (Multimodal.extracted_text image) with
  | Some text => Multimodal.mentions_text answer text
  | None => false
  end.

(** Every call of an embedding endpoint fails: it raises (connection
    error, timeout) or answers with a status other than 200. *)
Definition provider_fails (post : string -> result Multimodal.Response) : Prop :=
  forall payload,
    match post payload with
    | Raise _ => True
    | Ok response => Multimodal.status_code response <> 200%Z
    end.

(** A ground-truth record that lacks one of the four fields read. *)
Definition malformed (item : RagasService.Item) : Prop :=
  RagasService.question item = None \/ RagasService.contexts item = None
  \/ RagasService.answer item = None \/ RagasService.ground_truth item = None.

(** The entries of a batch from index [i] on, one per request, in order. *)
Fixpoint entries_from {Data Output : Type}
    (run_multimodal run_document_processing run_search : Data -> result Output)
    (i : nat) (requests : list (Multimodal.RequestData Data))
  : list (Multimodal.BatchEntry Output) :=
  match requests with
  | [] => []
  | request_data :: rest =>
      Multimodal.batch_entry Data Output run_multimodal run_document_processing
        run_search i request_data
      :: entries_from run_multimodal run_document_processing run_search (S i) rest
  end.

(** A metric that both results score, and its entry in the comparison. *)
Definition scored_by_both {RagasResult : Type}
    (contains_metric : RagasResult -> string -> bool)
    (result_a result_b : RagasResult) (metric : string) : bool :=
  contains_metric result_a metric && contains_metric result_b metric.

Definition comparison_entry {RagasResult : Type}
    (getitem : RagasResult -> string -> RagasService.ragas_value)
    (result_a result_b : RagasResult) (metric : string)
  : string * RagasService.Comparison :=
  (metric,
   RagasService.compare_scores (RagasService.np_mean (getitem result_a metric))
     (RagasService.np_mean (getitem result_b metric))).

(** The credit one image adds to [visual_references]. *)
Definition image_credit (answer : string) (image : Multimodal.Image) : Q :=
  ((if Multimodal.mentions_visual answer then 1 else 0)
   + (if text_referenced answer image then 5 # 10 else 0))%Q.

End Spec.

(** ** evaluation_service.py: the other metrics and the endpoint *)

Module EvaluationService.

(** [BasicRAGMetrics.calculate_basic_relevance]. *)
Definition calculate_basic_relevance (query : string) (contexts : list string) : Q :=
  let query_words := words (split (lower query)) in
  if negb (nonempty query_words) then 0%Q
  else
    let total_relevance :=
      fold_left
        (fun total_relevance context =>
           let context_words := words (split (lower context)) in
           if nonempty context_words then
             let overlap := len (inter query_words context_words) in
             let relevance := (overlap / len (uni query_words context_words))%Q in
             (total_relevance + relevance)%Q
           else total_relevance)
        contexts 0%Q in
    if nonempty contexts then (total_relevance / len contexts)%Q else 0%Q.

(** [BasicRAGMetrics.calculate_context_utilization]. *)
Definition calculate_context_utilization (contexts : list string) (answer : string) : Q :=
  if negb (nonempty contexts) || negb (truthy answer) then 0%Q
  else
    let answer_words := words (split (lower answer)) in
    let context_words :=
      fold_left (fun context_words context => uni context_words (split (lower context)))
        contexts [] in
    if negb (nonempty context_words) then 0%Q
    else
      let utilization := (len (inter answer_words context_words) / len context_words)%Q in
      Qmin utilization 1%Q.

(** [EvaluationRequest]. *)
Record EvaluationRequest : Type := {
  query : string;
  retrieved_contexts : list string;
  generated_answer : string;
  ground_truth : option string;
  metrics : list string
}.

(** One value of the [details] dictionary. *)
Record Detail : Type := {
  description : string;
  range : string;
  interpretation : string
}.

(** [EvaluationResult]. *)
Record EvaluationResult : Type := {
  r_query : string;
  r_metrics : list (string * Q);
  r_details : list (string * Detail)
}.

Definition detail (text : string) : Detail :=
  {| description := text; range := "[0, 1]"; interpretation := "Higher is better" |}.

(** The [try] block of the endpoint [evaluate_rag_response]. *)
Definition evaluate_try (request : EvaluationRequest) : result EvaluationResult :=
  let results : list (string * Q) := [] in
  let details : list (string * Detail) := [] in
  let '(results, details) :=
    if mem string_dec "basic_relevance" (metrics request) then
      let relevance :=
        calculate_basic_relevance (query request) (retrieved_contexts request) in
      (RagasService.assoc_set results "basic_relevance" relevance,
       RagasService.assoc_set details "basic_relevance"
         (detail "Keyword overlap between query and contexts"))
    else (results, details) in
  let '(results, details) :=
    if mem string_dec "context_utilization" (metrics request) then
      let utilization :=
        calculate_context_utilization (retrieved_contexts request)
          (generated_answer request) in
      (RagasService.assoc_set results "context_utilization" utilization,
       RagasService.assoc_set details "context_utilization"
         (detail "How well the answer uses retrieved contexts"))
    else (results, details) in
  if mem string_dec "answer_completeness" (metrics request) then
    completeness <-
      BasicRAGMetrics.calculate_answer_completeness (query request)
        (generated_answer request) ;;
    Ok {| r_query := query request;
          r_metrics := RagasService.assoc_set results "answer_completeness" completeness;
          r_details :=
            RagasService.assoc_set details "answer_completeness"
              (detail "Completeness of answer relative to query") |}
  else
    Ok {| r_query := query request; r_metrics := results; r_details := details |}.

(** The endpoint [evaluate_rag_response]. *)
Definition evaluate_rag_response (request : EvaluationRequest) : result EvaluationResult :=
  match evaluate_try request with
  | Ok r => Ok r
  | Raise e => Raise (HTTPException 500 ("Evaluation failed: " ++ str_of_exn e))
  end.

End EvaluationService.

(** ** multimodal-ragas-service.py: search evaluation *)

Module Search.

(** A [Dict[int, float]] kept in insertion order. *)
Fixpoint dict_set (d : list (nat * Q)) (k : nat) (v : Q) : list (nat * Q) :=
  match d with
  | [] => [(k, v)]
  | (k', v') :: d' =>
      if (k =? k')%nat then (k', v) :: d' else (k', v') :: dict_set d' k v
  end.

Fixpoint dict_get (d : list (nat * Q)) (k : nat) : option Q :=
  match d with
  | [] => None
  | (k', v) :: d' => if (k =? k')%nat then Some v else dict_get d' k
  end.

(** What [evaluate_precision_recall] returns. *)
Record IRMetrics : Type := {
  precision_at_k : list (nat * Q);
  recall_at_k : list (nat * Q);
  map_score : Q
}.

Definition cutoffs : list nat := [1; 3; 5; 10]%nat.

(** [len(top_k_ids.intersection(relevant_set))] for one [k]. *)
Definition relevant_in_top (result_ids relevant_set : list string) (k : nat) : Q :=
  len (inter (set_of string_dec (take k result_ids)) relevant_set).

(** One turn of the loop over the cut-offs. *)
Definition precision_recall_step (result_ids relevant_set : list string)
    (acc : list (nat * Q) * list (nat * Q)) (k : nat)
  : list (nat * Q) * list (nat * Q) :=
  if (k <=? List.length result_ids)%nat then
    let relevant_in_top_k := relevant_in_top result_ids relevant_set k in
    (dict_set (fst acc) k (relevant_in_top_k / inject_Z (Z.of_nat k))%Q,
     dict_set (snd acc) k (relevant_in_top_k / len relevant_set)%Q)
  else acc.

(** [SearchQualityEvaluator.evaluate_precision_recall]. *)
Definition evaluate_precision_recall (search_results : list Multimodal.SearchResult)
    (relevant_ids : list string) : IRMetrics :=
  if negb (nonempty relevant_ids) then
    {| precision_at_k := []; recall_at_k := []; map_score := 0%Q |}
  else
    let result_ids :=
      map (fun result => match Multimodal.node_id result with Some i => i | None => "" end)
        search_results in
    let relevant_set := set_of string_dec relevant_ids in
    let tables :=
      fold_left (precision_recall_step result_ids relevant_set) cutoffs ([], []) in
    {| precision_at_k := fst tables;
       recall_at_k := snd tables;
       map_score := match dict_get (fst tables) 5 with Some v => v | None => 0%Q end |}.

(** [evaluate_cross_modal_search_accuracy]. *)
Definition evaluate_cross_modal_search_accuracy
    (search_results : list Multimodal.SearchResult) : Q :=
  if negb (nonempty search_results) then 0%Q
  else
    let content_types :=
      map (Multimodal.metadata_get Multimodal.content_type "text") search_results in
    let type_diversity := (len (set_of string_dec content_types) / len content_types)%Q in
    let confidence_scores :=
      map (fun result =>
             match Multimodal.score result with Some s => s | None => (5 # 10)%Q end)
        search_results in
    let avg_confidence := mean confidence_scores in
    ((type_diversity + avg_confidence) / 2)%Q.

(** A search result together with ["confidence"] of its metadata, which
    only [generate_per_result_scores] reads. *)
Record Hit : Type := {
  hit : Multimodal.SearchResult;
  hit_confidence : option Q
}.

Record ResultScore : Type := {
  rank : nat;
  relevance_score : Q;
  confidence : Q
}.

(** [generate_per_result_scores], from rank [i + 1] on. *)
Fixpoint per_result_scores_from (i : nat) (search_results : list Hit) : list ResultScore :=
  match search_results with
  | [] => []
  | result :: rest =>
      {| rank := i + 1;
         relevance_score :=
           match Multimodal.score (hit result) with Some s => s | None => (5 # 10)%Q end;
         confidence :=
           match Multimodal.metadata (hit result), hit_confidence result with
           | Some _, Some c => c
           | _, _ => (5 # 10)%Q
           end |}
      :: per_result_scores_from (S i) rest
  end.

Definition generate_per_result_scores (search_results : list Hit) : list ResultScore :=
  per_result_scores_from 0 search_results.

(** [SearchEvaluationRequest]. *)
Record SearchEvaluationRequest : Type := {
  query : string;
  search_results : list Hit;
  search_type : string;
  ground_truth_relevant_ids : option (list string);
  evaluation_metrics : list string
}.

(** [SearchEvaluationResult]. *)
Record SearchEvaluationResult : Type := {
  r_query : string;
  r_search_type : string;
  r_precision_at_k : list (nat * Q);
  r_recall_at_k : list (nat * Q);
  r_map_score : Q;
  ndcg_score : Q;
  cross_modal_accuracy : Q;
  result_diversity : Q;
  visual_relevance : Q;
  ranking_quality : Q;
  semantic_consistency : Q;
  per_result_scores : list ResultScore;
  quality_issues : list string;
  optimization_suggestions : list string
}.

(** [SearchEvaluationResult(query=..., search_type=..., ...)]: the seven
    scores are declared [float = Field(ge=0.0, le=1.0)] without a default;
    [None] stands for a keyword that the call does not pass. *)
Definition new_SearchEvaluationResult (query search_type : string)
    (map_score ndcg_score cross_modal_accuracy result_diversity visual_relevance
     ranking_quality semantic_consistency : option Q)
  : result SearchEvaluationResult :=
  match map_score, ndcg_score, cross_modal_accuracy, result_diversity, visual_relevance,
        ranking_quality, semantic_consistency with
  | Some ms, Some nd, Some cm, Some rd, Some vr, Some rq, Some sc =>
      if Multimodal.unit_q ms && Multimodal.unit_q nd && Multimodal.unit_q cm
         && Multimodal.unit_q rd && Multimodal.unit_q vr && Multimodal.unit_q rq
         && Multimodal.unit_q sc
      then
        Ok {| r_query := query; r_search_type := search_type;
              r_precision_at_k := []; r_recall_at_k := [];
              r_map_score := ms; ndcg_score := nd; cross_modal_accuracy := cm;
              result_diversity := rd; visual_relevance := vr; ranking_quality := rq;
              semantic_consistency := sc; per_result_scores := [];
              quality_issues := []; optimization_suggestions := [] |}
      else
        Raise (ValidationError
                 (Multimodal.check_field "map_score" Multimodal.unit_q map_score
                  ++ Multimodal.check_field "ndcg_score" Multimodal.unit_q ndcg_score
                  ++ Multimodal.check_field "cross_modal_accuracy" Multimodal.unit_q
                       cross_modal_accuracy
                  ++ Multimodal.check_field "result_diversity" Multimodal.unit_q
                       result_diversity
                  ++ Multimodal.check_field "visual_relevance" Multimodal.unit_q
                       visual_relevance
                  ++ Multimodal.check_field "ranking_quality" Multimodal.unit_q
                       ranking_quality
                  ++ Multimodal.check_field "semantic_consistency" Multimodal.unit_q
                       semantic_consistency)%list)
  | _, _, _, _, _, _, _ =>
      Raise (ValidationError
               (Multimodal.check_field "map_score" Multimodal.unit_q map_score
                ++ Multimodal.check_field "ndcg_score" Multimodal.unit_q ndcg_score
                ++ Multimodal.check_field "cross_modal_accuracy" Multimodal.unit_q
                     cross_modal_accuracy
                ++ Multimodal.check_field "result_diversity" Multimodal.unit_q
                     result_diversity
                ++ Multimodal.check_field "visual_relevance" Multimodal.unit_q
                     visual_relevance
                ++ Multimodal.check_field "ranking_quality" Multimodal.unit_q
                     ranking_quality
                ++ Multimodal.check_field "semantic_consistency" Multimodal.unit_q
                     semantic_consistency)%list)
  end.

(** [generate_search_optimization_suggestions]. *)
Definition generate_search_optimization_suggestions (result : SearchEvaluationResult)
  : list string :=
  ((if Qlt_le_dec (r_map_score result) (6 # 10)
    then ["Consider adjusting search algorithm weights or ranking functions"] else [])
   ++ (if Qlt_le_dec (result_diversity result) (5 # 10)
       then ["Implement result diversification techniques like MMR"] else [])
   ++ (if Qlt_le_dec (cross_modal_accuracy result) (7 # 10)
       then ["Improve cross-modal embedding alignment and similarity thresholds"]
       else []))%list.

(** The [try] block of [evaluate_search_quality]. *)
Definition search_quality_try (request : SearchEvaluationRequest)
  : result SearchEvaluationResult :=
  result <- new_SearchEvaluationResult (query request) (search_type request)
              None None None None None None None ;;
  let results := map hit (search_results request) in
  let ir :=
    match ground_truth_relevant_ids request with
    | Some ids =>
        if nonempty ids then Some (evaluate_precision_recall results ids) else None
    | None => None
    end in
  let m_diversity :=
    if mem string_dec "diversity" (evaluation_metrics request)
    then Multimodal.evaluate_result_diversity results else result_diversity result in
  let m_cross :=
    if mem string_dec (search_type request) ["cross_modal"; "multimodal"]
    then evaluate_cross_modal_search_accuracy results else cross_modal_accuracy result in
  let scored :=
    {| r_query := r_query result; r_search_type := r_search_type result;
       r_precision_at_k :=
         match ir with Some t => precision_at_k t | None => r_precision_at_k result end;
       r_recall_at_k :=
         match ir with Some t => recall_at_k t | None => r_recall_at_k result end;
       r_map_score := match ir with Some t => map_score t | None => r_map_score result end;
       ndcg_score := ndcg_score result;
       cross_modal_accuracy := m_cross;
       result_diversity := m_diversity;
       visual_relevance := visual_relevance result;
       ranking_quality := Multimodal.evaluate_ranking_quality results;
       semantic_consistency := semantic_consistency result;
       per_result_scores := generate_per_result_scores (search_results request);
       quality_issues := quality_issues result;
       optimization_suggestions := optimization_suggestions result |} in
  Ok {| r_query := r_query scored; r_search_type := r_search_type scored;
        r_precision_at_k := r_precision_at_k scored;
        r_recall_at_k := r_recall_at_k scored;
        r_map_score := r_map_score scored;
        ndcg_score := ndcg_score scored;
        cross_modal_accuracy := cross_modal_accuracy scored;
        result_diversity := result_diversity scored;
        visual_relevance := visual_relevance scored;
        ranking_quality := ranking_quality scored;
        semantic_consistency := semantic_consistency scored;
        per_result_scores := per_result_scores scored;
        quality_issues := quality_issues scored;
        optimization_suggestions := generate_search_optimization_suggestions scored |}.

(** [evaluate_search_quality]. *)
Definition evaluate_search_quality (request : SearchEvaluationRequest)
  : result SearchEvaluationResult :=
  match search_quality_try request with
  | Ok result => Ok result
  | Raise e => Raise (HTTPException 500 ("Search evaluation failed: " ++ str_of_exn e))
  end.

End Search.

(** ** multimodal-ragas-service.py: document processing evaluation *)

Module DocumentProcessing.

(** A text chunk, a [Dict[str, Any]] read with [get]. *)
Record Chunk : Type := {
  content : option string
}.

(** The dictionary under ["metadata"]. *)
Record DocMetadata : Type := {
  title : option string;
  authors : option (list string);
  total_pages : option Z;
  word_count : option Z
}.

(** [processing_result], a [Dict[str, Any]] read with [get]. *)
Record ProcessingResult : Type := {
  text_chunks : option (list Chunk);
  images : option (list Multimodal.Image);
  metadata : option DocMetadata;
  relationships : option (list Multimodal.CrossModalPair);
  processing_time : option Q
}.

Definition get_list {A : Type} (field : option (list A)) : list A :=
  match field with Some l => l | None => [] end.

(** [len(chunk.get("content", ""))]. *)
Definition chunk_size (chunk : Chunk) : Q :=
  inject_Z (Z.of_nat (String.length
                        (match content chunk with Some c => c | None => "" end))).

(** [metadata.get(field)] used as a condition, [metadata] being
    [processing_result.get("metadata", {})]. *)
Definition metadata_truthy (metadata : option DocMetadata) (field : string) : bool :=
  match metadata with
  | None => false
  | Some m =>
      if String.eqb field "title" then
        match title m with Some t => truthy t | None => false end
      else if String.eqb field "authors" then
        match authors m with Some a => nonempty a | None => false end
      else if String.eqb field "total_pages" then
        match total_pages m with Some n => negb (n =? 0)%Z | None => false end
      else if String.eqb field "word_count" then
        match word_count m with Some n => negb (n =? 0)%Z | None => false end
      else false
  end.

(** [metadata.get("total_pages", 1)]. *)
Definition total_pages_or_default (metadata : option DocMetadata) : Z :=
  match metadata with
  | Some m => match total_pages m with Some n => n | None => 1%Z end
  | None => 1%Z
  end.

(** [sum(1 for field in fields if metadata.get(field))]. *)
Definition fields_present (metadata : option DocMetadata) (fields : list string) : Q :=
  len (filter (metadata_truthy metadata) fields).

(** [DocumentProcessingEvaluator.evaluate_extraction_completeness]. *)
Definition evaluate_extraction_completeness (processing_result : ProcessingResult)
  : result Q :=
  let text_chunks := get_list (text_chunks processing_result) in
  let scores :=
    if nonempty text_chunks then
      let avg_chunk_size := mean (map chunk_size text_chunks) in
      [Qmin (avg_chunk_size / 500) 1]%Q
    else [] in
  let images := get_list (images processing_result) in
  let metadata := metadata processing_result in
  let total_pages := total_pages_or_default metadata in
  scores <- (if nonempty images then
               images_per_page <- div (len images) (inject_Z total_pages) ;;
               Ok (scores ++ [Qmin (images_per_page / 2) 1]%Q)%list
             else Ok scores) ;;
  let metadata_fields := ["title"; "authors"; "total_pages"; "word_count"] in
  let metadata_completeness :=
    (fields_present metadata metadata_fields / len metadata_fields)%Q in
  let scores := (scores ++ [metadata_completeness])%list in
  Ok (if nonempty scores then mean scores else (5 # 10)%Q).

Fixpoint last_char (s : string) : option ascii :=
  match s with
  | EmptyString => None
  | String c EmptyString => Some c
  | String _ s' => last_char s'
  end.

(** [content.endswith(('.', '!', '?')) or content.endswith('\n')]. *)
Definition ends_sentence (content : string) : bool :=
  match last_char content with
  | Some c =>
      (Ascii.eqb c "."%char || Ascii.eqb c "!"%char || Ascii.eqb c "?"%char)
      || Ascii.eqb c (ascii_of_nat 10)
  | None => false
  end.

(** The loop that counts the chunks ending a sentence. *)
Definition sentence_integrity (text_chunks : list Chunk) : nat :=
  fold_left
    (fun sentence_integrity_score chunk =>
       if ends_sentence (match content chunk with Some c => c | None => "" end)
       then (sentence_integrity_score + 1)%nat else sentence_integrity_score)
    text_chunks 0%nat.

(** [DocumentProcessingEvaluator.evaluate_chunking_quality]. *)
Definition evaluate_chunking_quality (text_chunks : list Chunk) : Q :=
  if negb (nonempty text_chunks) then 0%Q
  else
    let chunk_sizes := map chunk_size text_chunks in
    let scores :=
      if nonempty chunk_sizes then
        let size_variance := var chunk_sizes in
        [Qmax 0 (1 - size_variance / 100000)]%Q
      else [] in
    let sentence_integrity_score := sentence_integrity text_chunks in
    let scores :=
      if nonempty text_chunks
      then (scores ++ [inject_Z (Z.of_nat sentence_integrity_score) / len text_chunks]%Q)%list
      else scores in
    let scores := (scores ++ [(8 # 10)%Q])%list in
    if nonempty scores then mean scores else (5 # 10)%Q.

(** The dictionary [type_counts]. *)
Fixpoint counts_get (d : list (string * nat)) (k : string) : nat :=
  match d with
  | [] => 0%nat
  | (k', n) :: d' => if String.eqb k k' then n else counts_get d' k
  end.

Fixpoint counts_set (d : list (string * nat)) (k : string) (n : nat)
  : list (string * nat) :=
  match d with
  | [] => [(k, n)]
  | (k', n') :: d' =>
      if String.eqb k k' then (k', n) :: d' else (k', n') :: counts_set d' k n
  end.

Definition count_types (relationship_types : list string) : list (string * nat) :=
  fold_left
    (fun type_counts rel_type =>
       counts_set type_counts rel_type (counts_get type_counts rel_type + 1)%nat)
    relationship_types [].

(** [DocumentProcessingEvaluator.evaluate_relationship_accuracy]. *)
Definition evaluate_relationship_accuracy
    (relationships : list Multimodal.CrossModalPair) : Q :=
  if negb (nonempty relationships) then 1%Q
  else
    let confidences := map Multimodal.confidence_or_default relationships in
    let avg_confidence := mean confidences in
    let relationship_types :=
      map (fun rel => match Multimodal.relationship_type rel with
                      | Some t => t
                      | None => ""
                      end) relationships in
    let type_counts := count_types relationship_types in
    let caption_ratio :=
      (inject_Z (Z.of_nat (counts_get type_counts "caption")) / len relationships)%Q in
    let reference_ratio :=
      (inject_Z (Z.of_nat (counts_get type_counts "reference")) / len relationships)%Q in
    let balance_score :=
      (1 - Qabs ((3 # 10) - caption_ratio) - Qabs ((4 # 10) - reference_ratio))%Q in
    let balance_score := Qmax 0 balance_score in
    ((avg_confidence + balance_score) / 2)%Q.

(** [DocumentProcessingEvaluationRequest]. *)
Record DocumentProcessingEvaluationRequest : Type := {
  document_path : string;
  processing_result : ProcessingResult;
  evaluation_aspects : list string
}.

(** [DocumentProcessingEvaluationResult]. *)
Record DocumentProcessingEvaluationResult : Type := {
  r_document_path : string;
  extraction_completeness : Q;
  chunking_quality : Q;
  embedding_quality : Q;
  relationship_accuracy : Q;
  text_extraction_score : Q;
  image_extraction_score : Q;
  metadata_completeness : Q;
  issues_found : list string;
  improvement_suggestions : list string;
  overall_quality_score : Q;
  processing_efficiency : Q
}.

(** The fields of the result that pydantic reports for a call. *)
Definition result_errors
    (extraction_completeness chunking_quality embedding_quality relationship_accuracy
     text_extraction_score image_extraction_score metadata_completeness
     overall_quality_score processing_efficiency : option Q) : list string :=
  (Multimodal.check_field "extraction_completeness" Multimodal.unit_q
     extraction_completeness
   ++ Multimodal.check_field "chunking_quality" Multimodal.unit_q chunking_quality
   ++ Multimodal.check_field "embedding_quality" Multimodal.unit_q embedding_quality
   ++ Multimodal.check_field "relationship_accuracy" Multimodal.unit_q
        relationship_accuracy
   ++ Multimodal.check_field "text_extraction_score" Multimodal.unit_q
        text_extraction_score
   ++ Multimodal.check_field "image_extraction_score" Multimodal.unit_q
        image_extraction_score
   ++ Multimodal.check_field "metadata_completeness" Multimodal.unit_q
        metadata_completeness
   ++ Multimodal.check_field "overall_quality_score" Multimodal.unit_q
        overall_quality_score
   ++ Multimodal.check_field "processing_efficiency" Multimodal.unit_q
        processing_efficiency)%list.

(** [DocumentProcessingEvaluationResult(document_path=..., ...)]: the nine
    scores are declared [float = Field(ge=0.0, le=1.0)] without a default;
    [None] stands for a keyword that the call does not pass. *)
Definition new_DocumentProcessingEvaluationResult (document_path : string)
    (extraction_completeness chunking_quality embedding_quality relationship_accuracy
     text_extraction_score image_extraction_score metadata_completeness
     overall_quality_score processing_efficiency : option Q)
  : result DocumentProcessingEvaluationResult :=
  match extraction_completeness, chunking_quality, embedding_quality,
        relationship_accuracy, text_extraction_score, image_extraction_score,
        metadata_completeness, overall_quality_score, processing_efficiency,
        result_errors extraction_completeness chunking_quality embedding_quality
          relationship_accuracy text_extraction_score image_extraction_score
          metadata_completeness overall_quality_score processing_efficiency with
  | Some ec, Some cq, Some eq, Some ra, Some tes, Some ies, Some mc, Some oqs, Some pe, [] =>
      Ok {| r_document_path := document_path;
            extraction_completeness := ec; chunking_quality := cq;
            embedding_quality := eq; relationship_accuracy := ra;
            text_extraction_score := tes; image_extraction_score := ies;
            metadata_completeness := mc; issues_found := [];
            improvement_suggestions := [];
            overall_quality_score := oqs; processing_efficiency := pe |}
  | _, _, _, _, _, _, _, _, _, errors => Raise (ValidationError errors)
  end.

(** [generate_processing_suggestions]. *)
Definition generate_processing_suggestions (result : DocumentProcessingEvaluationResult)
  : list string :=
  ((if Qlt_le_dec (extraction_completeness result) (8 # 10)
    then ["Consider adjusting extraction parameters or trying alternative processing methods"]
    else [])
   ++ (if Qlt_le_dec (chunking_quality result) (7 # 10)
       then ["Review chunking strategy and adjust chunk size/overlap parameters"]
       else [])
   ++ (if Qlt_le_dec (relationship_accuracy result) (6 # 10)
       then ["Improve relationship detection algorithms or add manual validation"]
       else [])
   ++ (if Qlt_le_dec (metadata_completeness result) (5 # 10)
       then ["Enhance metadata extraction or consider additional preprocessing"]
       else []))%list.

(** The [try] block of [evaluate_document_processing]. *)
Definition document_processing_try (request : DocumentProcessingEvaluationRequest)
  : result DocumentProcessingEvaluationResult :=
  result <- new_DocumentProcessingEvaluationResult (document_path request)
              None None None None None None None None None ;;
  let processing_result := processing_result request in
  m_extraction <-
    (if mem string_dec "extraction_completeness" (evaluation_aspects request)
     then evaluate_extraction_completeness processing_result
     else Ok (extraction_completeness result)) ;;
  let m_chunking :=
    if mem string_dec "chunking_quality" (evaluation_aspects request)
    then evaluate_chunking_quality (get_list (text_chunks processing_result))
    else chunking_quality result in
  let m_relationship :=
    if mem string_dec "relationship_accuracy" (evaluation_aspects request)
    then evaluate_relationship_accuracy (get_list (relationships processing_result))
    else relationship_accuracy result in
  let m_text := Qmin (len (get_list (text_chunks processing_result)) / 10) 1 in
  let m_image := Qmin (len (get_list (images processing_result)) / 5) 1 in
  let metadata := metadata processing_result in
  let m_metadata :=
    (fields_present metadata ["title"; "authors"; "total_pages"] / 3)%Q in
  let scores := [m_extraction; m_chunking; m_relationship; m_text; m_image; m_metadata] in
  let m_overall := mean scores in
  let processing_time :=
    match processing_time processing_result with Some t => t | None => 0%Q end in
  let total_pages := total_pages_or_default metadata in
  let m_efficiency :=
    Qmin (inject_Z total_pages / Qmax (processing_time / 1000) 1) 1 in
  let scored :=
    {| r_document_path := r_document_path result;
       extraction_completeness := m_extraction;
       chunking_quality := m_chunking;
       embedding_quality := embedding_quality result;
       relationship_accuracy := m_relationship;
       text_extraction_score := m_text;
       image_extraction_score := m_image;
       metadata_completeness := m_metadata;
       issues_found := issues_found result;
       improvement_suggestions := improvement_suggestions result;
       overall_quality_score := m_overall;
       processing_efficiency := m_efficiency |} in
  Ok {| r_document_path := r_document_path scored;
        extraction_completeness := extraction_completeness scored;
        chunking_quality := chunking_quality scored;
        embedding_quality := embedding_quality scored;
        relationship_accuracy := relationship_accuracy scored;
        text_extraction_score := text_extraction_score scored;
        image_extraction_score := image_extraction_score scored;
        metadata_completeness := metadata_completeness scored;
        issues_found := issues_found scored;
        improvement_suggestions := generate_processing_suggestions scored;
        overall_quality_score := overall_quality_score scored;
        processing_efficiency := processing_efficiency scored |}.

(** [evaluate_document_processing]. *)
Definition evaluate_document_processing (request : DocumentProcessingEvaluationRequest)
  : result DocumentProcessingEvaluationResult :=
  match document_processing_try request with
  | Ok result => Ok result
  | Raise e =>
      Raise (HTTPException 500
               ("Document processing evaluation failed: " ++ str_of_exn e))
  end.

End DocumentProcessing.

(** ** multimodal-ragas-service.py: the batch endpoint over the three endpoints *)

Module BatchService.

Section Service.

(** The JSON object under ["data"], and the three request models built
    from it by the constructors of the models, which may fail to
    validate. *)
Variable Data : Type.
Variable parse_multimodal : Data -> result Multimodal.MultimodalEvaluationRequest.
Variable parse_document_processing :
  Data -> result DocumentProcessing.DocumentProcessingEvaluationRequest.
Variable parse_search : Data -> result Search.SearchEvaluationRequest.

(** The collaborators of [evaluate_multimodal_response]. *)
Variable post_embed_text : string -> result Multimodal.Response.
Variable post_embed_image : string -> result Multimodal.Response.
Variable post_ragas_evaluate :
  Multimodal.MultimodalEvaluationRequest -> result Multimodal.RagasResponse.
Variable similarity_model : option (list string -> result (list (list R))).
Variable elapsed : Q.

(** What an endpoint returns. *)
Inductive Output : Type :=
| MultimodalOutput (result : Multimodal.MultimodalEvaluationResult)
| DocumentOutput (result : DocumentProcessing.DocumentProcessingEvaluationResult)
| SearchOutput (result : Search.SearchEvaluationResult).

Definition run_multimodal (d : Data) : result Output :=
  request <- parse_multimodal d ;;
  result <- Multimodal.evaluate_multimodal_response post_embed_text post_embed_image
              post_ragas_evaluate similarity_model elapsed request ;;
  Ok (MultimodalOutput result).

Definition run_document_processing (d : Data) : result Output :=
  request <- parse_document_processing d ;;
  result <- DocumentProcessing.evaluate_document_processing request ;;
  Ok (DocumentOutput result).

Definition run_search (d : Data) : result Output :=
  request <- parse_search d ;;
  result <- Search.evaluate_search_quality request ;;
  Ok (SearchOutput result).

(** [batch_evaluate] with the endpoints of the service. *)
Definition batch_evaluate (evaluation_requests : list (Multimodal.RequestData Data))
  : list (Multimodal.BatchEntry Output) :=
  Multimodal.batch_evaluate Data Output run_multimodal run_document_processing
    run_search evaluation_requests.

End Service.

End BatchService.

(** ** ragas_service.py: the ground-truth file *)

Module GroundTruthStore.

(** [str(n)] of a number of entries. *)
Definition str_of_nat (n : nat) : string :=
  DecimalString.NilEmpty.string_of_uint (Nat.to_uint n).

(** One object of [default_qa.json]: the four fields that the evaluators
    read and ["source"], which only added entries carry. *)
Record Stored : Type := {
  fields : RagasService.Item;
  source : option string
}.

(** The file [default_qa.json], [None] while it does not exist.  Its
    content is a JSON array of objects, as the service writes it; failures
    of the file system are not modelled. *)
Definition File : Type := option (list Stored).

(** What the evaluators of [ragas_service.py] read of the file. *)
Definition items (file : File) : option (list RagasService.Item) :=
  match file with
  | Some data => Some (map fields data)
  | None => None
  end.

(** [GroundTruthEntry]; [source] is ["manual"] unless the request gives it. *)
Record GroundTruthEntry : Type := {
  question : string;
  contexts : list string;
  answer : string;
  ground_truth : string;
  entry_source : string
}.

Definition default_entry (question : string) (contexts : list string)
    (answer ground_truth : string) : Stored :=
  {| fields := {| RagasService.question := Some question;
                  RagasService.contexts := Some contexts;
                  RagasService.answer := Some answer;
                  RagasService.ground_truth := Some ground_truth |};
     source := None |}.

Definition DEFAULT_GROUND_TRUTH : list Stored :=
  [ default_entry "What is the capital of France?"
      [ "France is a country in Western Europe.";
        "Paris is the capital and most populous city of France." ]
      "The capital of France is Paris."
      "Paris";
    default_entry "How does photosynthesis work?"
      [ "Photosynthesis is the process by which plants convert light energy into chemical energy.";
        "During photosynthesis, plants use sunlight, carbon dioxide, and water to produce glucose and oxygen.";
        "Chlorophyll in plant leaves captures sunlight for the photosynthesis process." ]
      "Photosynthesis is the process where plants use sunlight, carbon dioxide, and water to create glucose and oxygen, with chlorophyll capturing the light energy."
      "Photosynthesis converts light energy to chemical energy using sunlight, CO2, and water to produce glucose and oxygen.";
    default_entry "What causes earthquakes?"
      [ "Earthquakes are caused by the sudden movement of tectonic plates in the Earth's crust.";
        "The Earth's crust is made up of several large plates that move slowly over time.";
        "When these plates get stuck and then suddenly slip, they release energy in the form of seismic waves." ]
      "Earthquakes are caused by the sudden movement and slipping of tectonic plates in the Earth's crust, which releases energy as seismic waves."
      "Earthquakes result from sudden movement of tectonic plates releasing seismic energy.";
    default_entry "What is artificial intelligence?"
      [ "Artificial Intelligence (AI) refers to computer systems that can perform tasks typically requiring human intelligence.";
        "AI systems can learn, reason, and make decisions based on data and algorithms.";
        "Machine learning is a subset of AI that enables systems to learn from data without explicit programming." ]
      "Artificial Intelligence is computer systems that perform human-like tasks such as learning, reasoning, and decision-making using data and algorithms."
      "AI refers to computer systems that simulate human intelligence through learning, reasoning, and decision-making.";
    default_entry "How do vaccines work?"
      [ "Vaccines work by training the immune system to recognize and fight specific diseases.";
        "They contain weakened or dead parts of the disease-causing organism or blueprints for making such parts.";
        "When vaccinated, the immune system produces antibodies and remembers how to fight the disease in the future." ]
      "Vaccines train the immune system by exposing it to weakened disease parts, causing the body to produce antibodies and develop immunity for future protection."
      "Vaccines stimulate immune response by introducing weakened pathogens, creating antibodies and immunological memory." ].

(** [json.load] of the opened file. *)
Definition load (file : File) : result (list Stored) :=
  match file with
  | Some data => Ok data
  | None => Raise (FileNotFoundError "default_qa.json")
  end.

(** The response of [get_ground_truth_data]. *)
Record Listing : Type := {
  ground_truth_entries : nat;
  data : list Stored
}.

(** [get_ground_truth_data]: the file afterwards and the response. *)
Definition get_ground_truth_data (file : File) : File * result Listing :=
  let file :=
    match file with
    | Some _ => file
    | None => Some DEFAULT_GROUND_TRUTH
    end in
  (file,
   data <- load file ;;
   Ok {| ground_truth_entries := List.length data; data := data |}).

(** The object that [add_ground_truth_entry] appends. *)
Definition stored_of (entry : GroundTruthEntry) : Stored :=
  {| fields := {| RagasService.question := Some (question entry);
                  RagasService.contexts := Some (contexts entry);
                  RagasService.answer := Some (answer entry);
                  RagasService.ground_truth := Some (ground_truth entry) |};
     source := Some (entry_source entry) |}.

(** [add_ground_truth_entry]: the file afterwards and the message of the
    response. *)
Definition add_ground_truth_entry (entry : GroundTruthEntry) (file : File)
  : File * string :=
  let data :=
    match file with
    | Some data => data
    | None => []
    end in
  let data := (data ++ [stored_of entry])%list in
  (Some data,
   "Added ground truth entry. Total entries: " ++ str_of_nat (List.length data)).

(** The states of the file that the two endpoints produce, starting
    without a file. *)
Inductive reachable : File -> Prop :=
| reachable_start : reachable None
| reachable_get (file : File) :
    reachable file -> reachable (fst (get_ground_truth_data file))
| reachable_add (entry : GroundTruthEntry) (file : File) :
    reachable file -> reachable (fst (add_ground_truth_entry entry file)).

End GroundTruthStore.

(** ** comprehensive-phase2-test.py: the test report *)

Module Report.

(** [TestResult]; [details] is only copied into the report and left out. *)
Record TestResult : Type := {
  name : string;
  category : string;
  status : string;
  duration_ms : Q;
  score : option Q;
  threshold : option Q;
  error : option string;
  benchmark_met : option bool
}.

Definition has_status (s : string) (r : TestResult) : bool := String.eqb (status r) s.

(** Truth value of an optional float: [None] and [0.0] are false. *)
Definition float_truthy (v : option Q) : bool :=
  match v with
  | Some x => negb (Qeq_bool x 0)
  | None => false
  end.

(** [r.score and r.threshold and r.score >= r.threshold]. *)
Definition gate_passed (r : TestResult) : bool :=
  float_truthy (score r) && float_truthy (threshold r)
  && match score r, threshold r with
     | Some s, Some t => Qle_bool t s
     | _, _ => false
     end.

(** [r.score and r.threshold and r.score < r.threshold]. *)
Definition quality_issue (r : TestResult) : bool :=
  float_truthy (score r) && float_truthy (threshold r)
  && match score r, threshold r with
     | Some s, Some t => negb (Qle_bool t s)
     | _, _ => false
     end.

(** [r.benchmark_met] as a condition, and [r.benchmark_met is False]. *)
Definition benchmark_ok (r : TestResult) : bool :=
  match benchmark_met r with Some true => true | _ => false end.

Definition benchmark_missed (r : TestResult) : bool :=
  match benchmark_met r with Some false => true | _ => false end.

(** The dictionary [categories], in insertion order. *)
Fixpoint add_to_category (categories : list (string * list TestResult))
    (r : TestResult) : list (string * list TestResult) :=
  match categories with
  | [] => [(category r, [r])]
  | (c, results) :: rest =>
      if String.eqb (category r) c then (c, (results ++ [r])%list) :: rest
      else (c, results) :: add_to_category rest r
  end.

Definition group_by_category (test_results : list TestResult)
  : list (string * list TestResult) :=
  fold_left add_to_category test_results [].

Record Summary : Type := {
  total_tests : nat;
  passed_tests : nat;
  failed_tests : nat;
  success_rate : Q;
  benchmarks_met : nat;
  quality_gates_passed : nat;
  total_execution_time : Q;
  verdict : string
}.

Record CategorySummary : Type := {
  cat_total : nat;
  cat_passed : nat;
  cat_failed : nat
}.

Record TestReport : Type := {
  summary : Summary;
  categories : list (string * CategorySummary);
  detailed_results : list TestResult;
  recommendations : list string
}.

(** [get_recommendations]. *)
Definition get_recommendations (test_results : list TestResult) : list string :=
  let failed_tests := filter (has_status "failed") test_results in
  let recommendations :=
    if nonempty failed_tests
    then ["Fix " ++ GroundTruthStore.str_of_nat (List.length failed_tests)
          ++ " failing tests"]
    else [] in
  let slow_tests := filter benchmark_missed test_results in
  let recommendations :=
    if nonempty slow_tests
    then (recommendations
          ++ [("Optimize performance for "
               ++ GroundTruthStore.str_of_nat (List.length slow_tests)
               ++ " slow operations")%string])%list
    else recommendations in
  let quality_issues := filter quality_issue test_results in
  let recommendations :=
    if nonempty quality_issues
    then (recommendations
          ++ [("Improve quality metrics for "
               ++ GroundTruthStore.str_of_nat (List.length quality_issues)
               ++ " components")%string])%list
    else recommendations in
  let service_health_issues :=
    filter (fun r => String.eqb (category r) "service_health" && has_status "failed" r)
      test_results in
  let recommendations :=
    if nonempty service_health_issues
    then (recommendations ++ ["Set up missing services for full functionality"])%list
    else recommendations in
  if negb (nonempty recommendations)
  then (recommendations
        ++ ["All tests passing - Phase 2 is ready for production!"])%list
  else recommendations.

(** [generate_test_report], without what it prints and without the
    timestamp. *)
Definition generate_test_report (test_results : list TestResult) (total_time : Q)
  : TestReport :=
  let total_tests := List.length test_results in
  let passed_tests := List.length (filter (has_status "passed") test_results) in
  let failed_tests := List.length (filter (has_status "failed") test_results) in
  let benchmarks_met := List.length (filter benchmark_ok test_results) in
  let quality_gates_passed := List.length (filter gate_passed test_results) in
  let success_rate :=
    if (0 <? total_tests)%nat
    then (inject_Z (Z.of_nat passed_tests) / inject_Z (Z.of_nat total_tests) * 100)%Q
    else 0%Q in
  let categories := group_by_category test_results in
  let is_success := (failed_tests =? 0)%nat && Qle_bool 90 success_rate in
  {| summary :=
       {| total_tests := total_tests;
          passed_tests := passed_tests;
          failed_tests := failed_tests;
          success_rate := success_rate;
          benchmarks_met := benchmarks_met;
          quality_gates_passed := quality_gates_passed;
          total_execution_time := total_time;
          verdict := if is_success then "success" else "needs_attention" |};
     categories :=
       map (fun entry =>
              (fst entry,
               {| cat_total := List.length (snd entry);
                  cat_passed := List.length (filter (has_status "passed") (snd entry));
                  cat_failed := List.length (filter (has_status "failed") (snd entry)) |}))
         categories;
     detailed_results := test_results;
     recommendations := get_recommendations test_results |}.

End Report.

(** ** Notions used to state further properties *)

Module Notions.

(** The overlap score of one context in [calculate_basic_relevance]. *)
Definition context_relevance (query_words : list string) (context : string) : Q :=
  let context_words := words (split (lower context)) in
  if nonempty context_words
  then (len (inter query_words context_words) / len (uni query_words context_words))%Q
  else 0%Q.

(** A context shares a word with the query. *)
Definition shares_word (query context : string) : Prop :=
  exists t, In t (Spec.tokens query) /\ In t (Spec.tokens context).

(** A context, an image, that [evaluate_content_coverage] counts as
    covered by the answer. *)
Definition context_covered (answer context : string) : bool :=
  (3 <? List.length (inter (Spec.tokens answer) (Spec.tokens context)))%nat.

Definition image_covered (answer : string) (image : Multimodal.Image) : bool :=
  match Multimodal.get_truthy (Multimodal.extracted_text image) with
  | Some text => (1 <? List.length (inter (Spec.tokens answer) (Spec.tokens text)))%nat
  | None => false
  end.

(** The winner once the two systems trade places. *)
Definition swap_winner (winner : string) : string :=
  if String.eqb winner "System A" then "System B"
  else if String.eqb winner "System B" then "System A"
  else winner.

(** The key [compare_rag_systems] gives to [max]. *)
Definition abs_difference (x : string * RagasService.Comparison) : option Q :=
  RagasService.float_abs (RagasService.difference (snd x)).

(** The metric names that the endpoint of [evaluation_service.py] knows,
    in the order in which it computes them. *)
Definition known_metrics : list string :=
  ["basic_relevance"; "context_utilization"; "answer_completeness"].

(** Entry [k] of the individual results describes question [k]. *)
Definition indexed (questions : list string) (l : list RagasService.Individual) : Prop :=
  forall k r, nth_error l k = Some r ->
              RagasService.question_id r = k
              /\ nth_error questions k = Some (RagasService.ind_question r).

(** The ids that [evaluate_precision_recall] reads off the results. *)
Definition result_ids (search_results : list Multimodal.SearchResult) : list string :=
  map (fun result => match Multimodal.node_id result with Some i => i | None => "" end)
    search_results.

(** The cut-offs for which a result list is long enough. *)
Definition reached_cutoffs (search_results : list Multimodal.SearchResult) : list nat :=
  filter (fun k => (k <=? List.length search_results)%nat) Search.cutoffs.

(** [chunk.get("content", "")]. *)
Definition chunk_text (chunk : DocumentProcessing.Chunk) : string :=
  match DocumentProcessing.content chunk with Some c => c | None => "" end.

(** [rel.get("relationship_type", "")]. *)
Definition type_of (rel : Multimodal.CrossModalPair) : string :=
  match Multimodal.relationship_type rel with Some t => t | None => "" end.

(** How many relationships have a given type. *)
Definition typed (relationships : list Multimodal.CrossModalPair) (t : string) : nat :=
  count_occ string_dec (map type_of relationships) t.

(** The evaluation types that [batch_evaluate] dispatches on; a request
    without ["type"] counts as ["multimodal"]. *)
Definition eval_type {Data : Type} (request_data : Multimodal.RequestData Data) : string :=
  match Multimodal.type Data request_data with Some t => t | None => "multimodal" end.

Definition known_types : list string := ["multimodal"; "document_processing"; "search"].

(** The content of the ground-truth file, a missing file counting as
    empty. *)
Definition content (file : GroundTruthStore.File) : list GroundTruthStore.Stored :=
  match file with Some data => data | None => [] end.

(** A stored record that has the four fields the evaluators read. *)
Definition well_formed (s : GroundTruthStore.Stored) : Prop :=
  ~ Spec.malformed (GroundTruthStore.fields s).

(** A test result belongs to a category. *)
Definition in_category (c : string) (r : Report.TestResult) : bool :=
  String.eqb (Report.category r) c.

(** [categories.get(c, [])]. *)
Fixpoint group_of (categories : list (string * list Report.TestResult)) (c : string)
  : list Report.TestResult :=
  match categories with
  | [] => []
  | (c', results) :: rest => if String.eqb c c' then results else group_of rest c
  end.

(** The recommendation of a run without findings. *)
Definition all_passing : string := "All tests passing - Phase 2 is ready for production!".

(** A run without findings: no failed test, no missed benchmark and no
    score below its threshold. *)
Definition clean (test_results : list Report.TestResult) : Prop :=
  filter (Report.has_status "failed") test_results = []
  /\ filter Report.benchmark_missed test_results = []
  /\ filter Report.quality_issue test_results = [].


(** The document ids, content types and page numbers that
    [evaluate_result_diversity] reads off the results. *)
Definition doc_ids (search_results : list Multimodal.SearchResult) : list string :=
  map (Multimodal.metadata_get Multimodal.document_id "") search_results.

Definition content_types (search_results : list Multimodal.SearchResult) : list string :=
  map (Multimodal.metadata_get Multimodal.content_type "text") search_results.

Definition page_numbers (search_results : list Multimodal.SearchResult) : list Z :=
  map (Multimodal.metadata_get Multimodal.page_number 1%Z) search_results.

(** The contexts that [evaluate_multimodal_faithfulness] derives from one
    image. *)
Definition image_texts (image : Multimodal.Image) : list string :=
  ((match Multimodal.get_truthy (Multimodal.extracted_text image) with
    | Some t => [("Image content: " ++ t)%string]
    | None => []
    end)
   ++ (match Multimodal.get_truthy (Multimodal.caption image) with
       | Some c => [("Image caption: " ++ c)%string]
       | None => []
       end))%list.

(** The distinct words that an answer shares with the contexts. *)
Definition shared_words (contexts : list string) (answer : string) : list string :=
  inter (Spec.tokens answer) (Spec.vocabulary contexts).

End Notions.

(** * Properties *)

(** ** Python primitives *)

Example split_ex : split "  Cats ARE
 mammals " = ["Cats"; "ARE"; "mammals"].
Proof. reflexivity. Qed.

Example lower_ex : lower "The Stock-Market 42" = "the stock-market 42".
Proof. reflexivity. Qed.

Example contains_ex : contains "shown" "as shown above" = true /\ contains "x" "" = false.
Proof. split; reflexivity. Qed.

Example faithfulness_scenario1 :
  (SimpleRAGAS.calculate_faithfulness ["machine learning is powerful"]
     "machine learning is powerful" == 1)%Q.
Proof. vm_compute. reflexivity. Qed.

Example phase2_gates_run :
  option_map (map Phase2.status) (match Phase2.test_quality_gates with Ok l => Some l | Raise _ => None end)
  = Some ["passed"; "passed"; "passed"; "passed"; "passed"].
Proof. vm_compute. reflexivity. Qed.

(** *** Lists, sets and counts *)

Lemma nonempty_true {A : Type} (l : list A) : nonempty l = true <-> l <> [].
Proof. destruct l; simpl; split; intros; congruence. Qed.

Lemma nonempty_false {A : Type} (l : list A) : nonempty l = false <-> l = [].
Proof. destruct l; simpl; split; intros; congruence. Qed.

Lemma truthy_true (s : string) : truthy s = true <-> s <> "".
Proof. destruct s; simpl; split; intros; congruence. Qed.

Lemma mem_In {A : Type} (dec : forall x y : A, {x = y} + {x <> y}) (x : A) (l : list A) :
  mem dec x l = true <-> In x l.
Proof. unfold mem. destruct (in_dec dec x l); split; intros; congruence. Qed.

Lemma set_of_In {A : Type} (dec : forall x y : A, {x = y} + {x <> y}) (x : A) (l : list A) :
  In x (set_of dec l) <-> In x l.
Proof. unfold set_of. apply nodup_In. Qed.

Lemma set_of_nil {A : Type} (dec : forall x y : A, {x = y} + {x <> y}) (l : list A) :
  set_of dec l = [] <-> l = [].
Proof.
  split; intros H; [|subst; reflexivity].
  destruct l as [|a l]; [reflexivity|].
  assert (Hin : In a (set_of dec (a :: l))) by (apply set_of_In; left; reflexivity).
  rewrite H in Hin. destruct Hin.
Qed.

Lemma set_of_length {A : Type} (dec : forall x y : A, {x = y} + {x <> y}) (l : list A) :
  (List.length (set_of dec l) <= List.length l)%nat.
Proof.
  unfold set_of. induction l as [|a l IH]; simpl; [lia|].
  destruct (in_dec dec a l); simpl; lia.
Qed.

Lemma filter_length_le {A : Type} (f : A -> bool) (l : list A) :
  (List.length (filter f l) <= List.length l)%nat.
Proof. induction l as [|a l IH]; simpl; [lia|]. destruct (f a); simpl; lia. Qed.

Lemma filter_all {A : Type} (f : A -> bool) (l : list A) :
  (forall x, In x l -> f x = true) -> filter f l = l.
Proof.
  induction l as [|a l IH]; simpl; intros H; [reflexivity|].
  rewrite (H a (or_introl eq_refl)). f_equal. apply IH. intros; apply H; right; assumption.
Qed.

Lemma filter_none {A : Type} (f : A -> bool) (l : list A) :
  (forall x, f x = false) -> filter f l = [].
Proof.
  intros H. induction l as [|a l IH]; simpl; [reflexivity|]. rewrite H. exact IH.
Qed.

(** *** Counts as rationals *)

Lemma len_nonneg {A : Type} (l : list A) : (0 <= len l)%Q.
Proof. unfold len, Qle; simpl. lia. Qed.

Lemma len_pos {A : Type} (l : list A) : l <> [] -> (0 < len l)%Q.
Proof. destruct l; [congruence|]. intros _. unfold len, Qlt; simpl. lia. Qed.

Lemma len_le {A B : Type} (l : list A) (l' : list B) :
  (List.length l <= List.length l')%nat -> (len l <= len l')%Q.
Proof. intros H. unfold len, Qle; simpl. lia. Qed.

Lemma ratio_bounds (a b : Q) : (0 <= a -> a <= b -> 0 < b -> 0 <= a / b <= 1)%Q.
Proof.
  intros Ha Hab Hb. split.
  - apply Qle_shift_div_l; [assumption|]. lra.
  - apply Qle_shift_div_r; [assumption|]. lra.
Qed.

Lemma ratio_self (a : Q) : (0 < a -> a / a == 1)%Q.
Proof. intros Ha. field. lra. Qed.

Lemma Qmin_unit (a : Q) : (0 <= a -> 0 <= Qmin a 1 <= 1)%Q.
Proof.
  intros Ha. split.
  - apply Q.min_glb; lra.
  - apply Q.le_min_r.
Qed.

Lemma div_ok (a b : Q) : (~ b == 0)%Q -> div a b = Ok (a / b)%Q.
Proof.
  intros Hb. unfold div. destruct (Qeq_bool b 0) eqn:E; [|reflexivity].
  apply Qeq_bool_eq in E. contradiction.
Qed.

Lemma div_zero (a b : Q) : (b == 0)%Q -> div a b = Raise ZeroDivisionError.
Proof.
  intros Hb. unfold div. rewrite (Qeq_eq_bool _ _ Hb). reflexivity.
Qed.

(** ** Faithfulness *)

Lemma tokens_truthy (answer : string) : Spec.tokens answer <> [] -> truthy answer = true.
Proof. destruct answer; [intros H; exfalso; apply H; reflexivity | reflexivity]. Qed.

Lemma inter_filter (s t : list string) :
  inter s t = filter (fun x => mem string_dec x t) s.
Proof. reflexivity. Qed.

Lemma faithfulness_unfold (contexts : list string) (answer : string) :
  contexts <> [] -> Spec.tokens answer <> [] ->
  SimpleRAGAS.calculate_faithfulness contexts answer
  = if nonempty (Spec.vocabulary contexts)
    then Qmin (Spec.grounded_fraction contexts answer) 1%Q
    else 0%Q.
Proof.
  intros Hc Ha. unfold SimpleRAGAS.calculate_faithfulness.
  apply nonempty_true in Hc. rewrite Hc, (tokens_truthy _ Ha). simpl.
  fold (Spec.tokens answer). fold (Spec.tokens (join " " contexts)).
  fold (Spec.vocabulary contexts).
  destruct (nonempty (Spec.vocabulary contexts)); simpl; [|reflexivity].
  apply nonempty_true in Ha. rewrite Ha. reflexivity.
Qed.

Lemma grounded_fraction_bounds (contexts : list string) (answer : string) :
  Spec.tokens answer <> [] ->
  (0 <= Spec.grounded_fraction contexts answer <= 1)%Q.
Proof.
  intros Ha. unfold Spec.grounded_fraction. apply ratio_bounds.
  - apply len_nonneg.
  - apply len_le, filter_length_le.
  - apply len_pos, Ha.
Qed.

(** C2, as amended.  Faithfulness is 0 when the context list or the answer
    is empty.  For a non-empty context list and an answer that has at least
    one token, it is the fraction of the answer's distinct lower-cased
    whitespace tokens that occur among the tokens of the contexts joined by
    a space, and it is 1 when every token of the answer occurs there. *)
Theorem faithfulness_grounded_fraction (contexts : list string) (answer : string) :
  (contexts = [] \/ answer = "" ->
   SimpleRAGAS.calculate_faithfulness contexts answer == 0)%Q
  /\ (contexts <> [] -> Spec.tokens answer <> [] ->
      (SimpleRAGAS.calculate_faithfulness contexts answer
       == Spec.grounded_fraction contexts answer)%Q
      /\ ((forall t, In t (Spec.tokens answer) -> In t (Spec.vocabulary contexts)) ->
          (SimpleRAGAS.calculate_faithfulness contexts answer == 1)%Q)).
Proof.
  split.
  - intros [-> | ->]; unfold SimpleRAGAS.calculate_faithfulness; simpl.
    + reflexivity.
    + rewrite orb_true_r. reflexivity.
  - intros Hc Ha. rewrite (faithfulness_unfold _ _ Hc Ha).
    pose proof (grounded_fraction_bounds contexts answer Ha) as [Hlo Hhi].
    destruct (nonempty (Spec.vocabulary contexts)) eqn:Hv.
    + split.
      * apply Q.min_l. exact Hhi.
      * intros Hall. unfold Spec.grounded_fraction.
        rewrite filter_all by (intros x Hx; apply mem_In, Hall, Hx).
        rewrite ratio_self by (apply len_pos, Ha).
        apply Q.min_l. lra.
    + apply nonempty_false in Hv. split.
      * unfold Spec.grounded_fraction. rewrite Hv. simpl.
        rewrite filter_none by reflexivity.
        unfold Qdiv. change (len (@nil string)) with 0%Q. lra.
      * intros Hall. exfalso. destruct (Spec.tokens answer) as [|t l]; [congruence|].
        specialize (Hall t (or_introl eq_refl)). rewrite Hv in Hall. destruct Hall.
Qed.

Lemma faithfulness_grounded_fraction_witness :
  (SimpleRAGAS.calculate_faithfulness ["cats are mammals"] "Cats ARE cats"
   == Spec.grounded_fraction ["cats are mammals"] "Cats ARE cats")%Q
  /\ (SimpleRAGAS.calculate_faithfulness ["cats are mammals"] "Cats ARE cats" == 1)%Q.
Proof.
  destruct (faithfulness_grounded_fraction ["cats are mammals"] "Cats ARE cats")
    as [_ H].
  destruct H as [H1 H2].
  - discriminate.
  - vm_compute. discriminate.
  - split; [exact H1|]. apply H2.
    intros t Ht. vm_compute in Ht. vm_compute. intuition.
Defined.

(** C2, as stated, fails: an answer of one space is not empty and has no
    token, so each of its tokens occurs in the contexts, yet its
    faithfulness is 0. *)
Lemma faithfulness_blank_answer :
  ["a"] <> [] /\ " " <> ""
  /\ (forall t, In t (Spec.tokens " ") -> In t (Spec.vocabulary ["a"]))
  /\ (SimpleRAGAS.calculate_faithfulness ["a"] " " == 0)%Q
  /\ ~ (SimpleRAGAS.calculate_faithfulness ["a"] " " == 1)%Q.
Proof.
  repeat split; try discriminate.
  intros t Ht. destruct Ht.
Qed.

(** ** Ranges of the metric values *)

Lemma sum_nonneg (l : list Q) : Forall (fun x => 0 <= x)%Q l -> (0 <= sum l)%Q.
Proof.
  induction 1 as [|x l Hx _ IH]; simpl; [lra|]. lra.
Qed.

Lemma mean_nonneg (l : list Q) : Forall (fun x => 0 <= x)%Q l -> (0 <= mean l)%Q.
Proof.
  intros H. unfold mean. destruct l as [|x l].
  - unfold Qdiv. simpl. lra.
  - apply Qle_shift_div_l; [apply len_pos; discriminate|].
    pose proof (sum_nonneg _ H). lra.
Qed.

Lemma sum_le_len (l : list Q) : Forall (fun x => x <= 1)%Q l -> (sum l <= len l)%Q.
Proof.
  induction 1 as [|x l Hx _ IH]; simpl.
  - unfold len, Qle; simpl. lia.
  - assert (E : (len (x :: l) == 1 + len l)%Q).
    { unfold len. simpl List.length. rewrite Nat2Z.inj_succ, <- Z.add_1_l.
      rewrite inject_Z_plus. reflexivity. }
    rewrite E. lra.
Qed.

Lemma mean_le_1 (l : list Q) : Forall (fun x => x <= 1)%Q l -> (mean l <= 1)%Q.
Proof.
  intros H. unfold mean. destruct l as [|x l].
  - unfold Qdiv. simpl. lra.
  - apply Qle_shift_div_r; [apply len_pos; discriminate|].
    pose proof (sum_le_len _ H). lra.
Qed.

Lemma var_nonneg (l : list Q) : (0 <= var l)%Q.
Proof.
  unfold var. apply mean_nonneg. apply Forall_forall. intros y Hy.
  apply in_map_iff in Hy. destruct Hy as [x [<- _]].
  generalize (x - mean l)%Q. intros d. nra.
Qed.

(** [answer_completeness] lies in the unit interval whenever the query has
    a token, and then it does return. *)
Lemma answer_completeness_range (query answer : string) :
  Spec.tokens query <> [] ->
  exists v, BasicRAGMetrics.calculate_answer_completeness query answer = Ok v
            /\ (0 <= v <= 1)%Q.
Proof.
  intros Hq. unfold BasicRAGMetrics.calculate_answer_completeness.
  destruct (negb (truthy query) || negb (truthy answer)).
  - exists 0%Q. split; [reflexivity|lra].
  - fold (Spec.tokens query). fold (Spec.tokens answer).
    pose proof (len_pos _ Hq) as Hpos.
    rewrite div_ok by lra. simpl.
    eexists. split; [reflexivity|].
    assert (Hc : (0 <= len (inter (Spec.tokens query) (Spec.tokens answer))
                       / len (Spec.tokens query) <= 1)%Q).
    { apply ratio_bounds; [apply len_nonneg | apply len_le, filter_length_le | exact Hpos]. }
    assert (Hl : (0 <= Qmin (len (split answer) / 20) 1 <= 1)%Q).
    { apply Qmin_unit. apply Qle_shift_div_l; [lra|]. pose proof (len_nonneg (split answer)). lra. }
    split.
    + apply Qle_shift_div_l; lra.
    + apply Qle_shift_div_r; lra.
Qed.

(** Whatever [answer_completeness] returns lies in the unit interval. *)
Lemma answer_completeness_returned (query answer : string) (v : Q) :
  BasicRAGMetrics.calculate_answer_completeness query answer = Ok v -> (0 <= v <= 1)%Q.
Proof.
  intros H. destruct (Spec.tokens query) eqn:Hq.
  - unfold BasicRAGMetrics.calculate_answer_completeness in H.
    destruct (negb (truthy query) || negb (truthy answer)).
    + inversion H; subst. lra.
    + fold (Spec.tokens query) in H. rewrite Hq in H.
      rewrite div_zero in H by reflexivity. discriminate.
  - destruct (answer_completeness_range query answer) as [w [Hw Hr]].
    + rewrite Hq; discriminate.
    + rewrite Hw in H. inversion H; subst. exact Hr.
Qed.

(** [result_diversity] lies in the unit interval on every input. *)
Lemma result_diversity_range (search_results : list Multimodal.SearchResult) :
  (0 <= Multimodal.evaluate_result_diversity search_results <= 1)%Q.
Proof.
  unfold Multimodal.evaluate_result_diversity.
  destruct (List.length search_results <? 2)%nat eqn:E; [lra|].
  apply Nat.ltb_ge in E.
  assert (Hne : search_results <> []) by (destruct search_results; simpl in E; [lia|discriminate]).
  set (docs := set_of string_dec (map (Multimodal.metadata_get Multimodal.document_id "") search_results)).
  set (types := set_of string_dec (map (Multimodal.metadata_get Multimodal.content_type "text") search_results)).
  set (pages := set_of Z.eq_dec (map (Multimodal.metadata_get Multimodal.page_number 1%Z) search_results)).
  assert (Hd : (0 <= len docs / len search_results <= 1)%Q).
  { apply ratio_bounds; [apply len_nonneg | | apply len_pos, Hne].
    apply len_le. unfold docs. etransitivity; [apply set_of_length|].
    rewrite length_map. lia. }
  assert (Ht : (0 <= Qmin (len types / 3) 1 <= 1)%Q).
  { apply Qmin_unit. apply Qle_shift_div_l; [lra|]. pose proof (len_nonneg types). lra. }
  assert (Hp : (0 <= Qmin (len pages / 5) 1 <= 1)%Q).
  { apply Qmin_unit. apply Qle_shift_div_l; [lra|]. pose proof (len_nonneg pages). lra. }
  split.
  - apply Qle_shift_div_l; lra.
  - apply Qle_shift_div_r; lra.
Qed.

(** [ranking_quality] lies in the unit interval on every input. *)
Lemma ranking_quality_range (search_results : list Multimodal.SearchResult) :
  (0 <= Multimodal.evaluate_ranking_quality search_results <= 1)%Q.
Proof.
  unfold Multimodal.evaluate_ranking_quality.
  destruct (negb (nonempty search_results)); [lra|].
  set (scores := map _ search_results).
  assert (Hs : (5 # 10 <= (if Multimodal.non_increasing scores then 1 else 5 # 10) <= 1)%Q).
  { destruct (Multimodal.non_increasing scores); lra. }
  assert (Hv : (0 <= (if (1 <? List.length scores)%nat
                      then Qmin (var scores * 2) 1 else 5 # 10) <= 1)%Q).
  { destruct (1 <? List.length scores)%nat; [|lra].
    apply Qmin_unit. pose proof (var_nonneg scores). lra. }
  split.
  - apply Qle_shift_div_l; lra.
  - apply Qle_shift_div_r; lra.
Qed.

(** C1 at its failing input.  A query of one space is a non-empty string
    without a token: [calculate_answer_completeness] divides by the number
    of query words and raises instead of returning a value in the unit
    interval. *)
Theorem answer_completeness_blank_query :
  BasicRAGMetrics.calculate_answer_completeness " " "an answer"
  = Raise ZeroDivisionError
  /\ SimpleRAGAS.calculate_answer_completeness " " "an answer"
     = Raise ZeroDivisionError.
Proof. split; reflexivity. Qed.

(** ** Cross-modal consistency *)

Lemma pair_score_weight (p : option string * Q) :
  Multimodal.pair_score (Spec.pair_dict p) = (snd p * Spec.weight (fst p))%Q.
Proof.
  destruct p as [[t|] c]; unfold Multimodal.pair_score, Spec.weight; simpl; [|reflexivity].
  destruct (String.eqb t "caption"); [reflexivity|].
  destruct (String.eqb t "reference"); reflexivity.
Qed.

(** The loop of [evaluate_cross_modal_consistency] on pairs that carry a
    confidence. *)
Lemma cross_modal_consistency_unfold (pairs : list (option string * Q)) :
  Multimodal.evaluate_cross_modal_consistency (map Spec.pair_dict pairs)
  = if nonempty pairs then Spec.weighted_confidence_mean pairs else 1%Q.
Proof.
  unfold Multimodal.evaluate_cross_modal_consistency.
  destruct pairs as [|p pairs]; [reflexivity|].
  cbn [map nonempty negb]. unfold Spec.weighted_confidence_mean.
  cbn [map]. rewrite map_map, pair_score_weight.
  rewrite (map_ext (fun x => Qmin (Multimodal.pair_score (Spec.pair_dict x)) 1)
                   (fun p => Qmin (snd p * Spec.weight (fst p)) 1))
    by (intros a; rewrite pair_score_weight; reflexivity).
  reflexivity.
Qed.

(** C8.  For pairs whose confidences lie in the unit interval,
    cross-modal consistency is the mean over the pairs of
    [min(confidence * w, 1)] with [w] 1.2 for a caption, 1.0 for a
    reference and 0.8 otherwise; it is 1 for the empty list. *)
Theorem cross_modal_consistency_mean (pairs : list (option string * Q)) :
  Forall (fun p => 0 <= snd p <= 1)%Q pairs ->
  (Multimodal.evaluate_cross_modal_consistency (map Spec.pair_dict pairs)
   == if nonempty pairs then Spec.weighted_confidence_mean pairs else 1)%Q.
Proof.
  intros Hvalid. rewrite cross_modal_consistency_unfold.
  destruct pairs as [|p pairs]; cbn [nonempty]; reflexivity.
Qed.

Lemma cross_modal_consistency_mean_witness :
  (Multimodal.evaluate_cross_modal_consistency
     (map Spec.pair_dict [(Some "caption", 9 # 10); (Some "reference", 1 # 2);
                          (Some "illustration", 1 # 2); (None, 1)])
   == 27 # 40)%Q.
Proof.
  rewrite cross_modal_consistency_mean.
  - vm_compute. reflexivity.
  - repeat constructor; simpl; unfold Qle; simpl; lia.
Defined.

(** The value is in the unit interval for such pairs. *)
Lemma cross_modal_consistency_range (pairs : list (option string * Q)) :
  Forall (fun p => 0 <= snd p <= 1)%Q pairs ->
  (0 <= Multimodal.evaluate_cross_modal_consistency (map Spec.pair_dict pairs) <= 1)%Q.
Proof.
  intros H. rewrite cross_modal_consistency_unfold.
  destruct pairs as [|p pairs]; [simpl; lra|].
  cbn [nonempty]. unfold Spec.weighted_confidence_mean. split.
  - apply mean_nonneg. apply Forall_forall. intros y Hy.
    apply in_map_iff in Hy. destruct Hy as [q [<- Hq]].
    rewrite Forall_forall in H. specialize (H q Hq).
    apply Q.min_glb; [|lra].
    assert (0 <= Spec.weight (fst q))%Q.
    { unfold Spec.weight. destruct (fst q) as [t|]; [|lra].
      destruct (String.eqb t "caption"); [lra|].
      destruct (String.eqb t "reference"); lra. }
    apply Qmult_le_0_compat; tauto.
  - apply mean_le_1. apply Forall_forall. intros y Hy.
    apply in_map_iff in Hy. destruct Hy as [q [<- Hq]]. apply Q.le_min_r.
Qed.

(** ** Visual grounding *)

Lemma len_cons {A : Type} (x : A) (l : list A) : (len (x :: l) == 1 + len l)%Q.
Proof.
  unfold len. simpl List.length. rewrite Nat2Z.inj_succ, <- Z.add_1_l.
  rewrite inject_Z_plus. reflexivity.
Qed.

Lemma grounding_step_credit (answer : string) (v : Q) (t : nat) (image : Multimodal.Image) :
  (fst (Multimodal.grounding_step answer (v, t) image) == v + Spec.image_credit answer image)%Q
  /\ snd (Multimodal.grounding_step answer (v, t) image) = S t.
Proof.
  unfold Multimodal.grounding_step, Spec.image_credit, Spec.text_referenced.
  destruct (Multimodal.mentions_visual answer);
    destruct (Multimodal.get_truthy (Multimodal.extracted_text image)) as [text|];
    try destruct (Multimodal.mentions_text answer text); simpl; split; try reflexivity; lra.
Qed.

(** The state of the loop after all images. *)
Lemma grounding_fold (answer : string) (images : list Multimodal.Image) :
  forall (v : Q) (t : nat),
    (fst (fold_left (Multimodal.grounding_step answer) images (v, t))
     == v + (if Multimodal.mentions_visual answer then len images else 0)
          + (5 # 10) * len (filter (Spec.text_referenced answer) images))%Q
    /\ snd (fold_left (Multimodal.grounding_step answer) images (v, t))
       = (t + List.length images)%nat.
Proof.
  induction images as [|image images IH]; intros v t.
  - simpl. split; [|lia]. destruct (Multimodal.mentions_visual answer);
      change (len (@nil Multimodal.Image)) with 0%Q; lra.
  - cbn [fold_left].
    destruct (Multimodal.grounding_step answer (v, t) image) as [v' t'] eqn:E.
    pose proof (grounding_step_credit answer v t image) as [Hv Ht].
    rewrite E in Hv, Ht. simpl in Hv, Ht. subst t'.
    destruct (IH v' (S t)) as [IHv IHt]. split.
    + rewrite IHv, Hv. unfold Spec.image_credit. cbn [filter].
      destruct (Multimodal.mentions_visual answer);
        destruct (Spec.text_referenced answer image);
        rewrite ?len_cons; lra.
    + rewrite IHt. simpl. lia.
Qed.

(** The value of [evaluate_visual_grounding] on a non-empty list. *)
Lemma visual_grounding_unfold (answer : string) (images : list Multimodal.Image) :
  images <> [] ->
  (Multimodal.evaluate_visual_grounding answer images
   == Qmin (((if Multimodal.mentions_visual answer then len images else 0)
             + (5 # 10) * len (filter (Spec.text_referenced answer) images))
            / len images) 1)%Q.
Proof.
  intros Hne. unfold Multimodal.evaluate_visual_grounding.
  apply nonempty_true in Hne as Hb. rewrite Hb. cbn [negb].
  destruct (grounding_fold answer images 0%Q 0%nat) as [Hv Ht].
  destruct (fold_left (Multimodal.grounding_step answer) images (0%Q, 0%nat))
    as [vr total]. simpl in Hv, Ht. subst total.
  assert (Hpos : (0 <? List.length images)%nat = true).
  { apply Nat.ltb_lt. destruct images; [congruence|simpl; lia]. }
  rewrite Hpos. fold (len images).
  assert (E : (vr / len images
               == ((if Multimodal.mentions_visual answer then len images else 0)
                   + (5 # 10) * len (filter (Spec.text_referenced answer) images))
                  / len images)%Q).
  { rewrite Hv. apply Qdiv_comp; [|reflexivity]. lra. }
  rewrite E. reflexivity.
Qed.

(** C7, as amended.  Visual grounding is 1 for no image.  Otherwise every
    image adds 1 when the lower-cased answer contains a visual keyword, and
    0.5 more when one of the first ten lower-cased words of its non-empty
    extracted text occurs in the lower-cased answer; the sum is divided by
    the image count and the quotient, not each image, is capped at 1.
    So with a keyword the value is 1, and without one it is half the
    fraction of images whose text is referenced. *)
Theorem visual_grounding_value (answer : string) (images : list Multimodal.Image) :
  (images = [] -> Multimodal.evaluate_visual_grounding answer images == 1)%Q
  /\ (images <> [] -> Multimodal.mentions_visual answer = true ->
      Multimodal.evaluate_visual_grounding answer images == 1)%Q
  /\ (images <> [] -> Multimodal.mentions_visual answer = false ->
      Multimodal.evaluate_visual_grounding answer images
      == (5 # 10) * len (filter (Spec.text_referenced answer) images) / len images)%Q.
Proof.
  split; [|split].
  - intros ->. reflexivity.
  - intros Hne Hk. rewrite (visual_grounding_unfold _ _ Hne), Hk.
    apply Q.min_r. pose proof (len_pos _ Hne).
    apply Qle_shift_div_l; [assumption|].
    pose proof (len_nonneg (filter (Spec.text_referenced answer) images)). lra.
  - intros Hne Hk. rewrite (visual_grounding_unfold _ _ Hne), Hk.
    rewrite Q.min_l.
    + apply Qdiv_comp; [lra|reflexivity].
    + pose proof (len_pos _ Hne).
      apply Qle_shift_div_r; [assumption|].
      pose proof (len_le _ _ (filter_length_le (Spec.text_referenced answer) images)).
      pose proof (len_nonneg (filter (Spec.text_referenced answer) images)). lra.
Qed.

Lemma visual_grounding_value_witness :
  (Multimodal.evaluate_visual_grounding "a cat on a mat"
     [ {| Multimodal.image_path := Some "a.png";
          Multimodal.extracted_text := Some "Cat";
          Multimodal.caption := None |};
       {| Multimodal.image_path := Some "b.png";
          Multimodal.extracted_text := None;
          Multimodal.caption := Some "a cat" |} ]
   == 1 # 4)%Q.
Proof.
  destruct (visual_grounding_value "a cat on a mat"
     [ {| Multimodal.image_path := Some "a.png";
          Multimodal.extracted_text := Some "Cat";
          Multimodal.caption := None |};
       {| Multimodal.image_path := Some "b.png";
          Multimodal.extracted_text := None;
          Multimodal.caption := Some "a cat" |} ]) as [_ [_ H]].
  rewrite H.
  - vm_compute. reflexivity.
  - discriminate.
  - vm_compute. reflexivity.
Defined.

(** C7, as stated, fails: with no visual keyword, an image whose extracted
    text overlaps the answer counts for one half, not for one. *)
Lemma visual_grounding_overlap_counts_half :
  let answer := "the cat" in
  let images := [ {| Multimodal.image_path := Some "cat.png";
                     Multimodal.extracted_text := Some "cat";
                     Multimodal.caption := None |} ] in
  (Spec.reflected_fraction answer images == 1)%Q
  /\ (Multimodal.evaluate_visual_grounding answer images == 1 # 2)%Q
  /\ ~ (Multimodal.evaluate_visual_grounding answer images
        == Spec.reflected_fraction answer images)%Q.
Proof.
  cbv zeta. repeat split.
  vm_compute. discriminate.
Qed.

(** C10.  For a non-empty image list and an answer whose lower-cased text
    contains one of the eight visual keywords, visual grounding is exactly
    1, whatever the images hold. *)
Theorem visual_grounding_keyword (answer : string) (images : list Multimodal.Image) :
  images <> [] ->
  (exists keyword, In keyword Multimodal.visual_keywords
                   /\ contains keyword (lower answer) = true) ->
  (Multimodal.evaluate_visual_grounding answer images == 1)%Q.
Proof.
  intros Hne [keyword [Hin Hc]].
  assert (Hk : Multimodal.mentions_visual answer = true).
  { unfold Multimodal.mentions_visual. apply existsb_exists. exists keyword. tauto. }
  rewrite (visual_grounding_unfold _ _ Hne), Hk.
  apply Q.min_r. pose proof (len_pos _ Hne).
  apply Qle_shift_div_l; [assumption|].
  pose proof (len_nonneg (filter (Spec.text_referenced answer) images)). lra.
Qed.

Lemma visual_grounding_keyword_witness :
  (Multimodal.evaluate_visual_grounding "As SHOWN above, sales grew."
     [ {| Multimodal.image_path := Some "zebra.png";
          Multimodal.extracted_text := Some "zebra";
          Multimodal.caption := None |};
       {| Multimodal.image_path := None;
          Multimodal.extracted_text := None;
          Multimodal.caption := None |} ]
   == 1)%Q.
Proof.
  apply visual_grounding_keyword.
  - discriminate.
  - exists "shown". split; [simpl; tauto | reflexivity].
Defined.

(** ** Cosine similarity *)

Lemma dot_comm (v1 : list R) : forall v2, Multimodal.dot v1 v2 = Multimodal.dot v2 v1.
Proof.
  induction v1 as [|x v1 IH]; intros [|y v2]; simpl; try reflexivity.
  rewrite IH. lra.
Qed.

Lemma dot_zero_vector (v1 : list R) :
  Forall (fun x => x = 0%R) v1 -> forall v2, Multimodal.dot v1 v2 = 0%R.
Proof.
  induction 1 as [|x v1 Hx _ IH]; intros [|y v2]; simpl; try reflexivity.
  rewrite IH, Hx. lra.
Qed.

Lemma norm_zero_vector (v : list R) :
  Forall (fun x => x = 0%R) v -> Multimodal.norm v = 0%R.
Proof.
  intros H. unfold Multimodal.norm. rewrite (dot_zero_vector v H v). apply sqrt_0.
Qed.

(** C9, as amended.  On vectors of different lengths the call raises
    [ValueError].  On vectors of equal length it never raises, its result
    does not depend on the order of the two vectors, and it is nan, not a
    value in [-1, 1], whenever one of the vectors is the zero vector: the
    division is 0 / 0 and nothing guards it. *)
Theorem cosine_similarity_cases (vec1 vec2 : list R) :
  (List.length vec1 <> List.length vec2 ->
   exists msg, Multimodal.cosine_similarity vec1 vec2 = Raise (ValueError msg))
  /\ (List.length vec1 = List.length vec2 ->
      (exists v, Multimodal.cosine_similarity vec1 vec2 = Ok v)
      /\ Multimodal.cosine_similarity vec2 vec1 = Multimodal.cosine_similarity vec1 vec2
      /\ (Forall (fun x => x = 0%R) vec1 \/ Forall (fun x => x = 0%R) vec2 ->
          Multimodal.cosine_similarity vec1 vec2 = Ok Multimodal.NaN)).
Proof.
  unfold Multimodal.cosine_similarity. split.
  - intros Hlen. apply Nat.eqb_neq in Hlen. rewrite Hlen. eexists. reflexivity.
  - intros Hlen. rewrite <- Hlen, Nat.eqb_refl. split; [eexists; reflexivity|]. split.
    + rewrite (dot_comm vec2 vec1), (Rmult_comm (Multimodal.norm vec2)). reflexivity.
    + intros Hz. unfold Multimodal.np_div.
      destruct (Req_dec_T (Multimodal.norm vec1 * Multimodal.norm vec2) 0) as [_|Hn];
        [reflexivity|].
      exfalso. apply Hn.
      destruct Hz as [Hz|Hz]; rewrite (norm_zero_vector _ Hz); lra.
Qed.

Lemma cosine_similarity_cases_witness :
  Multimodal.cosine_similarity [3; 4]%R [0; 0]%R = Ok Multimodal.NaN
  /\ Multimodal.cosine_similarity [4; 3]%R [3; 4]%R
     = Multimodal.cosine_similarity [3; 4]%R [4; 3]%R.
Proof.
  split.
  - destruct (cosine_similarity_cases [3; 4]%R [0; 0]%R) as [_ H].
    destruct (H eq_refl) as [_ [_ Hz]]. apply Hz. right. repeat constructor.
  - destruct (cosine_similarity_cases [3; 4]%R [4; 3]%R) as [_ H].
    destruct (H eq_refl) as [_ [Hs _]]. exact Hs.
Defined.

(** C9, as stated, fails: on a zero vector the division is 0 / 0 and the
    result is nan, not a number in [-1, 1]; and vectors of different
    lengths make [np.dot] raise. *)
Lemma cosine_similarity_zero_vector :
  Multimodal.cosine_similarity [0; 0]%R [1; 2]%R = Ok Multimodal.NaN
  /\ ~ (exists r : R,
          Multimodal.cosine_similarity [0; 0]%R [1; 2]%R = Ok (Multimodal.Num r)
          /\ (-1 <= r <= 1)%R)
  /\ Multimodal.cosine_similarity [1]%R [1; 2]%R = Raise (ValueError "shapes not aligned").
Proof.
  assert (E : Multimodal.cosine_similarity [0; 0]%R [1; 2]%R = Ok Multimodal.NaN).
  { unfold Multimodal.cosine_similarity, Multimodal.np_div. simpl Nat.eqb. cbv iota.
    destruct (Req_dec_T (Multimodal.norm [0; 0] * Multimodal.norm [1; 2]) 0)%R as [_|Hn];
      [reflexivity|].
    exfalso. apply Hn. unfold Multimodal.norm at 1. simpl.
    replace (0 * 0 + (0 * 0 + 0))%R with 0%R by lra. rewrite sqrt_0. lra. }
  split; [exact E|]. split.
  - intros [r [Hr _]]. rewrite E in Hr. discriminate.
  - reflexivity.
Qed.

(** ** Quality gates *)

Lemma status_passed (score threshold : Q) :
  Phase2.status_of score threshold = "passed" <-> (threshold <= score)%Q.
Proof.
  unfold Phase2.status_of. destruct (Qle_bool threshold score) eqn:E.
  - apply Qle_bool_iff in E. tauto.
  - split; [discriminate|]. intros H. apply Qle_bool_iff in H. congruence.
Qed.

Lemma metric_gate_passed (thresholds : Phase2.table) (name : string) (score : Q) :
  Phase2.metric (Phase2.metric_gate thresholds (name, score)) = name
  /\ (Phase2.status (Phase2.metric_gate thresholds (name, score)) = "passed"
      <-> (Phase2.get thresholds ("ragas_" ++ name) (7 # 10) <= score)%Q).
Proof. split; [reflexivity|]. simpl. apply status_passed. Qed.

(** C5, as amended.  A metric's gate passes exactly when its score is at
    least the threshold the table holds under ["ragas_" + name], 0.7 when
    that key is absent: a table that holds 0.9 under ["basic_relevance"]
    leaves a basic relevance of 0.5 failing on that default.  The overall
    gate does not combine the metric gates: it passes exactly when the mean
    of the scores is at least the table's ["overall_quality"], and without
    that key the lookup raises and there is no verdict.  In
    [simple-ragas-test.py] every gate is a condition of its own on the
    overall score, the mean of the four core metrics: at least 0.7 in
    tests 1 and 4, below 0.3 in test 2, between 0.4 and 0.8 in test 3;
    test 5 gates on the time per query. *)
Theorem quality_gates_by_mean (thresholds scores : Phase2.table) :
  (forall name score,
      Phase2.metric (Phase2.metric_gate thresholds (name, score)) = name
      /\ (Phase2.status (Phase2.metric_gate thresholds (name, score)) = "passed"
          <-> (Phase2.get thresholds ("ragas_" ++ name) (7 # 10) <= score)%Q)
      /\ (Phase2.lookup thresholds ("ragas_" ++ name) = None ->
          (Phase2.status (Phase2.metric_gate thresholds (name, score)) = "passed"
           <-> (7 # 10 <= score)%Q)))
  /\ (forall t,
         scores <> [] ->
         Phase2.lookup thresholds "overall_quality" = Some t ->
         exists overall,
           Phase2.test_quality_gates_with thresholds scores
           = Ok (map (Phase2.metric_gate thresholds) scores ++ [overall])%list
           /\ (Phase2.status overall = "passed" <-> (t <= mean (map snd scores))%Q))
  /\ (Phase2.lookup thresholds "overall_quality" = None ->
      Phase2.test_quality_gates_with thresholds scores
      = Raise (KeyError "overall_quality"))
  /\ (Phase2.status
        (Phase2.metric_gate [("basic_relevance", 9 # 10)%Q] ("basic_relevance", 5 # 10)%Q)
      = "failed"
      /\ Phase2.test_quality_gates_with [("basic_relevance", 9 # 10)%Q]
           [("basic_relevance", 5 # 10)%Q]
         = Raise (KeyError "overall_quality"))
  /\ (forall m : SimpleRAGAS.Metrics,
         (SimpleRAGAS.quality_gate m = "PASS"
          <-> (7 # 10 <= SimpleRAGAS.overall_score m)%Q)
         /\ (SimpleRAGAS.quality_gate_low m = "PASS"
             <-> (SimpleRAGAS.overall_score m < 3 # 10)%Q)
         /\ (SimpleRAGAS.quality_gate_medium m = "PASS"
             <-> (4 # 10 <= SimpleRAGAS.overall_score m <= 8 # 10)%Q))
  /\ (forall batch_duration : Q,
         SimpleRAGAS.quality_gate_batch batch_duration = "PASS"
         <-> (batch_duration / 3 < 100)%Q).
Proof.
  split; [|split; [|split; [|split; [|split]]]].
  - intros name score. destruct (metric_gate_passed thresholds name score) as [Hn Hs].
    split; [exact Hn|]. split; [exact Hs|].
    intros Hnone. rewrite Hs. unfold Phase2.get. rewrite Hnone. reflexivity.
  - intros t _ Ht.
    unfold Phase2.test_quality_gates_with, Phase2.overall_gate, Phase2.getitem.
    rewrite Ht. cbn [bind]. eexists. split; [reflexivity|].
    cbn [Phase2.status]. apply status_passed.
  - intros Hnone.
    unfold Phase2.test_quality_gates_with, Phase2.overall_gate, Phase2.getitem.
    rewrite Hnone. reflexivity.
  - split; reflexivity.
  - intros m. split; [|split].
    + unfold SimpleRAGAS.quality_gate.
      destruct (Qle_bool (7 # 10) (SimpleRAGAS.overall_score m)) eqn:E.
      * apply Qle_bool_iff in E. tauto.
      * split; [discriminate|]. intros H. apply Qle_bool_iff in H. congruence.
    + unfold SimpleRAGAS.quality_gate_low.
      destruct (Qle_bool (3 # 10) (SimpleRAGAS.overall_score m)) eqn:E; cbn [negb].
      * apply Qle_bool_iff in E. split; [discriminate|]. intros H. lra.
      * split; [intros _|reflexivity]. apply Qnot_le_lt. intros H.
        apply Qle_bool_iff in H. congruence.
    + unfold SimpleRAGAS.quality_gate_medium.
      destruct (Qle_bool (4 # 10) (SimpleRAGAS.overall_score m)) eqn:E1;
        destruct (Qle_bool (SimpleRAGAS.overall_score m) (8 # 10)) eqn:E2; cbn [andb].
      * apply Qle_bool_iff in E1. apply Qle_bool_iff in E2. tauto.
      * split; [discriminate|]. intros [_ H]. apply Qle_bool_iff in H. congruence.
      * split; [discriminate|]. intros [H _]. apply Qle_bool_iff in H. congruence.
      * split; [discriminate|]. intros [H _]. apply Qle_bool_iff in H. congruence.
  - intros d. unfold SimpleRAGAS.quality_gate_batch.
    destruct (Qle_bool 100 (d / 3)) eqn:E; cbn [negb].
    + apply Qle_bool_iff in E. split; [discriminate|]. intros H.
      exfalso. apply (Qlt_not_le _ _ H E).
    + split; [intros _|reflexivity]. apply Qnot_le_lt. intros H.
      apply Qle_bool_iff in H. congruence.
Qed.

Lemma quality_gates_by_mean_witness :
  exists overall,
    Phase2.test_quality_gates
    = Ok (map (Phase2.metric_gate Phase2.quality_thresholds) Phase2.mock_ragas_scores
          ++ [overall])%list
    /\ (Phase2.status overall = "passed"
        <-> (75 # 100 <= mean (map snd Phase2.mock_ragas_scores))%Q).
Proof.
  destruct (quality_gates_by_mean Phase2.quality_thresholds Phase2.mock_ragas_scores)
    as [_ [H _]].
  apply (H (75 # 100)%Q).
  - discriminate.
  - reflexivity.
Defined.

(** C5, as stated, fails.  With the thresholds of the source, a
    faithfulness of 0.6 fails its gate while the overall gate, taken on the
    mean 0.825, passes; scores of 0.72 pass every metric gate while the
    overall gate fails.  A table that holds 0.9 under ["basic_relevance"]
    is not consulted for that metric: a score of 0.8 passes on the default
    0.7; and that table has no ["overall_quality"], so the overall gate
    raises instead of failing. *)
Lemma quality_gate_overall_is_mean :
  (exists gates,
      Phase2.test_quality_gates_with Phase2.quality_thresholds
        [("faithfulness", 6 # 10); ("answer_relevancy", 9 # 10);
         ("context_precision", 9 # 10); ("context_recall", 9 # 10)]%Q = Ok gates
      /\ map Phase2.status gates = ["failed"; "passed"; "passed"; "passed"; "passed"])
  /\ (exists gates,
         Phase2.test_quality_gates_with Phase2.quality_thresholds
           [("faithfulness", 72 # 100); ("answer_relevancy", 72 # 100);
            ("context_precision", 72 # 100); ("context_recall", 72 # 100)]%Q = Ok gates
         /\ map Phase2.status gates = ["passed"; "passed"; "passed"; "passed"; "failed"])
  /\ Phase2.status
       (Phase2.metric_gate [("basic_relevance", 9 # 10)%Q] ("basic_relevance", 8 # 10)%Q)
     = "passed"
  /\ Phase2.overall_gate [("basic_relevance", 9 # 10)%Q] [("basic_relevance", 5 # 10)%Q]
     = Raise (KeyError "overall_quality").
Proof.
  split; [|split; [|split]].
  - eexists. split; [vm_compute; reflexivity | reflexivity].
  - eexists. split; [vm_compute; reflexivity | reflexivity].
  - reflexivity.
  - reflexivity.
Qed.

(** ** Image relevance and the multimodal endpoint *)

(** With the provider down, image relevance of a non-empty image list is
    the neutral 0.5. *)
Lemma image_relevance_provider_down
    (post_embed_text post_embed_image : string -> result Multimodal.Response)
    (query : string) (images : list Multimodal.Image) :
  Spec.provider_fails post_embed_text ->
  images <> [] ->
  Multimodal.evaluate_image_relevance post_embed_text post_embed_image query images
  = Multimodal.Num (5 / 10)%R.
Proof.
  intros Hdown Hne. unfold Multimodal.evaluate_image_relevance.
  apply nonempty_true in Hne. rewrite Hne. cbn [negb].
  unfold Multimodal.image_relevance_try. specialize (Hdown query).
  destruct (post_embed_text query) as [response|e]; simpl; [|reflexivity].
  apply Z.eqb_neq in Hdown. rewrite Hdown. reflexivity.
Qed.

(** The result object is built without its five required scores, so the
    endpoint answers every request with status 500. *)
Lemma multimodal_response_fails
    (post_embed_text post_embed_image : string -> result Multimodal.Response)
    (post_ragas_evaluate :
       Multimodal.MultimodalEvaluationRequest -> result Multimodal.RagasResponse)
    (similarity_model : option (list string -> result (list (list R))))
    (elapsed : Q) (request : Multimodal.MultimodalEvaluationRequest) :
  exists detail,
    Multimodal.evaluate_multimodal_response post_embed_text post_embed_image
      post_ragas_evaluate similarity_model elapsed request
    = Raise (HTTPException 500 detail).
Proof. eexists. reflexivity. Qed.

(** C4 at its failing inputs.  When every call of the embedding provider
    fails and there is an image, [evaluate_image_relevance] does give the
    neutral 0.5, but the request as a whole returns no result:
    [evaluate_multimodal_response] raises an [HTTPException] with status
    500, since [MultimodalEvaluationResult] is constructed without the
    score fields it requires. *)
Theorem provider_down_request_fails
    (post_embed_text post_embed_image : string -> result Multimodal.Response)
    (post_ragas_evaluate :
       Multimodal.MultimodalEvaluationRequest -> result Multimodal.RagasResponse)
    (similarity_model : option (list string -> result (list (list R))))
    (elapsed : Q) (request : Multimodal.MultimodalEvaluationRequest) :
  Spec.provider_fails post_embed_text ->
  Spec.provider_fails post_embed_image ->
  Multimodal.retrieved_images request <> [] ->
  Multimodal.evaluate_image_relevance post_embed_text post_embed_image
    (Multimodal.query request) (Multimodal.retrieved_images request)
  = Multimodal.Num (5 / 10)%R
  /\ exists detail,
       Multimodal.evaluate_multimodal_response post_embed_text post_embed_image
         post_ragas_evaluate similarity_model elapsed request
       = Raise (HTTPException 500 detail).
Proof.
  intros Ht _ Hne. split.
  - apply image_relevance_provider_down; assumption.
  - apply multimodal_response_fails.
Qed.

Lemma provider_down_request_fails_witness :
  let down := fun _ : string => @Raise Multimodal.Response (RequestException "connection refused") in
  let request :=
    {| Multimodal.query := "sales chart";
       Multimodal.retrieved_contexts := ["sales grew in 2023"];
       Multimodal.retrieved_images :=
         [ {| Multimodal.image_path := Some "chart.png";
              Multimodal.extracted_text := Some "sales";
              Multimodal.caption := None |} ];
       Multimodal.generated_answer := "As shown in the chart, sales grew.";
       Multimodal.ground_truth := None;
       Multimodal.cross_modal_pairs := [];
       Multimodal.evaluation_types :=
         ["text_quality"; "image_relevance"; "cross_modal_consistency";
          "multimodal_faithfulness"] |} in
  Multimodal.evaluate_image_relevance down down
    (Multimodal.query request) (Multimodal.retrieved_images request)
  = Multimodal.Num (5 / 10)%R
  /\ exists detail,
       Multimodal.evaluate_multimodal_response down down
         (fun _ => Raise (RequestException "connection refused")) None 0%Q request
       = Raise (HTTPException 500 detail).
Proof.
  intros down request.
  apply (provider_down_request_fails down down
           (fun _ => Raise (RequestException "connection refused")) None 0%Q request).
  - intros payload. exact I.
  - intros payload. exact I.
  - discriminate.
Defined.

(** ** Batch evaluation *)

Section BatchProps.

Context {Data Output : Type}.
Variables run_multimodal run_document_processing run_search : Data -> result Output.

Local Abbreviation entry :=
  (Multimodal.batch_entry Data Output run_multimodal run_document_processing run_search).
Local Abbreviation loop :=
  (Multimodal.batch_loop Data Output run_multimodal run_document_processing run_search).
Local Abbreviation entries :=
  (Spec.entries_from run_multimodal run_document_processing run_search).

Lemma batch_loop_app (requests : list (Multimodal.RequestData Data)) :
  forall i results,
    loop i requests results = (results ++ entries i requests)%list.
Proof.
  induction requests as [|request_data rest IH]; intros i results.
  - simpl. rewrite app_nil_r. reflexivity.
  - unfold loop, entries in *. cbn [Multimodal.batch_loop Spec.entries_from].
    rewrite IH, <- app_assoc. reflexivity.
Qed.

Lemma entries_nth (requests : list (Multimodal.RequestData Data)) :
  forall i k request_data,
    nth_error requests k = Some request_data ->
    nth_error (entries i requests) k = Some (entry (i + k) request_data).
Proof.
  induction requests as [|r rest IH]; intros i k request_data Hk.
  - destruct k; discriminate.
  - destruct k as [|k]; simpl in Hk.
    + inversion Hk; subst. simpl. rewrite Nat.add_0_r. reflexivity.
    + unfold entries in *. cbn [Spec.entries_from nth_error].
      rewrite (IH (S i) k request_data Hk). f_equal. f_equal. lia.
Qed.

Lemma entries_length (requests : list (Multimodal.RequestData Data)) :
  forall i, List.length (entries i requests) = List.length requests.
Proof.
  induction requests as [|r rest IH]; intros i; [reflexivity|].
  unfold entries in *. simpl. rewrite IH. reflexivity.
Qed.

Lemma batch_evaluate_nth (requests : list (Multimodal.RequestData Data))
    (i : nat) (request_data : Multimodal.RequestData Data) :
  nth_error requests i = Some request_data ->
  nth_error (Multimodal.batch_evaluate Data Output run_multimodal
               run_document_processing run_search requests) i
  = Some (entry i request_data).
Proof.
  intros Hi. unfold Multimodal.batch_evaluate. fold loop.
  rewrite batch_loop_app. cbn [app]. apply (entries_nth requests 0 i _ Hi).
Qed.

Lemma batch_evaluate_length (requests : list (Multimodal.RequestData Data)) :
  List.length (Multimodal.batch_evaluate Data Output run_multimodal
                 run_document_processing run_search requests)
  = List.length requests.
Proof.
  unfold Multimodal.batch_evaluate. fold loop. rewrite batch_loop_app. cbn [app].
  apply entries_length.
Qed.

End BatchProps.

Lemma column_ok {A : Type} (name : string) (get : RagasService.Item -> option A)
    (ground_truth_data : list RagasService.Item) (l : list A) :
  RagasService.column name get ground_truth_data = Ok l ->
  Forall (fun item => get item <> None) ground_truth_data.
Proof.
  revert l. induction ground_truth_data as [|item rest IH]; intros l H.
  - constructor.
  - simpl in H. destruct (get item) as [x|] eqn:E; simpl in H; [|discriminate].
    destruct (RagasService.column name get rest) as [xs|e] eqn:Er; simpl in H;
      [|discriminate].
    constructor; [congruence | apply (IH xs eq_refl)].
Qed.

Section GroundTruthProps.

Variables LLM RagasResult : Type.
Variable get_llm_and_embeddings : result LLM.
Variable evaluate : RagasService.Dataset -> list string -> LLM -> result RagasResult.
Variable to_pandas : RagasResult -> option (result (list (string * list Q))).
Variable contains_metric : RagasResult -> string -> bool.
Variable getitem : RagasResult -> string -> RagasService.ragas_value.
Variable np_std : list Q -> Q.

(** One malformed record makes the whole ground-truth batch fail. *)
Lemma ground_truth_batch_all_or_nothing (ground_truth_data : list RagasService.Item)
    (metrics : list string) :
  Exists Spec.malformed ground_truth_data ->
  exists detail,
    RagasService.batch_evaluate_ground_truth LLM RagasResult get_llm_and_embeddings
      evaluate to_pandas contains_metric getitem np_std
      (Some ground_truth_data) metrics
    = Raise (HTTPException 500 detail).
Proof.
  intros Hbad. unfold RagasService.batch_evaluate_ground_truth.
  destruct (RagasService.batch_try LLM RagasResult get_llm_and_embeddings evaluate
              to_pandas contains_metric getitem np_std (Some ground_truth_data) metrics)
    as [report|e] eqn:E; [|eexists; reflexivity].
  exfalso. unfold RagasService.batch_try in E. cbn [bind] in E.
  destruct (nonempty ground_truth_data); cbn [negb] in E; [|discriminate].
  destruct get_llm_and_embeddings as [llm|e]; cbn [bind] in E; [|discriminate].
  destruct (RagasService.column "question" RagasService.question ground_truth_data)
    as [qs|e] eqn:Eq; cbn [bind] in E; [|discriminate].
  destruct (RagasService.column "contexts" RagasService.contexts ground_truth_data)
    as [cs|e] eqn:Ec; cbn [bind] in E; [|discriminate].
  destruct (RagasService.column "answer" RagasService.answer ground_truth_data)
    as [ans|e] eqn:Ea; cbn [bind] in E; [|discriminate].
  destruct (RagasService.column "ground_truth" RagasService.ground_truth ground_truth_data)
    as [gts|e] eqn:Eg; cbn [bind] in E; [|discriminate].
  apply column_ok in Eq, Ec, Ea, Eg.
  rewrite Forall_forall in Eq, Ec, Ea, Eg.
  apply Exists_exists in Hbad. destruct Hbad as [item [Hin Hm]].
  destruct Hm as [H|[H|[H|H]]];
    [apply (Eq item Hin H) | apply (Ec item Hin H)
     | apply (Ea item Hin H) | apply (Eg item Hin H)].
Qed.

End GroundTruthProps.

(** C3, as amended.  The multimodal batch evaluator returns one entry per
    request, in input order: the entry at position [i] carries index [i]
    and is an error entry exactly when the evaluation of that request
    raised, a result entry otherwise, whatever happened to the other
    requests; the call itself never raises.  The ground-truth batch
    evaluator has no per-entry handling: it evaluates the data set in one
    call, and a single malformed record makes the whole call fail with
    status 500. *)
Theorem batch_failure_semantics
    (Data Output : Type)
    (run_multimodal run_document_processing run_search : Data -> result Output)
    (requests : list (Multimodal.RequestData Data))
    (LLM RagasResult : Type) (get_llm_and_embeddings : result LLM)
    (evaluate : RagasService.Dataset -> list string -> LLM -> result RagasResult)
    (to_pandas : RagasResult -> option (result (list (string * list Q))))
    (contains_metric : RagasResult -> string -> bool)
    (getitem : RagasResult -> string -> RagasService.ragas_value)
    (np_std : list Q -> Q)
    (ground_truth_data : list RagasService.Item) (metrics : list string) :
  let results :=
    Multimodal.batch_evaluate Data Output run_multimodal run_document_processing
      run_search requests in
  let attempt :=
    Multimodal.batch_try Data Output run_multimodal run_document_processing run_search in
  (List.length results = List.length requests
   /\ forall i request_data,
       nth_error requests i = Some request_data ->
       (forall e, attempt request_data = Raise e ->
                  nth_error results i = Some (Multimodal.EntryError Output i (str_of_exn e)))
       /\ (forall r, attempt request_data = Ok r ->
                     nth_error results i = Some (Multimodal.EntryResult Output i r)))
  /\ (Exists Spec.malformed ground_truth_data ->
      exists detail,
        RagasService.batch_evaluate_ground_truth LLM RagasResult get_llm_and_embeddings
          evaluate to_pandas contains_metric getitem np_std
          (Some ground_truth_data) metrics
        = Raise (HTTPException 500 detail)).
Proof.
  intros results attempt. split; [split|].
  - apply batch_evaluate_length.
  - intros i request_data Hi.
    pose proof (batch_evaluate_nth run_multimodal run_document_processing run_search
                  requests i request_data Hi) as Hn.
    fold results in Hn. unfold Multimodal.batch_entry in Hn. fold attempt in Hn.
    split; intros x Hx; rewrite Hx in Hn; exact Hn.
  - apply ground_truth_batch_all_or_nothing.
Qed.

Lemma batch_failure_semantics_witness :
  let run := fun d : string =>
    if String.eqb d "dirty" then Raise (ValueError "bad record") else Ok d in
  let requests :=
    [ {| Multimodal.type := Some "multimodal"; Multimodal.data := Some "first" |};
      {| Multimodal.type := Some "search"; Multimodal.data := Some "dirty" |};
      {| Multimodal.type := None; Multimodal.data := Some "third" |} ] in
  let ground_truth_data :=
    [ {| RagasService.question := Some "q1"; RagasService.contexts := Some ["c1"];
         RagasService.answer := Some "a1"; RagasService.ground_truth := Some "g1" |};
      {| RagasService.question := Some "q2"; RagasService.contexts := None;
         RagasService.answer := Some "a2"; RagasService.ground_truth := Some "g2" |};
      {| RagasService.question := Some "q3"; RagasService.contexts := Some ["c3"];
         RagasService.answer := Some "a3"; RagasService.ground_truth := Some "g3" |} ] in
  nth_error (Multimodal.batch_evaluate string string run run run requests) 1
  = Some (Multimodal.EntryError string 1 "bad record")
  /\ nth_error (Multimodal.batch_evaluate string string run run run requests) 2
     = Some (Multimodal.EntryResult string 2 (Multimodal.Evaluated string "third"))
  /\ exists detail,
       RagasService.batch_evaluate_ground_truth unit unit (Ok tt)
         (fun _ _ _ => Ok tt) (fun _ => None) (fun _ _ => false)
         (fun _ _ => RagasService.Scalar 0) (fun _ => 0%Q)
         (Some ground_truth_data) []
       = Raise (HTTPException 500 detail).
Proof.
  intros run requests ground_truth_data.
  destruct (batch_failure_semantics string string run run run requests
              unit unit (Ok tt) (fun _ _ _ => Ok tt) (fun _ => None) (fun _ _ => false)
              (fun _ _ => RagasService.Scalar 0) (fun _ => 0%Q) ground_truth_data [])
    as [[_ Hnth] Hgt].
  split; [|split].
  - destruct (Hnth 1%nat _ eq_refl) as [Herr _].
    apply (Herr (ValueError "bad record")). reflexivity.
  - destruct (Hnth 2%nat _ eq_refl) as [_ Hok].
    apply (Hok (Multimodal.Evaluated string "third")). reflexivity.
  - apply Hgt. apply Exists_cons_tl, Exists_cons_hd. right. left. reflexivity.
Defined.

(** C3, as stated, fails for the ground-truth evaluator: of three records
    the second lacks its contexts, and the batch does not complete with the
    two good records but fails as a whole with status 500. *)
Lemma ground_truth_batch_aborts :
  RagasService.batch_evaluate_ground_truth unit unit (Ok tt)
    (fun _ _ _ => Ok tt) (fun _ => None) (fun _ _ => false)
    (fun _ _ => RagasService.Scalar 0) (fun _ => 0%Q)
    (Some
       [ {| RagasService.question := Some "q1"; RagasService.contexts := Some ["c1"];
            RagasService.answer := Some "a1"; RagasService.ground_truth := Some "g1" |};
         {| RagasService.question := Some "q2"; RagasService.contexts := None;
            RagasService.answer := Some "a2"; RagasService.ground_truth := Some "g2" |};
         {| RagasService.question := Some "q3"; RagasService.contexts := Some ["c3"];
            RagasService.answer := Some "a3"; RagasService.ground_truth := Some "g3" |} ])
    []
  = Raise (HTTPException 500 "Batch evaluation failed: 'contexts'").
Proof. reflexivity. Qed.

(** ** Comparison of two systems *)

Lemma assoc_set_fresh {V : Type} (d : list (string * V)) (k : string) (v : V) :
  ~ In k (map fst d) -> RagasService.assoc_set d k v = (d ++ [(k, v)])%list.
Proof.
  induction d as [|[k' v'] d IH]; simpl; intros Hk; [reflexivity|].
  destruct (String.eqb k k') eqn:E.
  - apply String.eqb_eq in E. exfalso. apply Hk. left. congruence.
  - rewrite IH; [reflexivity|]. intros H. apply Hk. right. exact H.
Qed.


Lemma float_gt_true (a b : Q) :
  RagasService.float_gt (Some a) (Some b) = true <-> (b < a)%Q.
Proof.
  simpl. destruct (Qlt_le_dec b a); split; intros; try congruence; lra.
Qed.

Section MaxProps.

Context {A : Type} (key : A -> option Q) (k : A -> Q).


End MaxProps.


Section CompareProps.

Variables LLM RagasResult : Type.
Variable get_llm_and_embeddings : result LLM.
Variable evaluate : RagasService.Dataset -> list string -> LLM -> result RagasResult.
Variable contains_metric : RagasResult -> string -> bool.
Variable getitem : RagasResult -> string -> RagasService.ragas_value.
Variables result_a result_b : RagasResult.

Local Abbreviation both := (Spec.scored_by_both contains_metric result_a result_b).
Local Abbreviation entry := (Spec.comparison_entry getitem result_a result_b).
Local Abbreviation step :=
  (fun (comparison : list (string * RagasService.Comparison)) (metric : string) =>
     if both metric then RagasService.assoc_set comparison metric (snd (entry metric))
     else comparison).

Lemma compare_fold (metrics : list string) :
  forall comparison,
    NoDup metrics ->
    (forall m, In m metrics -> ~ In m (map fst comparison)) ->
    fold_left step metrics comparison
    = (comparison ++ map entry (filter both metrics))%list.
Proof.
  induction metrics as [|m rest IH]; intros comparison Hnd Hfresh.
  - simpl. rewrite app_nil_r. reflexivity.
  - inversion Hnd as [|? ? Hm Hrest]; subst. cbn [fold_left filter].
    cbn beta. destruct (both m) eqn:E.
    + rewrite assoc_set_fresh by (apply Hfresh; left; reflexivity).
      rewrite IH; [|exact Hrest|].
      * rewrite <- app_assoc. reflexivity.
      * intros m' Hm'. rewrite map_app, in_app_iff. simpl.
        intros [H|[H|[]]]; [apply (Hfresh m' (or_intror Hm') H)|].
        subst m'. contradiction.
    + apply IH; [exact Hrest|]. intros m' Hm'. apply Hfresh. right. exact Hm'.
Qed.

Lemma default_metrics_NoDup : NoDup RagasService.default_metrics.
Proof.
  unfold RagasService.default_metrics.
  repeat (constructor; [simpl; intuition discriminate|]). constructor.
Qed.

(** The comparison holds one entry per metric that both results score,
    in the order of the metrics. *)
Lemma compare_results_entries :
  RagasService.compare_results RagasResult contains_metric getitem result_a result_b
  = map entry (filter both RagasService.default_metrics).
Proof.
  unfold RagasService.compare_results.
  change (fold_left step RagasService.default_metrics []
          = map entry (filter both RagasService.default_metrics)).
  rewrite compare_fold; [reflexivity | apply default_metrics_NoDup |].
  intros m _ [].
Qed.

End CompareProps.




(** ** Ranges of the remaining metrics *)

(** Faithfulness, context utilization, answer similarity and visual
    grounding stay in the unit interval on every input. *)
Lemma faithfulness_range (contexts : list string) (answer : string) :
  (0 <= SimpleRAGAS.calculate_faithfulness contexts answer <= 1)%Q.
Proof.
  unfold SimpleRAGAS.calculate_faithfulness.
  destruct (negb (nonempty contexts) || negb (truthy answer)); [lra|].
  destruct (negb (nonempty (words (split (lower (join " " contexts)))))); [lra|].
  apply Qmin_unit.
  destruct (nonempty (words (split (lower answer)))) eqn:E; [|lra].
  apply nonempty_true in E.
  apply ratio_bounds; [apply len_nonneg | apply len_le, filter_length_le | apply len_pos, E].
Qed.

Lemma context_utilization_range (contexts : list string) (answer : string) :
  (0 <= SimpleRAGAS.calculate_context_utilization contexts answer <= 1)%Q.
Proof.
  unfold SimpleRAGAS.calculate_context_utilization.
  destruct (negb (nonempty contexts) || negb (truthy answer)); [lra|].
  destruct (nonempty (SimpleRAGAS.context_vocabulary contexts)) eqn:E; cbn [negb]; [|lra].
  apply nonempty_true in E. apply Qmin_unit.
  apply Qle_shift_div_l; [apply len_pos, E|].
  pose proof (len_nonneg (inter (words (split (lower answer)))
                            (SimpleRAGAS.context_vocabulary contexts))). lra.
Qed.

Lemma inter_uni_length (l1 l2 : list string) :
  (List.length (inter (words l1) (words l2)) <= List.length (uni (words l1) (words l2)))%nat.
Proof.
  apply NoDup_incl_length.
  - unfold inter, intersection. apply NoDup_filter. unfold words, set_of. apply NoDup_nodup.
  - intros x Hx. unfold inter, intersection in Hx. apply filter_In in Hx.
    unfold uni, union. apply nodup_In, in_or_app. left. tauto.
Qed.

Lemma answer_similarity_range (answer ground_truth : string) :
  (0 <= SimpleRAGAS.calculate_answer_similarity answer ground_truth <= 1)%Q.
Proof.
  unfold SimpleRAGAS.calculate_answer_similarity.
  destruct (negb (truthy answer) || negb (truthy ground_truth)); [lra|].
  destruct (negb (nonempty (words (split (lower answer))))
            || negb (nonempty (words (split (lower ground_truth))))); [lra|].
  destruct (Qlt_le_dec 0 _) as [Hpos|_]; [|lra].
  apply ratio_bounds; [apply len_nonneg | apply len_le, inter_uni_length | exact Hpos].
Qed.

Lemma visual_grounding_range (answer : string) (images : list Multimodal.Image) :
  (0 <= Multimodal.evaluate_visual_grounding answer images <= 1)%Q.
Proof.
  destruct images as [|image images];
    [unfold Multimodal.evaluate_visual_grounding; simpl; lra|].
  rewrite visual_grounding_unfold by discriminate.
  apply Qmin_unit. apply Qle_shift_div_l; [apply len_pos; discriminate|].
  pose proof (len_nonneg (image :: images)).
  pose proof (len_nonneg (filter (Spec.text_referenced answer) (image :: images))).
  destruct (Multimodal.mentions_visual answer); lra.
Qed.

(** * Further properties of the evaluation code *)

(** ** Tokens of joined texts *)

Lemma lower_app (s1 s2 : string) : lower (s1 ++ s2) = lower s1 ++ lower s2.
Proof. induction s1 as [|c s1 IH]; simpl; [reflexivity|]. rewrite IH. reflexivity. Qed.

(** Splitting across a space: the words before it, then the words after. *)
Lemma split_from_space (sp : ascii) (b : string) :
  isspace sp = true ->
  forall a w, split_from w (a ++ String sp b)
              = (split_from w a ++ split_from EmptyString b)%list.
Proof.
  intros Hsp. induction a as [|c a IH]; intros w.
  - simpl. rewrite Hsp. destruct w; reflexivity.
  - simpl. destruct (isspace c).
    + destruct w; simpl; rewrite IH; reflexivity.
    + apply IH.
Qed.

Lemma split_join_cons (c : string) (contexts : list string) :
  split (lower (join " " (c :: contexts)))
  = (split (lower c) ++ split (lower (join " " contexts)))%list.
Proof.
  unfold join, split. destruct contexts as [|c' rest].
  - simpl. rewrite app_nil_r. reflexivity.
  - change (String.concat " " (c :: c' :: rest))
      with (c ++ String " "%char (String.concat " " (c' :: rest))).
    rewrite lower_app. cbn [lower].
    change (lower_char " ") with " "%char.
    apply split_from_space. reflexivity.
Qed.

Lemma split_join_In (t : string) (contexts : list string) :
  In t (split (lower (join " " contexts)))
  <-> exists c, In c contexts /\ In t (split (lower c)).
Proof.
  induction contexts as [|c rest IH].
  - simpl. split; [intros []|intros [c [[] _]]].
  - rewrite split_join_cons, in_app_iff, IH. split.
    + intros [H|[c' [Hc' H]]]; [exists c|exists c']; simpl; tauto.
    + intros [c' [[<-|Hc'] H]]; [left; exact H|right; exists c'; tauto].
Qed.

Lemma uni_In (s t : list string) (x : string) : In x (uni s t) <-> In x s \/ In x t.
Proof. unfold uni, union. rewrite nodup_In, in_app_iff. reflexivity. Qed.

Lemma context_vocabulary_In (t : string) (contexts : list string) :
  In t (SimpleRAGAS.context_vocabulary contexts)
  <-> exists c, In c contexts /\ In t (split (lower c)).
Proof.
  unfold SimpleRAGAS.context_vocabulary.
  assert (H : forall acc,
             In t (fold_left (fun context_words context =>
                                uni context_words (split (lower context))) contexts acc)
             <-> In t acc \/ exists c, In c contexts /\ In t (split (lower c))).
  { induction contexts as [|c rest IH]; intros acc.
    - simpl. split; [tauto|]. intros [H|[c [[] _]]]. exact H.
    - cbn [fold_left]. rewrite IH, uni_In. split.
      + intros [[H|H]|[c' [Hc' H]]]; [tauto| |].
        * right. exists c. simpl. tauto.
        * right. exists c'. simpl. tauto.
      + intros [H|[c' [[<-|Hc'] H]]]; [tauto|tauto|]. right. exists c'. tauto. }
  rewrite H. simpl. tauto.
Qed.

Lemma context_vocabulary_same_words (contexts : list string) (t : string) :
  In t (SimpleRAGAS.context_vocabulary contexts) <-> In t (Spec.vocabulary contexts).
Proof.
  rewrite context_vocabulary_In. unfold Spec.vocabulary, Spec.tokens, words.
  rewrite set_of_In. symmetry. apply split_join_In.
Qed.

Lemma words_NoDup (l : list string) : NoDup (words l).
Proof. unfold words, set_of. apply NoDup_nodup. Qed.

Lemma context_vocabulary_NoDup (contexts : list string) :
  NoDup (SimpleRAGAS.context_vocabulary contexts).
Proof.
  unfold SimpleRAGAS.context_vocabulary.
  assert (H : forall acc, NoDup acc ->
             NoDup (fold_left (fun context_words context =>
                                 uni context_words (split (lower context))) contexts acc)).
  { induction contexts as [|c rest IH]; intros acc Hacc; [exact Hacc|].
    cbn [fold_left]. apply IH. unfold uni, union. apply NoDup_nodup. }
  apply H. constructor.
Qed.

Lemma same_elements_length (l1 l2 : list string) :
  NoDup l1 -> NoDup l2 -> (forall x, In x l1 <-> In x l2) ->
  List.length l1 = List.length l2.
Proof.
  intros H1 H2 H. apply Nat.le_antisymm; apply NoDup_incl_length; try assumption;
    intros x Hx; apply H; exact Hx.
Qed.

Lemma inter_In (s t : list string) (x : string) : In x (inter s t) <-> In x s /\ In x t.
Proof.
  unfold inter, intersection. rewrite filter_In, mem_In. reflexivity.
Qed.

Lemma inter_NoDup (s t : list string) : NoDup s -> NoDup (inter s t).
Proof. intros H. unfold inter, intersection. apply NoDup_filter, H. Qed.

Lemma context_vocabulary_length (contexts : list string) :
  List.length (SimpleRAGAS.context_vocabulary contexts)
  = List.length (Spec.vocabulary contexts).
Proof.
  apply same_elements_length.
  - apply context_vocabulary_NoDup.
  - apply words_NoDup.
  - intros x. apply context_vocabulary_same_words.
Qed.

(** X1.  The two ways the code builds the context vocabulary agree: the
    words of the contexts joined by a space (faithfulness) are the words
    collected context by context (context utilization), and the two
    vocabularies have the same size. *)
Theorem context_vocabularies_agree (contexts : list string) :
  (forall t, In t (SimpleRAGAS.context_vocabulary contexts)
             <-> In t (Spec.vocabulary contexts))
  /\ List.length (SimpleRAGAS.context_vocabulary contexts)
     = List.length (Spec.vocabulary contexts).
Proof.
  split; [intros t; apply context_vocabulary_same_words | apply context_vocabulary_length].
Qed.

(** ** Context utilization and faithfulness *)

Lemma inter_same_length (a v1 v2 : list string) :
  (forall x, In x v1 <-> In x v2) ->
  List.length (inter a v1) = List.length (inter a v2).
Proof.
  intros H. unfold inter, intersection. f_equal. apply filter_ext. intros x.
  destruct (mem string_dec x v1) eqn:E1; destruct (mem string_dec x v2) eqn:E2;
    try reflexivity.
  - apply mem_In in E1. apply H in E1. apply (mem_In string_dec) in E1. congruence.
  - apply mem_In in E2. apply H in E2. apply (mem_In string_dec) in E2. congruence.
Qed.

Lemma ratio_one (a b : Q) : (0 < b -> a / b == 1 -> a == b)%Q.
Proof.
  intros Hb E. assert (H : (a == a / b * b)%Q) by (field; lra).
  rewrite E in H. lra.
Qed.

Lemma len_eq {A B : Type} (l : list A) (l' : list B) :
  List.length l = List.length l' -> len l = len l'.
Proof. unfold len. intros ->. reflexivity. Qed.

Lemma context_utilization_unfold (contexts : list string) (answer : string) :
  contexts <> [] -> answer <> "" -> Spec.vocabulary contexts <> [] ->
  (SimpleRAGAS.calculate_context_utilization contexts answer
   == len (inter (Spec.tokens answer) (Spec.vocabulary contexts))
      / len (Spec.vocabulary contexts))%Q.
Proof.
  intros Hc Ha Hv. unfold SimpleRAGAS.calculate_context_utilization.
  apply nonempty_true in Hc. apply truthy_true in Ha. rewrite Hc, Ha. cbn [negb orb].
  assert (Hv' : SimpleRAGAS.context_vocabulary contexts <> []).
  { intros E. apply Hv. apply length_zero_iff_nil.
    rewrite <- context_vocabulary_length, E. reflexivity. }
  apply nonempty_true in Hv' as Hb. rewrite Hb. cbn [negb].
  fold (Spec.tokens answer).
  rewrite (len_eq _ _ (inter_same_length (Spec.tokens answer) _ _
                         (context_vocabulary_same_words contexts))).
  rewrite (len_eq _ _ (context_vocabulary_length contexts)).
  apply Q.min_l.
  apply ratio_bounds; [apply len_nonneg | | apply len_pos, Hv].
  apply len_le, NoDup_incl_length.
  - apply inter_NoDup, words_NoDup.
  - intros x Hx. apply inter_In in Hx. tauto.
Qed.

(** X2.  For contexts that hold at least one word and a non-empty answer,
    context utilization is 1 exactly when every word of the contexts
    occurs among the words of the answer. *)
Theorem context_utilization_full (contexts : list string) (answer : string) :
  contexts <> [] -> answer <> "" -> Spec.vocabulary contexts <> [] ->
  (SimpleRAGAS.calculate_context_utilization contexts answer == 1)%Q
  <-> (forall t, In t (Spec.vocabulary contexts) -> In t (Spec.tokens answer)).
Proof.
  intros Hc Ha Hv. rewrite (context_utilization_unfold _ _ Hc Ha Hv).
  set (A := Spec.tokens answer). set (V := Spec.vocabulary contexts) in *.
  assert (HV : NoDup V) by apply words_NoDup.
  assert (HA : NoDup A) by apply words_NoDup.
  pose proof (len_pos V Hv) as Hpos.
  split.
  - intros E t Ht.
    assert (Hlen : List.length (inter A V) = List.length V).
    { pose proof (ratio_one _ _ Hpos E) as E'.
      unfold len, Qeq in E'. simpl in E'. lia. }
    assert (Hincl : incl V (inter A V)).
    { apply NoDup_length_incl; [apply inter_NoDup, HA | lia |].
      intros x Hx. apply inter_In in Hx. tauto. }
    apply Hincl in Ht. apply inter_In in Ht. tauto.
  - intros Hall.
    assert (Hlen : List.length (inter A V) = List.length V).
    { apply same_elements_length; [apply inter_NoDup, HA | exact HV |].
      intros x. rewrite inter_In. split; [tauto|]. intros Hx. split; [apply Hall, Hx|exact Hx]. }
    rewrite (len_eq _ _ Hlen). apply ratio_self, Hpos.
Qed.

Lemma context_utilization_full_witness :
  (SimpleRAGAS.calculate_context_utilization ["machine learning is powerful"]
     "Machine learning is powerful indeed" == 1)%Q.
Proof.
  apply context_utilization_full.
  - discriminate.
  - discriminate.
  - vm_compute. discriminate.
  - intros t Ht. vm_compute in Ht. vm_compute. intuition.
Defined.

Lemma context_utilization_no_vocabulary (contexts : list string) (answer : string) :
  Spec.vocabulary contexts = [] ->
  SimpleRAGAS.calculate_context_utilization contexts answer = 0%Q.
Proof.
  intros Hv. unfold SimpleRAGAS.calculate_context_utilization.
  destruct (negb (nonempty contexts) || negb (truthy answer)); [reflexivity|].
  assert (E : SimpleRAGAS.context_vocabulary contexts = []).
  { apply length_zero_iff_nil. rewrite context_vocabulary_length, Hv. reflexivity. }
  rewrite E. reflexivity.
Qed.

(** ** Basic relevance *)

Lemma sum_app (l1 l2 : list Q) : (sum (l1 ++ l2) == sum l1 + sum l2)%Q.
Proof. induction l1 as [|x l1 IH]; simpl; [lra|]. rewrite IH. lra. Qed.

Lemma basic_relevance_fold (query_words : list string) (contexts : list string) :
  forall acc,
    (fold_left
       (fun total_relevance context =>
          let context_words := words (split (lower context)) in
          if nonempty context_words then
            let overlap := len (inter query_words context_words) in
            let relevance := (overlap / len (uni query_words context_words))%Q in
            (total_relevance + relevance)%Q
          else total_relevance)
       contexts acc
     == acc + sum (map (Notions.context_relevance query_words) contexts))%Q.
Proof.
  induction contexts as [|c rest IH]; intros acc.
  - simpl. lra.
  - cbn [fold_left map sum fold_right]. rewrite IH.
    unfold Notions.context_relevance at 2. cbv zeta.
    destruct (nonempty (words (split (lower c)))); fold (sum (map (Notions.context_relevance query_words) rest)); lra.
Qed.

Lemma context_relevance_bounds (l : list string) (context : string) :
  (0 <= Notions.context_relevance (words l) context <= 1)%Q.
Proof.
  unfold Notions.context_relevance. cbv zeta.
  destruct (nonempty (words (split (lower context)))) eqn:E; [|lra].
  apply nonempty_true in E.
  apply ratio_bounds; [apply len_nonneg | apply len_le, inter_uni_length |].
  apply len_pos. intros H.
  destruct (words (split (lower context))) as [|x xs] eqn:Ew; [congruence|].
  assert (Hin : In x (uni (words l) (x :: xs))) by (apply uni_In; right; left; reflexivity).
  rewrite H in Hin. destruct Hin.
Qed.

Lemma basic_relevance_mean (query : string) (contexts : list string) :
  query <> "" -> contexts <> [] -> Spec.tokens query <> [] ->
  (SimpleRAGAS.calculate_basic_relevance query contexts
   == mean (map (Notions.context_relevance (Spec.tokens query)) contexts))%Q.
Proof.
  intros Hq Hc Ht. unfold SimpleRAGAS.calculate_basic_relevance.
  apply truthy_true in Hq. apply nonempty_true in Hc. rewrite Hq, Hc. cbn [negb orb].
  fold (Spec.tokens query). apply nonempty_true in Ht. rewrite Ht. cbn [negb].
  rewrite basic_relevance_fold. unfold mean, len. rewrite length_map. apply Qdiv_comp; [lra|reflexivity].
Qed.

Lemma sum_zero_iff (l : list Q) :
  Forall (fun x => 0 <= x)%Q l ->
  (sum l == 0)%Q <-> Forall (fun x => x == 0)%Q l.
Proof.
  induction 1 as [|x l Hx Hl IH]; simpl.
  - split; [constructor|reflexivity].
  - pose proof (sum_nonneg _ Hl) as Hs. split.
    + intros E. constructor; [lra|]. apply IH. lra.
    + intros HF. inversion HF as [|? ? Hx0 Hl0]; subst. apply IH in Hl0. lra.
Qed.

Lemma ratio_zero_iff (a b : Q) : (0 < b -> (a / b == 0 <-> a == 0))%Q.
Proof.
  intros Hb. split; intros E.
  - assert (H : (a == a / b * b)%Q) by (field; lra). rewrite E in H. lra.
  - rewrite E. unfold Qdiv. lra.
Qed.

Lemma len_zero_iff {A : Type} (l : list A) : (len l == 0)%Q <-> l = [].
Proof.
  split; [|intros ->; reflexivity].
  destruct l; [reflexivity|]. unfold len, Qeq. simpl. lia.
Qed.

Lemma context_relevance_zero_iff (query context : string) :
  (Notions.context_relevance (Spec.tokens query) context == 0)%Q
  <-> ~ Notions.shares_word query context.
Proof.
  unfold Notions.context_relevance, Notions.shares_word. cbv zeta.
  fold (Spec.tokens context).
  destruct (nonempty (Spec.tokens context)) eqn:E.
  - apply nonempty_true in E.
    assert (Hpos : (0 < len (uni (Spec.tokens query) (Spec.tokens context)))%Q).
    { apply len_pos. intros H. destruct (Spec.tokens context) as [|x xs]; [congruence|].
      assert (Hin : In x (uni (Spec.tokens query) (x :: xs)))
        by (apply uni_In; right; left; reflexivity).
      rewrite H in Hin. destruct Hin. }
    rewrite (ratio_zero_iff _ _ Hpos), len_zero_iff. split.
    + intros Hnil [t [Hq Hc]].
      assert (Hin : In t (inter (Spec.tokens query) (Spec.tokens context)))
        by (apply inter_In; tauto).
      rewrite Hnil in Hin. destruct Hin.
    + intros Hno. destruct (inter (Spec.tokens query) (Spec.tokens context)) as [|t ts] eqn:Ei;
        [reflexivity|].
      exfalso. apply Hno. exists t. apply inter_In. rewrite Ei. left. reflexivity.
  - apply nonempty_false in E. rewrite E. split; [|reflexivity].
    intros _ [t [_ []]].
Qed.

Lemma basic_relevance_zero (query : string) (contexts : list string) :
  Spec.tokens query = [] \/ contexts = [] ->
  (SimpleRAGAS.calculate_basic_relevance query contexts == 0)%Q.
Proof.
  intros H. unfold SimpleRAGAS.calculate_basic_relevance.
  destruct (negb (truthy query) || negb (nonempty contexts)) eqn:G; [reflexivity|].
  fold (Spec.tokens query). destruct H as [-> | ->]; [reflexivity|].
  simpl in G. rewrite orb_true_r in G. discriminate.
Qed.

Lemma basic_relevance_unit (query : string) (contexts : list string) :
  (0 <= SimpleRAGAS.calculate_basic_relevance query contexts <= 1)%Q.
Proof.
  destruct (Spec.tokens query) as [|t ts] eqn:Et;
    [rewrite basic_relevance_zero by tauto; lra|].
  destruct contexts as [|c rest] eqn:Ec; [rewrite basic_relevance_zero by tauto; lra|].
  rewrite <- Ec. rewrite basic_relevance_mean;
    [|intros ->; discriminate|rewrite Ec; discriminate|rewrite Et; discriminate].
  assert (Hall : Forall (fun x => 0 <= x <= 1)%Q
                   (map (Notions.context_relevance (Spec.tokens query)) contexts)).
  { apply Forall_forall. intros x Hx. apply in_map_iff in Hx. destruct Hx as [c' [<- _]].
    apply context_relevance_bounds. }
  split.
  - apply mean_nonneg. eapply Forall_impl; [|exact Hall]. simpl. intros; lra.
  - apply mean_le_1. eapply Forall_impl; [|exact Hall]. simpl. intros; lra.
Qed.

(** X4.  Basic relevance lies in the unit interval on every input; it is 0
    when the query has no word or there is no context; and for a query
    with a word and at least one context it is 0 exactly when no context
    shares a word with the query. *)
Theorem basic_relevance_bounds (query : string) (contexts : list string) :
  (0 <= SimpleRAGAS.calculate_basic_relevance query contexts <= 1)%Q
  /\ (Spec.tokens query = [] \/ contexts = [] ->
      SimpleRAGAS.calculate_basic_relevance query contexts == 0)%Q
  /\ (Spec.tokens query <> [] -> contexts <> [] ->
      ((SimpleRAGAS.calculate_basic_relevance query contexts == 0)%Q
       <-> forall c, In c contexts -> ~ Notions.shares_word query c)).
Proof.
  assert (Hzero : Spec.tokens query = [] \/ contexts = [] ->
                  (SimpleRAGAS.calculate_basic_relevance query contexts == 0)%Q).
  { intros H. unfold SimpleRAGAS.calculate_basic_relevance.
    destruct (negb (truthy query) || negb (nonempty contexts)) eqn:G; [reflexivity|].
    fold (Spec.tokens query). destruct H as [-> | ->]; [reflexivity|].
    simpl in G. rewrite orb_true_r in G. discriminate. }
  assert (Hmean : Spec.tokens query <> [] -> contexts <> [] ->
                  (SimpleRAGAS.calculate_basic_relevance query contexts
                   == mean (map (Notions.context_relevance (Spec.tokens query)) contexts))%Q).
  { intros Ht Hc. apply basic_relevance_mean; [|exact Hc|exact Ht].
    intros ->. apply Ht. reflexivity. }
  assert (Hall : Forall (fun x => 0 <= x <= 1)%Q
                   (map (Notions.context_relevance (Spec.tokens query)) contexts)).
  { apply Forall_forall. intros x Hx. apply in_map_iff in Hx. destruct Hx as [c [<- _]].
    apply context_relevance_bounds. }
  split; [|split].
  - destruct (Spec.tokens query) as [|t ts] eqn:Et; [rewrite Hzero by tauto; lra|].
    destruct contexts as [|c rest] eqn:Ec; [rewrite Hzero by tauto; lra|].
    rewrite <- Et, <- Ec in *. rewrite Hmean by (rewrite ?Et, ?Ec; discriminate). split.
    + apply mean_nonneg. eapply Forall_impl; [|exact Hall]. simpl. intros; lra.
    + apply mean_le_1. eapply Forall_impl; [|exact Hall]. simpl. intros; lra.
  - exact Hzero.
  - intros Ht Hc. rewrite (Hmean Ht Hc). unfold mean.
    rewrite ratio_zero_iff
      by (apply len_pos; intros E; apply map_eq_nil in E; contradiction).
    rewrite sum_zero_iff by (eapply Forall_impl; [|exact Hall]; simpl; intros; lra).
    rewrite Forall_forall. split.
    + intros H c Hin. apply context_relevance_zero_iff. apply H. apply in_map, Hin.
    + intros H x Hx. apply in_map_iff in Hx. destruct Hx as [c [<- Hin]].
      apply context_relevance_zero_iff, H, Hin.
Qed.

Lemma basic_relevance_bounds_witness :
  (SimpleRAGAS.calculate_basic_relevance "stock market" ["cats are mammals"; ""] == 0)%Q.
Proof.
  destruct (basic_relevance_bounds "stock market" ["cats are mammals"; ""])
    as [_ [_ H]].
  apply H.
  - vm_compute. discriminate.
  - discriminate.
  - intros c Hc [t [Hq Ht]]. vm_compute in Hq.
    destruct Hc as [<-|[<-|[]]]; vm_compute in Ht; intuition congruence.
Defined.

(** ** Answer similarity *)

Lemma inter_comm_length (s t : list string) :
  NoDup s -> NoDup t -> List.length (inter s t) = List.length (inter t s).
Proof.
  intros Hs Ht. apply same_elements_length; try (apply inter_NoDup; assumption).
  intros x. rewrite !inter_In. tauto.
Qed.

Lemma uni_comm_length (s t : list string) :
  List.length (uni s t) = List.length (uni t s).
Proof.
  apply same_elements_length; try (unfold uni, union; apply NoDup_nodup).
  intros x. rewrite !uni_In. tauto.
Qed.

(** X5.  Answer similarity is symmetric in its two texts, and a text that
    has at least one word is at similarity 1 to itself. *)
Theorem answer_similarity_symmetric (answer ground_truth : string) :
  SimpleRAGAS.calculate_answer_similarity answer ground_truth
  = SimpleRAGAS.calculate_answer_similarity ground_truth answer
  /\ (Spec.tokens answer <> [] ->
      (SimpleRAGAS.calculate_answer_similarity answer answer == 1)%Q).
Proof.
  split.
  - unfold SimpleRAGAS.calculate_answer_similarity.
    rewrite (orb_comm (negb (truthy answer))).
    destruct (negb (truthy ground_truth) || negb (truthy answer)); [reflexivity|].
    rewrite (orb_comm (negb (nonempty (words (split (lower answer)))))).
    destruct (negb (nonempty (words (split (lower ground_truth))))
              || negb (nonempty (words (split (lower answer))))); [reflexivity|].
    rewrite (len_eq _ _ (uni_comm_length (words (split (lower answer)))
                           (words (split (lower ground_truth))))).
    rewrite (len_eq _ _ (inter_comm_length (words (split (lower answer)))
                           (words (split (lower ground_truth)))
                           (words_NoDup _) (words_NoDup _))).
    reflexivity.
  - intros Ht. unfold SimpleRAGAS.calculate_answer_similarity.
    rewrite (tokens_truthy _ Ht). cbn [negb orb]. fold (Spec.tokens answer).
    apply nonempty_true in Ht as Hb. rewrite Hb. cbn [negb orb].
    assert (Hi : List.length (inter (Spec.tokens answer) (Spec.tokens answer))
                 = List.length (Spec.tokens answer)).
    { unfold inter, intersection. rewrite filter_all; [reflexivity|].
      intros x Hx. apply mem_In, Hx. }
    assert (Hu : List.length (uni (Spec.tokens answer) (Spec.tokens answer))
                 = List.length (Spec.tokens answer)).
    { apply same_elements_length;
        [unfold uni, union; apply NoDup_nodup | apply words_NoDup |].
      intros x. rewrite uni_In. tauto. }
    rewrite (len_eq _ _ Hi), (len_eq _ _ Hu).
    pose proof (len_pos _ Ht) as Hpos.
    destruct (Qlt_le_dec 0 (len (Spec.tokens answer))); [|lra].
    apply ratio_self, Hpos.
Qed.

Lemma answer_similarity_symmetric_witness :
  (SimpleRAGAS.calculate_answer_similarity "Paris is the capital" "Paris is the capital"
   == 1)%Q.
Proof.
  apply (answer_similarity_symmetric "Paris is the capital" "").
  vm_compute. discriminate.
Defined.

(** ** The complete evaluation of one response *)

Lemma simple_completeness_same :
  SimpleRAGAS.calculate_answer_completeness = BasicRAGMetrics.calculate_answer_completeness.
Proof. reflexivity. Qed.

Lemma answer_completeness_raises_iff (query answer : string) :
  BasicRAGMetrics.calculate_answer_completeness query answer = Raise ZeroDivisionError
  <-> (query <> "" /\ answer <> "" /\ Spec.tokens query = []).
Proof.
  split.
  - intros H. destruct (Spec.tokens query) as [|t ts] eqn:Et.
    + unfold BasicRAGMetrics.calculate_answer_completeness in H.
      destruct query; [simpl in H; discriminate|].
      destruct answer; [simpl in H; discriminate|].
      repeat split; discriminate.
    + destruct (answer_completeness_range query answer) as [v [Hv _]];
        [rewrite Et; discriminate|]. congruence.
  - intros [Hq [Ha Ht]]. unfold BasicRAGMetrics.calculate_answer_completeness.
    apply truthy_true in Hq. apply truthy_true in Ha. rewrite Hq, Ha. cbn [negb orb].
    fold (Spec.tokens query). rewrite Ht. reflexivity.
Qed.

Lemma answer_completeness_blank_or_value (query answer : string) :
  (query <> "" /\ answer <> "" /\ Spec.tokens query = [])
  \/ exists v, BasicRAGMetrics.calculate_answer_completeness query answer = Ok v
               /\ (0 <= v <= 1)%Q.
Proof.
  destruct (Spec.tokens query) as [|t ts] eqn:Et.
  - destruct query as [|c q]; [right; exists 0%Q; split; [reflexivity|lra]|].
    destruct answer as [|d a].
    + right. exists 0%Q. split; [reflexivity|lra].
    + left. repeat split; discriminate.
  - right. apply answer_completeness_range. rewrite Et. discriminate.
Qed.

(** X6.  [evaluate_rag_response] raises exactly when the query is not
    empty but has no word and the answer is not empty, and it raises
    [ZeroDivisionError] then.  Otherwise it returns metrics whose overall
    score is the mean of the four core metrics and lies, like each of them,
    in the unit interval; the answer similarity is present exactly when a
    non-empty ground truth is given. *)
Theorem evaluate_rag_response_outcome (query : string) (contexts : list string)
    (answer : string) (ground_truth : option string) :
  (query <> "" /\ answer <> "" /\ Spec.tokens query = [] ->
   SimpleRAGAS.evaluate_rag_response query contexts answer ground_truth
   = Raise ZeroDivisionError)
  /\ (~ (query <> "" /\ answer <> "" /\ Spec.tokens query = []) ->
      exists m,
        SimpleRAGAS.evaluate_rag_response query contexts answer ground_truth = Ok m
        /\ (SimpleRAGAS.overall_score m
            == (SimpleRAGAS.basic_relevance m + SimpleRAGAS.context_utilization m
                + SimpleRAGAS.answer_completeness m + SimpleRAGAS.faithfulness m) / 4)%Q
        /\ (0 <= SimpleRAGAS.basic_relevance m <= 1)%Q
        /\ (0 <= SimpleRAGAS.context_utilization m <= 1)%Q
        /\ (0 <= SimpleRAGAS.answer_completeness m <= 1)%Q
        /\ (0 <= SimpleRAGAS.faithfulness m <= 1)%Q
        /\ (0 <= SimpleRAGAS.overall_score m <= 1)%Q
        /\ (SimpleRAGAS.answer_similarity m = None
            <-> ground_truth = None \/ ground_truth = Some "")).
Proof.
  unfold SimpleRAGAS.evaluate_rag_response. rewrite simple_completeness_same. split.
  - intros H. apply answer_completeness_raises_iff in H. rewrite H. reflexivity.
  - intros Hn. destruct (answer_completeness_blank_or_value query answer)
      as [H|[v [Hv Hr]]]; [contradiction|].
    rewrite Hv. cbn [bind]. eexists. split; [reflexivity|].
    cbn [SimpleRAGAS.overall_score SimpleRAGAS.basic_relevance
         SimpleRAGAS.context_utilization SimpleRAGAS.answer_completeness
         SimpleRAGAS.faithfulness SimpleRAGAS.answer_similarity].
    pose proof (basic_relevance_unit query contexts) as Hb.
    pose proof (context_utilization_range contexts answer) as Hu.
    pose proof (faithfulness_range contexts answer) as Hf.
    assert (Hov : (sum [SimpleRAGAS.calculate_basic_relevance query contexts;
                        SimpleRAGAS.calculate_context_utilization contexts answer; v;
                        SimpleRAGAS.calculate_faithfulness contexts answer]
                   / len [SimpleRAGAS.calculate_basic_relevance query contexts;
                          SimpleRAGAS.calculate_context_utilization contexts answer; v;
                          SimpleRAGAS.calculate_faithfulness contexts answer]
                   == (SimpleRAGAS.calculate_basic_relevance query contexts
                       + SimpleRAGAS.calculate_context_utilization contexts answer
                       + v + SimpleRAGAS.calculate_faithfulness contexts answer) / 4)%Q).
    { unfold sum, len. simpl. field. }
    split; [exact Hov|]. split; [exact Hb|]. split; [exact Hu|].
    split; [exact Hr|]. split; [exact Hf|]. split.
    + rewrite Hov. split; [apply Qle_shift_div_l; lra | apply Qle_shift_div_r; lra].
    + destruct ground_truth as [[|c g]|]; simpl; split; intros H;
        try discriminate; try tauto; try reflexivity.
      destruct H as [H|H]; discriminate.
Qed.

Lemma evaluate_rag_response_outcome_witness :
  SimpleRAGAS.evaluate_rag_response "   " ["cats are mammals"] "cats" None
  = Raise ZeroDivisionError
  /\ exists m,
       SimpleRAGAS.evaluate_rag_response "cats" ["cats are mammals"] "cats are mammals"
         (Some "cats") = Ok m
       /\ (0 <= SimpleRAGAS.overall_score m <= 1)%Q.
Proof.
  split.
  - apply (evaluate_rag_response_outcome "   " ["cats are mammals"] "cats" None).
    repeat split; discriminate.
  - destruct (evaluate_rag_response_outcome "cats" ["cats are mammals"]
                "cats are mammals" (Some "cats")) as [_ H].
    destruct H as [m [Hm [_ [_ [_ [_ [_ [Ho _]]]]]]]].
    + intros [_ [_ H]]. vm_compute in H. discriminate.
    + exists m. split; assumption.
Defined.

(** ** Content coverage *)

Lemma coverage_fold_contexts (answer : string) (contexts : list string) :
  forall acc,
    (fold_left
       (fun covered_elements context =>
          let context_words := words (split (lower context)) in
          let overlap := List.length (inter (words (split (lower answer))) context_words) in
          if (3 <? overlap)%nat then (covered_elements + 1)%Q else covered_elements)
       contexts acc
     == acc + len (filter (Notions.context_covered answer) contexts))%Q.
Proof.
  induction contexts as [|c rest IH]; intros acc.
  - simpl. change (len (@nil string)) with 0%Q. lra.
  - cbn [fold_left filter]. rewrite IH. unfold Notions.context_covered at 2.
    unfold Spec.tokens. cbv zeta.
    destruct (3 <? List.length (inter (words (split (lower answer)))
                                  (words (split (lower c)))))%nat;
      rewrite ?len_cons; lra.
Qed.

Lemma coverage_fold_images (answer : string) (images : list Multimodal.Image) :
  forall acc,
    (fold_left
       (fun covered_elements image =>
          match Multimodal.get_truthy (Multimodal.extracted_text image) with
          | Some text =>
              let image_words := words (split (lower text)) in
              let overlap := List.length (inter (words (split (lower answer))) image_words) in
              if (1 <? overlap)%nat then (covered_elements + (5 # 10))%Q
              else covered_elements
          | None => covered_elements
          end)
       images acc
     == acc + (5 # 10) * len (filter (Notions.image_covered answer) images))%Q.
Proof.
  induction images as [|image rest IH]; intros acc.
  - simpl. change (len (@nil Multimodal.Image)) with 0%Q. lra.
  - cbn [fold_left filter]. rewrite IH. unfold Notions.image_covered at 2.
    unfold Spec.tokens. cbv zeta.
    destruct (Multimodal.get_truthy (Multimodal.extracted_text image)) as [text|];
      [|lra].
    destruct (1 <? List.length (inter (words (split (lower answer)))
                                  (words (split (lower text)))))%nat;
      rewrite ?len_cons; lra.
Qed.

Lemma len_app {A : Type} (l1 : list A) {B : Type} (l2 : list B) :
  (inject_Z (Z.of_nat (List.length l1 + List.length l2)) == len l1 + len l2)%Q.
Proof. unfold len. rewrite Nat2Z.inj_add, inject_Z_plus. reflexivity. Qed.

Lemma content_coverage_value (answer : string) (contexts : list string)
    (images : list Multimodal.Image) :
  (List.length contexts + List.length images <> 0)%nat ->
  (Multimodal.evaluate_content_coverage answer contexts images
   == (len (filter (Notions.context_covered answer) contexts)
       + (5 # 10) * len (filter (Notions.image_covered answer) images))
      / (len contexts + len images))%Q.
Proof.
  intros Hn. unfold Multimodal.evaluate_content_coverage.
  apply Nat.eqb_neq in Hn as Hb. rewrite Hb.
  rewrite coverage_fold_images, coverage_fold_contexts, len_app.
  pose proof (len_nonneg contexts). pose proof (len_nonneg images).
  assert (Hpos : (0 < len contexts + len images)%Q).
  { destruct contexts as [|c cs]; [destruct images as [|im ims]; [simpl in Hn; lia|]|].
    - pose proof (len_pos (im :: ims)). assert (im :: ims <> []) by discriminate. intuition lra.
    - pose proof (len_pos (c :: cs)). assert (c :: cs <> []) by discriminate. intuition lra. }
  pose proof (len_nonneg (filter (Notions.context_covered answer) contexts)).
  pose proof (len_nonneg (filter (Notions.image_covered answer) images)).
  pose proof (len_le _ _ (filter_length_le (Notions.context_covered answer) contexts)).
  pose proof (len_le _ _ (filter_length_le (Notions.image_covered answer) images)).
  rewrite Q.min_l.
  - apply Qdiv_comp; [lra|reflexivity].
  - apply Qle_shift_div_r; [exact Hpos|]. lra.
Qed.

(** X7.  Content coverage lies in the unit interval and is 1 when there is
    neither context nor image.  Otherwise it is the number of contexts that
    share more than three words with the answer, plus half the number of
    images whose extracted text shares more than one word with it, over the
    number of contexts and images; so images alone never give more than
    one half, and an answer of at most three distinct words covers no
    context. *)
Theorem content_coverage_bounds (answer : string) (contexts : list string)
    (images : list Multimodal.Image) :
  (0 <= Multimodal.evaluate_content_coverage answer contexts images <= 1)%Q
  /\ (contexts = [] -> images = [] ->
      Multimodal.evaluate_content_coverage answer contexts images == 1)%Q
  /\ (contexts = [] -> images <> [] ->
      Multimodal.evaluate_content_coverage answer contexts images <= 1 # 2)%Q
  /\ ((List.length (Spec.tokens answer) <= 3)%nat -> contexts <> [] -> images = [] ->
      Multimodal.evaluate_content_coverage answer contexts images == 0)%Q.
Proof.
  assert (Hcases : (contexts = [] /\ images = [])
                   \/ (List.length contexts + List.length images <> 0)%nat).
  { destruct contexts; [destruct images; [left; tauto|right; simpl; lia]|right; simpl; lia]. }
  pose proof (len_nonneg contexts) as Hc0. pose proof (len_nonneg images) as Hi0.
  pose proof (len_nonneg (filter (Notions.context_covered answer) contexts)) as Hfc0.
  pose proof (len_nonneg (filter (Notions.image_covered answer) images)) as Hfi0.
  pose proof (len_le _ _ (filter_length_le (Notions.context_covered answer) contexts)) as Hfc.
  pose proof (len_le _ _ (filter_length_le (Notions.image_covered answer) images)) as Hfi.
  split; [|split; [|split]].
  - destruct Hcases as [[-> ->]|Hn];
      [unfold Multimodal.evaluate_content_coverage; simpl; lra|].
    rewrite (content_coverage_value _ _ _ Hn).
    assert (Hpos : (0 < len contexts + len images)%Q).
    { destruct contexts as [|c cs]; [destruct images as [|im ims]; [simpl in Hn; lia|]|].
      - pose proof (len_pos (im :: ims)). assert (im :: ims <> []) by discriminate. intuition lra.
      - pose proof (len_pos (c :: cs)). assert (c :: cs <> []) by discriminate. intuition lra. }
    split; [apply Qle_shift_div_l; lra | apply Qle_shift_div_r; lra].
  - intros -> ->. reflexivity.
  - intros -> Hi. rewrite content_coverage_value
      by (destruct images; [congruence|simpl; lia]).
    pose proof (len_pos _ Hi) as Hpos. change (len (@nil string)) with 0%Q in *.
    cbn [filter]. change (len (@nil string)) with 0%Q.
    apply Qle_shift_div_r; lra.
  - intros Hshort Hc ->. rewrite content_coverage_value
      by (destruct contexts; [congruence|simpl; lia]).
    rewrite filter_none.
    + cbn [filter]. change (len (@nil Multimodal.Image)) with 0%Q.
      change (len (@nil string)) with 0%Q. unfold Qdiv. lra.
    + intros c. unfold Notions.context_covered. apply Nat.ltb_ge.
      etransitivity; [apply filter_length_le|exact Hshort].
Qed.

Lemma content_coverage_bounds_witness :
  (Multimodal.evaluate_content_coverage "cats are mammals"
     ["cats are mammals"; "all cats are mammals indeed"] [] == 0)%Q.
Proof.
  apply content_coverage_bounds.
  - vm_compute. lia.
  - discriminate.
  - reflexivity.
Defined.

(** ** Status codes of the RAGAS service *)

(** X8.  Whatever goes wrong in [batch_evaluate_ground_truth] or
    [compare_rag_systems], the caller sees status 500: the statuses 404
    (no ground-truth file) and 400 (empty data set, answer lists of the
    wrong length) are raised inside the [try] block and replaced. *)
Theorem ragas_failures_are_500
    (LLM RagasResult : Type) (get_llm_and_embeddings : result LLM)
    (evaluate : RagasService.Dataset -> list string -> LLM -> result RagasResult)
    (to_pandas : RagasResult -> option (result (list (string * list Q))))
    (contains_metric : RagasResult -> string -> bool)
    (getitem : RagasResult -> string -> RagasService.ragas_value)
    (np_std : list Q -> Q) :
  let batch := RagasService.batch_evaluate_ground_truth LLM RagasResult
                 get_llm_and_embeddings evaluate to_pandas contains_metric getitem np_std in
  let compare := RagasService.compare_rag_systems LLM RagasResult
                   get_llm_and_embeddings evaluate contains_metric getitem in
  (forall file metrics e, batch file metrics = Raise e ->
                          exists detail, e = HTTPException 500 detail)
  /\ (forall file a b e, compare file a b = Raise e ->
                         exists detail, e = HTTPException 500 detail)
  /\ (forall metrics, exists detail, batch None metrics = Raise (HTTPException 500 detail))
  /\ (forall metrics, exists detail, batch (Some []) metrics = Raise (HTTPException 500 detail))
  /\ (forall a b, exists detail, compare None a b = Raise (HTTPException 500 detail))
  /\ (forall data a b,
         List.length a <> List.length b \/ List.length a <> List.length data ->
         exists detail, compare (Some data) a b = Raise (HTTPException 500 detail)).
Proof.
  intros batch compare. unfold batch, compare,
    RagasService.batch_evaluate_ground_truth, RagasService.compare_rag_systems.
  split; [|split; [|split; [|split; [|split]]]].
  - intros file metrics e H.
    destruct (RagasService.batch_try _ _ _ _ _ _ _ _ file metrics); inversion H.
    eexists; reflexivity.
  - intros file a b e H.
    destruct (RagasService.compare_try _ _ _ _ _ _ file a b); inversion H.
    eexists; reflexivity.
  - intros metrics. eexists. reflexivity.
  - intros metrics. eexists. reflexivity.
  - intros a b. eexists. reflexivity.
  - intros data a b Hlen. unfold RagasService.compare_try. cbn [bind].
    assert (E : negb (List.length a =? List.length b)%nat
                || negb (List.length a =? List.length data)%nat = true).
    { destruct Hlen as [H|H]; apply Nat.eqb_neq in H; rewrite H; simpl;
        [reflexivity|apply orb_true_r]. }
    rewrite E. eexists. reflexivity.
Qed.

Lemma ragas_failures_are_500_witness :
  exists detail,
    RagasService.compare_rag_systems unit unit (Ok tt) (fun _ _ _ => Ok tt)
      (fun _ _ => true) (fun _ _ => RagasService.Scalar 1)
      (Some [ {| RagasService.question := Some "q"; RagasService.contexts := Some ["c"];
                 RagasService.answer := Some "a"; RagasService.ground_truth := Some "g" |} ])
      ["one"; "two"] ["one"; "two"]
    = Raise (HTTPException 500 detail).
Proof.
  apply (ragas_failures_are_500 unit unit (Ok tt) (fun _ _ _ => Ok tt) (fun _ => None)
           (fun _ _ => true) (fun _ _ => RagasService.Scalar 1) (fun _ => 0%Q)).
  right. simpl. lia.
Defined.

(** ** Trading the two systems of a comparison *)

Lemma float_gt_compat (x x' y y' : Q) :
  (x == x')%Q -> (y == y')%Q ->
  RagasService.float_gt (Some x) (Some y) = RagasService.float_gt (Some x') (Some y').
Proof.
  intros Hx Hy.
  destruct (RagasService.float_gt (Some x) (Some y)) eqn:E1;
    destruct (RagasService.float_gt (Some x') (Some y')) eqn:E2; try reflexivity.
  - apply float_gt_true in E1. assert (H : (y' < x')%Q) by lra.
    apply float_gt_true in H. congruence.
  - apply float_gt_true in E2. assert (H : (y < x)%Q) by lra.
    apply float_gt_true in H. congruence.
Qed.

Lemma float_gt_asym (x y : option Q) :
  RagasService.float_gt x y = true -> RagasService.float_gt y x = false.
Proof.
  destruct x as [a|], y as [b|]; try discriminate. intros H.
  apply float_gt_true in H. destruct (RagasService.float_gt (Some b) (Some a)) eqn:E;
    [|reflexivity].
  apply float_gt_true in E. lra.
Qed.

Lemma compare_scores_swap (a b : option Q) :
  let c := RagasService.compare_scores a b in
  let c' := RagasService.compare_scores b a in
  RagasService.system_a c' = RagasService.system_b c
  /\ RagasService.system_b c' = RagasService.system_a c
  /\ RagasService.winner c' = Notions.swap_winner (RagasService.winner c)
  /\ (forall d, RagasService.difference c = Some d ->
                exists d', RagasService.difference c' = Some d' /\ (d' == - d)%Q).
Proof.
  cbv zeta. unfold RagasService.compare_scores.
  cbn [RagasService.system_a RagasService.system_b RagasService.winner
       RagasService.difference].
  split; [reflexivity|]. split; [reflexivity|]. split.
  - destruct (RagasService.float_gt b a) eqn:E1.
    + rewrite (float_gt_asym _ _ E1). reflexivity.
    + destruct (RagasService.float_gt a b); reflexivity.
  - intros d Hd. destruct a as [x|], b as [y|]; try discriminate.
    simpl in Hd. inversion Hd; subst. eexists. split; [reflexivity|]. lra.
Qed.

Lemma abs_difference_swap_gt (a b a' b' : option Q) :
  RagasService.float_gt
    (RagasService.float_abs (RagasService.float_sub a b))
    (RagasService.float_abs (RagasService.float_sub a' b'))
  = RagasService.float_gt
      (RagasService.float_abs (RagasService.float_sub b a))
      (RagasService.float_abs (RagasService.float_sub b' a')).
Proof.
  destruct a as [x|], b as [y|], a' as [x'|], b' as [y'|]; try reflexivity.
  cbn [RagasService.float_sub RagasService.float_abs option_map].
  apply float_gt_compat.
  - rewrite <- (Qabs_opp (x - y)). apply Qabs_wd. lra.
  - rewrite <- (Qabs_opp (x' - y')). apply Qabs_wd. lra.
Qed.

Section MaxMap.

Context {A B : Type} (f : A -> B) (key : B -> option Q).

Lemma max_from_map (l : list A) :
  forall best,
    RagasService.max_from key (f best) (map f l)
    = f (RagasService.max_from (fun x => key (f x)) best l).
Proof.
  induction l as [|x l IH]; intros best; [reflexivity|].
  cbn [map RagasService.max_from].
  destruct (RagasService.float_gt (key (f x)) (key (f best))); apply IH.
Qed.

End MaxMap.

Lemma max_from_ext {A : Type} (k1 k2 : A -> option Q) (l : list A) :
  (forall x y, RagasService.float_gt (k1 x) (k1 y) = RagasService.float_gt (k2 x) (k2 y)) ->
  forall best, RagasService.max_from k1 best l = RagasService.max_from k2 best l.
Proof.
  intros H. induction l as [|x l IH]; intros best; [reflexivity|].
  cbn [RagasService.max_from]. rewrite H. apply IH.
Qed.

(** X9.  Trading the two systems of a comparison keeps the metrics and
    their order, exchanges the two scores of every metric, negates its
    difference and exchanges ["System A"] and ["System B"] in its winner,
    a tie staying a tie; the overall winner is taken from the same metric
    and is exchanged as well. *)
Theorem comparison_antisymmetric
    (RagasResult : Type) (contains_metric : RagasResult -> string -> bool)
    (getitem : RagasResult -> string -> RagasService.ragas_value)
    (result_a result_b : RagasResult) :
  let ab := RagasService.compare_results RagasResult contains_metric getitem
              result_a result_b in
  let ba := RagasService.compare_results RagasResult contains_metric getitem
              result_b result_a in
  map fst ba = map fst ab
  /\ (forall m c,
         In (m, c) ab ->
         exists c',
           In (m, c') ba
           /\ RagasService.system_a c' = RagasService.system_b c
           /\ RagasService.system_b c' = RagasService.system_a c
           /\ RagasService.winner c' = Notions.swap_winner (RagasService.winner c)
           /\ (forall d, RagasService.difference c = Some d ->
                         exists d', RagasService.difference c' = Some d' /\ (d' == - d)%Q))
  /\ (forall top,
         RagasService.py_max Notions.abs_difference ab = Ok top ->
         exists top',
           RagasService.py_max Notions.abs_difference ba = Ok top'
           /\ fst top' = fst top
           /\ RagasService.winner (snd top')
              = Notions.swap_winner (RagasService.winner (snd top))).
Proof.
  intros ab ba. unfold ab, ba. rewrite !compare_results_entries.
  assert (Hfilter : filter (Spec.scored_by_both contains_metric result_b result_a)
                      RagasService.default_metrics
                    = filter (Spec.scored_by_both contains_metric result_a result_b)
                        RagasService.default_metrics).
  { apply filter_ext. intros m. unfold Spec.scored_by_both. apply andb_comm. }
  rewrite Hfilter.
  set (ms := filter (Spec.scored_by_both contains_metric result_a result_b)
               RagasService.default_metrics).
  set (e := Spec.comparison_entry getitem result_a result_b).
  set (e' := Spec.comparison_entry getitem result_b result_a).
  split; [|split].
  - rewrite !map_map. reflexivity.
  - intros m c Hin. apply in_map_iff in Hin. destruct Hin as [m' [E Hm']].
    unfold e, Spec.comparison_entry in E. inversion E; subst m' c. clear E.
    exists (snd (e' m)). split.
    + apply in_map_iff. exists m. split; [reflexivity|exact Hm'].
    + apply compare_scores_swap.
  - intros top Htop. destruct ms as [|m0 rest]; [discriminate|].
    cbn [map RagasService.py_max] in *. inversion Htop as [Et]. clear Htop.
    eexists. split; [reflexivity|].
    rewrite !max_from_map.
    rewrite (max_from_ext (fun x => Notions.abs_difference (e' x))
               (fun x => Notions.abs_difference (e x))).
    + set (top_m := RagasService.max_from (fun x => Notions.abs_difference (e x)) m0 rest).
      split; [reflexivity|]. apply compare_scores_swap.
    + intros x y. unfold Notions.abs_difference, e, e', Spec.comparison_entry.
      cbn [snd RagasService.compare_scores RagasService.difference].
      apply abs_difference_swap_gt.
Qed.

Lemma comparison_antisymmetric_witness :
  let contains_metric := fun (r : list (string * Q)) (m : string) =>
    match Phase2.lookup r m with Some _ => true | None => false end in
  let getitem := fun (r : list (string * Q)) (m : string) =>
    RagasService.Scalar (Phase2.get r m 0) in
  let result_a := [("faithfulness", 5 # 10); ("answer_relevancy", 9 # 10)]%Q in
  let result_b := [("faithfulness", 8 # 10); ("answer_relevancy", 9 # 10)]%Q in
  exists top',
    RagasService.py_max Notions.abs_difference
      (RagasService.compare_results _ contains_metric getitem result_b result_a) = Ok top'
    /\ fst top' = "faithfulness"
    /\ RagasService.winner (snd top') = "System A".
Proof.
  intros contains_metric getitem result_a result_b.
  destruct (comparison_antisymmetric _ contains_metric getitem result_a result_b)
    as [_ [_ H]].
  apply (H ("faithfulness",
            RagasService.compare_scores (Some (5 # 10)%Q) (Some (8 # 10)%Q))).
  reflexivity.
Defined.

(** ** What a batch report guarantees *)

Lemma fold_min_le (l : list Q) :
  forall x, (fold_left Qmin l x <= x)%Q
            /\ forall y, In y l -> (fold_left Qmin l x <= y)%Q.
Proof.
  induction l as [|z l IH]; intros x; simpl.
  - split; [lra|intros y []].
  - destruct (IH (Qmin x z)) as [H1 H2].
    pose proof (Q.le_min_l x z). pose proof (Q.le_min_r x z). split; [lra|].
    intros y [<-|Hy]; [lra|apply H2, Hy].
Qed.

Lemma fold_max_ge (l : list Q) :
  forall x, (x <= fold_left Qmax l x)%Q
            /\ forall y, In y l -> (y <= fold_left Qmax l x)%Q.
Proof.
  induction l as [|z l IH]; intros x; simpl.
  - split; [lra|intros y []].
  - destruct (IH (Qmax x z)) as [H1 H2].
    pose proof (Q.le_max_l x z). pose proof (Q.le_max_r x z). split; [lra|].
    intros y [<-|Hy]; [lra|apply H2, Hy].
Qed.

Lemma sum_between (lo hi : Q) (l : list Q) :
  (forall y, In y l -> lo <= y <= hi)%Q ->
  (lo * len l <= sum l <= hi * len l)%Q.
Proof.
  induction l as [|x l IH]; intros H.
  - simpl. change (len (@nil Q)) with 0%Q. lra.
  - cbn [sum fold_right]. fold (sum l). rewrite len_cons.
    destruct (H x (or_introl eq_refl)). destruct IH; [intros y Hy; apply H; right; exact Hy|].
    lra.
Qed.

Lemma mean_between (lo hi : Q) (l : list Q) :
  l <> [] -> (forall y, In y l -> lo <= y <= hi)%Q -> (lo <= mean l <= hi)%Q.
Proof.
  intros Hne H. pose proof (sum_between lo hi l H) as [Hlo Hhi].
  pose proof (len_pos l Hne) as Hpos. unfold mean. split.
  - apply Qle_shift_div_l; [exact Hpos|lra].
  - apply Qle_shift_div_r; [exact Hpos|lra].
Qed.

Lemma stats_of_ordered (np_std : list Q -> Q) (scores : list Q) (st : RagasService.Stats) :
  RagasService.stats_of np_std scores = Ok st ->
  (RagasService.st_min st <= RagasService.st_mean st <= RagasService.st_max st)%Q.
Proof.
  destruct scores as [|x l]; [discriminate|]. intros H. inversion H; subst. clear H.
  cbn [RagasService.st_min RagasService.st_mean RagasService.st_max].
  apply mean_between; [discriminate|].
  destruct (fold_min_le l x) as [Hm1 Hm2]. destruct (fold_max_ge l x) as [HM1 HM2].
  intros y [<-|Hy]; split; auto.
Qed.

Lemma assoc_set_In {V : Type} (P : V -> Prop) (d : list (string * V)) (k : string) (v : V) :
  (forall k' v', In (k', v') d -> P v') -> P v ->
  forall k' v', In (k', v') (RagasService.assoc_set d k v) -> P v'.
Proof.
  induction d as [|[k0 v0] d IH]; intros Hd Hv k' v' Hin.
  - destruct Hin as [E|[]]. inversion E; subst. exact Hv.
  - simpl in Hin. destruct (String.eqb k k0).
    + destruct Hin as [E|Hin]; [inversion E; subst; exact Hv|].
      apply (Hd k' v'). right. exact Hin.
    + destruct Hin as [E|Hin]; [inversion E; subst; apply (Hd k' v'); left; reflexivity|].
      apply (IH (fun a b H => Hd a b (or_intror H)) Hv k' v' Hin).
Qed.

Lemma column_nth {A : Type} (name : string) (get : RagasService.Item -> option A)
    (ground_truth_data : list RagasService.Item) (l : list A) :
  RagasService.column name get ground_truth_data = Ok l ->
  forall k x, nth_error l k = Some x ->
              exists item, nth_error ground_truth_data k = Some item /\ get item = Some x.
Proof.
  revert l. induction ground_truth_data as [|item rest IH]; intros l H k x Hk.
  - inversion H; subst. destruct k; discriminate.
  - simpl in H. destruct (get item) as [y|] eqn:E; simpl in H; [|discriminate].
    destruct (RagasService.column name get rest) as [ys|e] eqn:Er; simpl in H;
      [|discriminate].
    inversion H; subst. destruct k as [|k]; simpl in Hk.
    + inversion Hk; subst. exists item. split; [reflexivity|exact E].
    + apply (IH ys eq_refl k x Hk).
Qed.

Lemma set_metric_length (l : list RagasService.Individual) :
  forall i m v, List.length (RagasService.set_metric l i m v) = List.length l.
Proof.
  induction l as [|r l IH]; intros [|i] m v; simpl; try reflexivity.
  rewrite IH. reflexivity.
Qed.

Lemma set_metric_indexed (questions : list string) (l : list RagasService.Individual) :
  forall i m v, Notions.indexed questions l ->
                Notions.indexed questions (RagasService.set_metric l i m v).
Proof.
  unfold Notions.indexed. intros i m v H k r Hk.
  assert (G : exists r0, nth_error l k = Some r0
                         /\ RagasService.question_id r = RagasService.question_id r0
                         /\ RagasService.ind_question r = RagasService.ind_question r0).
  { clear H. revert i k Hk. induction l as [|r0 l IH]; intros i k Hk.
    - destruct i, k; discriminate.
    - destruct i as [|i]; destruct k as [|k]; simpl in Hk.
      + inversion Hk; subst. exists r0. simpl. tauto.
      + exists r. simpl. tauto.
      + inversion Hk; subst. exists r. simpl. tauto.
      + apply (IH i k Hk). }
  destruct G as [r0 [H0 [E1 E2]]]. rewrite E1, E2. apply (H k r0 H0).
Qed.

Lemma record_scores_indexed (questions : list string) (m : string) (scores : list Q) :
  forall i l l',
    (i <= List.length l)%nat -> Notions.indexed questions l ->
    RagasService.record_scores questions m i scores l = Ok l' ->
    Notions.indexed questions l' /\ (List.length l <= List.length l')%nat.
Proof.
  induction scores as [|score rest IH]; intros i l l' Hi Hl H.
  - inversion H; subst. split; [exact Hl|lia].
  - cbn [RagasService.record_scores] in H.
    destruct (List.length l <=? i)%nat eqn:E.
    + apply Nat.leb_le in E. assert (Ei : i = List.length l) by lia.
      destruct (nth_error questions i) as [q|] eqn:Eq; cbn [bind] in H; [|discriminate].
      apply IH in H.
      * destruct H as [H1 H2]. split; [exact H1|].
        rewrite set_metric_length, length_app in H2. simpl in H2. lia.
      * rewrite set_metric_length, length_app. simpl. lia.
      * apply set_metric_indexed. intros k r Hk.
        destruct (Nat.lt_ge_cases k (List.length l)) as [Hlt|Hge].
        -- rewrite nth_error_app1 in Hk by exact Hlt. apply (Hl k r Hk).
        -- rewrite nth_error_app2 in Hk by exact Hge.
           destruct (k - List.length l)%nat as [|d] eqn:Ed; simpl in Hk;
             [|destruct d; discriminate].
           inversion Hk; subst r. simpl. assert (k = i) by lia. subst k.
           split; [reflexivity|exact Eq].
    + apply Nat.leb_gt in E. cbn [bind] in H. apply IH in H.
      * destruct H as [H1 H2]. split; [exact H1|]. rewrite set_metric_length in H2. exact H2.
      * rewrite set_metric_length. lia.
      * apply set_metric_indexed, Hl.
Qed.

Section AggregateProps.

Variable RagasResult : Type.
Variable to_pandas : RagasResult -> option (result (list (string * list Q))).
Variable contains_metric : RagasResult -> string -> bool.
Variable getitem : RagasResult -> string -> RagasService.ragas_value.
Variable np_std : list Q -> Q.

Local Abbreviation ordered :=
  (fun st : RagasService.Stats =>
     (RagasService.st_min st <= RagasService.st_mean st <= RagasService.st_max st)%Q).

Lemma aggregate_invariants (ragas_result : RagasResult) (questions : list string)
    (metrics : list string) :
  forall agg ind agg' ind',
    (forall k st, In (k, st) agg -> ordered st) ->
    Notions.indexed questions ind ->
    RagasService.aggregate RagasResult to_pandas contains_metric getitem np_std
      ragas_result questions metrics agg ind = Ok (agg', ind') ->
    (forall k st, In (k, st) agg' -> ordered st) /\ Notions.indexed questions ind'.
Proof.
  induction metrics as [|m rest IH]; intros agg ind agg' ind' Hagg Hind H.
  - inversion H; subst. tauto.
  - cbn [RagasService.aggregate] in H.
    destruct (RagasService.scores_of RagasResult to_pandas contains_metric getitem
                ragas_result m) as [[scores|]|e]; cbn [bind] in H; [| |discriminate].
    + destruct (RagasService.stats_of np_std scores) as [st|e] eqn:Est;
        cbn [bind] in H; [|discriminate].
      destruct (RagasService.record_scores questions m 0 scores ind) as [ind1|e] eqn:Er;
        cbn [bind] in H; [|discriminate].
      apply record_scores_indexed in Er; [|lia|exact Hind]. destruct Er as [Hind1 _].
      apply (IH _ _ _ _ (assoc_set_In _ agg m st Hagg (stats_of_ordered _ _ _ Est)) Hind1 H).
    + apply (IH _ _ _ _ Hagg Hind H).
Qed.

End AggregateProps.

Lemma take_nth_error {A : Type} (n : nat) (l : list A) (k : nat) (x : A) :
  nth_error (take n l) k = Some x -> nth_error l k = Some x.
Proof.
  change (take n l) with (firstn n l).
  revert l k. induction n as [|n IH]; intros l k H.
  - destruct k; discriminate.
  - destruct l as [|y l]; [destruct k; discriminate|].
    destruct k as [|k]; simpl in *; [exact H|apply IH, H].
Qed.

Lemma take_length_le {A : Type} (n : nat) (l : list A) :
  (List.length (take n l) <= List.length l)%nat.
Proof. change (take n l) with (firstn n l). rewrite length_firstn. lia. Qed.

(** X10.  A report returned by [batch_evaluate_ground_truth] comes from a
    non-empty data set whose records are all complete; it counts every
    record as evaluated; at most five individual results are returned,
    never more than the total it reports; and the individual result at
    position [k] has question id [k] and carries the question of record
    [k]. *)
Theorem batch_report_invariants
    (LLM RagasResult : Type) (get_llm_and_embeddings : result LLM)
    (evaluate : RagasService.Dataset -> list string -> LLM -> result RagasResult)
    (to_pandas : RagasResult -> option (result (list (string * list Q))))
    (contains_metric : RagasResult -> string -> bool)
    (getitem : RagasResult -> string -> RagasService.ragas_value)
    (np_std : list Q -> Q)
    (ground_truth_file : option (list RagasService.Item)) (metrics : list string)
    (report : RagasService.BatchReport) :
  RagasService.batch_evaluate_ground_truth LLM RagasResult get_llm_and_embeddings
    evaluate to_pandas contains_metric getitem np_std ground_truth_file metrics
  = Ok report ->
  exists ground_truth_data,
    ground_truth_file = Some ground_truth_data
    /\ ground_truth_data <> []
    /\ Forall (fun item => ~ Spec.malformed item) ground_truth_data
    /\ RagasService.samples_evaluated report = List.length ground_truth_data
    /\ (List.length (RagasService.individual_results report) <= 5)%nat
    /\ (List.length (RagasService.individual_results report)
        <= RagasService.total_entries report)%nat
    /\ (forall k r,
           nth_error (RagasService.individual_results report) k = Some r ->
           RagasService.question_id r = k
           /\ exists item, nth_error ground_truth_data k = Some item
                           /\ RagasService.question item
                              = Some (RagasService.ind_question r)).
Proof.
  unfold RagasService.batch_evaluate_ground_truth.
  destruct (RagasService.batch_try LLM RagasResult get_llm_and_embeddings evaluate
              to_pandas contains_metric getitem np_std ground_truth_file metrics)
    as [rep|e] eqn:E; [|discriminate].
  intros H. inversion H; subst rep. clear H.
  unfold RagasService.batch_try in E.
  destruct ground_truth_file as [data|]; cbn [bind] in E; [|discriminate].
  exists data. split; [reflexivity|].
  destruct (nonempty data) eqn:Hne; cbn [negb] in E; [|discriminate].
  apply nonempty_true in Hne. split; [exact Hne|].
  destruct get_llm_and_embeddings as [llm|e]; cbn [bind] in E; [|discriminate].
  destruct (RagasService.column "question" RagasService.question data)
    as [qs|e] eqn:Eq; cbn [bind] in E; [|discriminate].
  destruct (RagasService.column "contexts" RagasService.contexts data)
    as [cs|e] eqn:Ec; cbn [bind] in E; [|discriminate].
  destruct (RagasService.column "answer" RagasService.answer data)
    as [ans|e] eqn:Ea; cbn [bind] in E; [|discriminate].
  destruct (RagasService.column "ground_truth" RagasService.ground_truth data)
    as [gts|e] eqn:Eg; cbn [bind] in E; [|discriminate].
  destruct (evaluate _ _ llm) as [ragas_result|e]; cbn [bind] in E; [|discriminate].
  destruct (RagasService.aggregate RagasResult to_pandas contains_metric getitem np_std
              ragas_result qs (if nonempty metrics then metrics
                               else RagasService.default_metrics) [] [])
    as [[agg ind]|e] eqn:Eagg; cbn [bind] in E; [|discriminate].
  assert (Hrep : report
                 = {| RagasService.samples_evaluated := List.length data;
                      RagasService.metrics_used :=
                        if nonempty metrics then metrics else RagasService.default_metrics;
                      RagasService.aggregate_results := agg;
                      RagasService.individual_results := take 5 ind;
                      RagasService.total_entries := List.length ind |})
    by congruence.
  clear E. subst report.
  apply aggregate_invariants in Eagg;
    [|intros k st [] | intros k r Hk; destruct k; discriminate].
  destruct Eagg as [Hagg Hind].
  split.
  { pose proof (column_ok _ _ _ _ Eq) as Fq. pose proof (column_ok _ _ _ _ Ec) as Fc.
    pose proof (column_ok _ _ _ _ Ea) as Fa. pose proof (column_ok _ _ _ _ Eg) as Fg.
    rewrite Forall_forall in *. intros item Hin [Hm|[Hm|[Hm|Hm]]];
      [apply (Fq item Hin Hm) | apply (Fc item Hin Hm)
       | apply (Fa item Hin Hm) | apply (Fg item Hin Hm)]. }
  split; [reflexivity|].
  split; [exact (firstn_le_length 5 ind)|].
  split; [exact (take_length_le 5 ind)|].
  intros k r Hk. apply (take_nth_error 5 ind) in Hk. destruct (Hind k r Hk) as [Hid Hq].
  split; [exact Hid|]. apply (column_nth _ _ _ _ Eq k _ Hq).
Qed.

Lemma batch_report_invariants_witness :
  let ground_truth_data :=
    [ {| RagasService.question := Some "q1"; RagasService.contexts := Some ["c1"];
         RagasService.answer := Some "a1"; RagasService.ground_truth := Some "g1" |};
      {| RagasService.question := Some "q2"; RagasService.contexts := Some ["c2"];
         RagasService.answer := Some "a2"; RagasService.ground_truth := Some "g2" |} ] in
  let frame := [ ("faithfulness", [5 # 10; 9 # 10]); ("answer_relevancy", [1; 8 # 10]) ]%Q in
  exists report,
    RagasService.batch_evaluate_ground_truth unit (list (string * list Q)) (Ok tt)
      (fun _ _ _ => Ok frame) (fun r => Some (Ok r)) (fun _ _ => false)
      (fun _ _ => RagasService.Scalar 0) (fun _ => 0%Q) (Some ground_truth_data) []
    = Ok report
    /\ map RagasService.question_id (RagasService.individual_results report) = [0; 1]%nat
    /\ (List.length (RagasService.individual_results report)
        <= RagasService.total_entries report)%nat.
Proof.
  intros ground_truth_data frame. eexists. split; [reflexivity|]. split; [reflexivity|].
  destruct (batch_report_invariants unit (list (string * list Q)) (Ok tt)
              (fun _ _ _ => Ok frame) (fun r => Some (Ok r)) (fun _ _ => false)
              (fun _ _ => RagasService.Scalar 0) (fun _ => 0%Q) (Some ground_truth_data) []
              _ eq_refl) as [data [_ [_ [_ [_ [_ [H _]]]]]]].
  exact H.
Defined.

(** ** The metrics and the endpoint of evaluation_service.py *)

Lemma service_basic_relevance_same (query : string) (contexts : list string) :
  EvaluationService.calculate_basic_relevance query contexts
  = SimpleRAGAS.calculate_basic_relevance query contexts.
Proof.
  unfold EvaluationService.calculate_basic_relevance, SimpleRAGAS.calculate_basic_relevance.
  destruct query as [|c q].
  - reflexivity.
  - cbn [truthy negb orb]. destruct contexts as [|c0 cs]; [|reflexivity].
    cbn [nonempty negb orb fold_left].
    destruct (negb (nonempty (words (split (lower (String c q)))))); reflexivity.
Qed.

(** X11.  The metric functions of [evaluation_service.py] compute the same
    values as their namesakes in [simple-ragas-test.py] on every input,
    although basic relevance guards its inputs differently. *)
Theorem sibling_metrics_agree (query answer : string) (contexts : list string) :
  EvaluationService.calculate_basic_relevance query contexts
  = SimpleRAGAS.calculate_basic_relevance query contexts
  /\ EvaluationService.calculate_context_utilization contexts answer
     = SimpleRAGAS.calculate_context_utilization contexts answer
  /\ BasicRAGMetrics.calculate_answer_completeness query answer
     = SimpleRAGAS.calculate_answer_completeness query answer.
Proof.
  split; [apply service_basic_relevance_same|]. split; reflexivity.
Qed.

Lemma service_metric_ranges (query answer : string) (contexts : list string) :
  (0 <= EvaluationService.calculate_basic_relevance query contexts <= 1)%Q
  /\ (0 <= EvaluationService.calculate_context_utilization contexts answer <= 1)%Q.
Proof.
  rewrite service_basic_relevance_same. split; [apply basic_relevance_unit|].
  apply (context_utilization_range contexts answer).
Qed.

(** X12.  The endpoint [evaluate_rag_response] of [evaluation_service.py]
    fails only through answer completeness: it answers with status 500
    exactly when ["answer_completeness"] is requested, the query is not
    empty but has no word, and the answer is not empty.  Otherwise it
    returns the requested ones of the three known metrics, in their fixed
    order and each once, with a detail entry for each and every value in the
    unit interval; unknown metric names are ignored. *)
Theorem evaluation_endpoint_outcome (request : EvaluationService.EvaluationRequest) :
  let blank :=
    EvaluationService.query request <> ""
    /\ EvaluationService.generated_answer request <> ""
    /\ Spec.tokens (EvaluationService.query request) = [] in
  let asked := In "answer_completeness" (EvaluationService.metrics request) in
  (asked /\ blank ->
   exists detail,
     EvaluationService.evaluate_rag_response request = Raise (HTTPException 500 detail))
  /\ (~ (asked /\ blank) ->
      exists r,
        EvaluationService.evaluate_rag_response request = Ok r
        /\ EvaluationService.r_query r = EvaluationService.query request
        /\ map fst (EvaluationService.r_metrics r)
           = filter (fun m => mem string_dec m (EvaluationService.metrics request))
               Notions.known_metrics
        /\ map fst (EvaluationService.r_details r) = map fst (EvaluationService.r_metrics r)
        /\ forall m v, In (m, v) (EvaluationService.r_metrics r) -> (0 <= v <= 1)%Q).
Proof.
  intros blank asked. unfold blank, asked.
  unfold EvaluationService.evaluate_rag_response, EvaluationService.evaluate_try.
  destruct (service_metric_ranges (EvaluationService.query request)
              (EvaluationService.generated_answer request)
              (EvaluationService.retrieved_contexts request)) as [Hb Hu].
  set (vb := EvaluationService.calculate_basic_relevance _ _) in *.
  set (vu := EvaluationService.calculate_context_utilization _ _) in *.
  cbn [filter Notions.known_metrics].
  set (b1 := mem string_dec "basic_relevance" (EvaluationService.metrics request)).
  set (b2 := mem string_dec "context_utilization" (EvaluationService.metrics request)).
  destruct (mem string_dec "answer_completeness" (EvaluationService.metrics request)) eqn:E3.
  - apply mem_In in E3. split.
    + intros [_ Hblank]. apply answer_completeness_raises_iff in Hblank. rewrite Hblank.
      destruct b1, b2; eexists; reflexivity.
    + intros Hn.
      destruct (answer_completeness_blank_or_value (EvaluationService.query request)
                  (EvaluationService.generated_answer request)) as [Hblank|[v [Hv Hr]]];
        [exfalso; apply Hn; tauto|].
      rewrite Hv. destruct b1, b2; cbn; eexists;
        (split; [reflexivity|]); (split; [reflexivity|]); (split; [reflexivity|]);
        (split; [reflexivity|]); intros m w Hin; simpl in Hin;
        repeat (destruct Hin as [Hin|Hin]; [inversion Hin; subst; assumption|]);
        destruct Hin.
  - split.
    + intros [Hin _]. apply (mem_In string_dec) in Hin. congruence.
    + intros _. destruct b1, b2; cbn; eexists;
        (split; [reflexivity|]); (split; [reflexivity|]); (split; [reflexivity|]);
        (split; [reflexivity|]); intros m w Hin; simpl in Hin;
        repeat (destruct Hin as [Hin|Hin]; [inversion Hin; subst; assumption|]);
        destruct Hin.
Qed.

Lemma evaluation_endpoint_outcome_witness :
  (exists detail,
      EvaluationService.evaluate_rag_response
        {| EvaluationService.query := " ";
           EvaluationService.retrieved_contexts := ["cats are mammals"];
           EvaluationService.generated_answer := "cats";
           EvaluationService.ground_truth := None;
           EvaluationService.metrics :=
             ["basic_relevance"; "context_utilization"; "answer_completeness"] |}
      = Raise (HTTPException 500 detail))
  /\ exists r,
       EvaluationService.evaluate_rag_response
         {| EvaluationService.query := " ";
            EvaluationService.retrieved_contexts := ["cats are mammals"];
            EvaluationService.generated_answer := "cats";
            EvaluationService.ground_truth := None;
            EvaluationService.metrics := ["context_utilization"; "bleu"] |}
       = Ok r
       /\ map fst (EvaluationService.r_metrics r) = ["context_utilization"].
Proof.
  split.
  - apply evaluation_endpoint_outcome. split; [simpl; tauto|].
    repeat split; discriminate.
  - destruct (evaluation_endpoint_outcome
                {| EvaluationService.query := " ";
                   EvaluationService.retrieved_contexts := ["cats are mammals"];
                   EvaluationService.generated_answer := "cats";
                   EvaluationService.ground_truth := None;
                   EvaluationService.metrics := ["context_utilization"; "bleu"] |})
      as [_ H].
    destruct H as [r [Hr [_ [Hk _]]]].
    + intros [Hin _]. simpl in Hin. intuition discriminate.
    + exists r. split; [exact Hr|exact Hk].
Defined.

(** ** Search evaluation *)

Lemma precision_recall_tables (result_ids relevant_set : list string) :
  fold_left (Search.precision_recall_step result_ids relevant_set) Search.cutoffs ([], [])
  = (map (fun k => (k, (Search.relevant_in_top result_ids relevant_set k
                        / inject_Z (Z.of_nat k))%Q))
       (filter (fun k => (k <=? List.length result_ids)%nat) Search.cutoffs),
     map (fun k => (k, (Search.relevant_in_top result_ids relevant_set k
                        / len relevant_set)%Q))
       (filter (fun k => (k <=? List.length result_ids)%nat) Search.cutoffs)).
Proof.
  unfold Search.cutoffs. cbn [fold_left filter].
  unfold Search.precision_recall_step.
  destruct (1 <=? List.length result_ids)%nat;
    destruct (3 <=? List.length result_ids)%nat;
    destruct (5 <=? List.length result_ids)%nat;
    destruct (10 <=? List.length result_ids)%nat; reflexivity.
Qed.

Lemma precision_recall_unfold (search_results : list Multimodal.SearchResult)
    (relevant_ids : list string) :
  relevant_ids <> [] ->
  let ids := Notions.result_ids search_results in
  let rel := set_of string_dec relevant_ids in
  let m := Search.evaluate_precision_recall search_results relevant_ids in
  Search.precision_at_k m
  = map (fun k => (k, (Search.relevant_in_top ids rel k / inject_Z (Z.of_nat k))%Q))
      (Notions.reached_cutoffs search_results)
  /\ Search.recall_at_k m
     = map (fun k => (k, (Search.relevant_in_top ids rel k / len rel)%Q))
         (Notions.reached_cutoffs search_results).
Proof.
  intros Hne ids rel m. unfold m, Search.evaluate_precision_recall.
  apply nonempty_true in Hne. rewrite Hne. cbn [negb Search.precision_at_k Search.recall_at_k].
  fold (Notions.result_ids search_results). fold ids. fold rel.
  rewrite precision_recall_tables. cbn [fst snd].
  unfold Notions.reached_cutoffs, ids, Notions.result_ids. rewrite length_map.
  split; reflexivity.
Qed.

Lemma take_length {A : Type} (k : nat) (l : list A) :
  (k <= List.length l)%nat -> List.length (take k l) = k.
Proof.
  intros H. change (take k l) with (firstn k l). rewrite length_firstn. lia.
Qed.

Lemma relevant_in_top_le_k (ids rel : list string) (k : nat) :
  (List.length (inter (set_of string_dec (take k ids)) rel) <= k)%nat.
Proof.
  rewrite inter_filter.
  pose proof (filter_length_le (fun x => mem string_dec x rel)
                (set_of string_dec (take k ids))) as H1.
  pose proof (set_of_length string_dec (take k ids)) as H2.
  assert (H3 : (List.length (take k ids) <= k)%nat).
  { change (take k ids) with (firstn k ids). rewrite length_firstn. lia. }
  lia.
Qed.

Lemma inter_length_le_r (s t : list string) :
  NoDup s -> (List.length (inter s t) <= List.length t)%nat.
Proof.
  intros Hs. apply NoDup_incl_length; [apply inter_NoDup; exact Hs|].
  intros x Hx. apply inter_In in Hx. tauto.
Qed.

Lemma inter_length_mono (s s' t : list string) :
  NoDup s -> incl s s' ->
  (List.length (inter s t) <= List.length (inter s' t))%nat.
Proof.
  intros Hs Hincl. apply NoDup_incl_length; [apply inter_NoDup; exact Hs|].
  intros x Hx. apply inter_In in Hx. apply inter_In. split; [apply Hincl|]; tauto.
Qed.

Lemma take_incl {A : Type} (k k' : nat) (l : list A) :
  (k <= k')%nat -> incl (take k l) (take k' l).
Proof.
  change (take k l) with (firstn k l). change (take k' l) with (firstn k' l).
  revert k k'. induction l as [|x l IH]; intros k k' H.
  - rewrite !firstn_nil. apply incl_refl.
  - destruct k as [|k]; [intros y []|].
    destruct k' as [|k']; [lia|].
    cbn [firstn]. intros y [Hy|Hy]; [left; exact Hy|right].
    apply (IH k k'); [lia|exact Hy].
Qed.

Lemma reached_cutoffs_In (search_results : list Multimodal.SearchResult) (k : nat) :
  In k (Notions.reached_cutoffs search_results) ->
  (1 <= k <= List.length search_results)%nat.
Proof.
  unfold Notions.reached_cutoffs. intros H. apply filter_In in H.
  destruct H as [Hin Hle]. apply Nat.leb_le in Hle.
  unfold Search.cutoffs in Hin. simpl in Hin. lia.
Qed.

Lemma inject_nat_le (a b : nat) : (a <= b)%nat -> (inject_Z (Z.of_nat a) <= inject_Z (Z.of_nat b))%Q.
Proof.
  intros H. rewrite <- Zle_Qle. lia.
Qed.

Lemma inject_nat_pos (a : nat) : (1 <= a)%nat -> (0 < inject_Z (Z.of_nat a))%Q.
Proof.
  intros H. change 0%Q with (inject_Z 0). rewrite <- Zlt_Qlt. lia.
Qed.

(** X13.  For a non-empty list of relevant ids, [evaluate_precision_recall]
    fills both tables for exactly the cut-offs among 1, 3, 5, 10 that do not
    exceed the number of results, in that order; every precision and every
    recall lies in the unit interval; at each cut-off [k], precision and
    recall are one count of hits, at most [k] and at most the number of
    distinct relevant ids, divided by [k] and by that number, so one of
    them is 0 exactly when the other is; and the MAP score is the
    precision at 5 when there are five results and 0 otherwise. *)
Theorem precision_recall_values (search_results : list Multimodal.SearchResult)
    (relevant_ids : list string) :
  relevant_ids <> [] ->
  let m := Search.evaluate_precision_recall search_results relevant_ids in
  map fst (Search.precision_at_k m) = Notions.reached_cutoffs search_results
  /\ map fst (Search.recall_at_k m) = Notions.reached_cutoffs search_results
  /\ (forall k p, In (k, p) (Search.precision_at_k m) -> (0 <= p <= 1)%Q)
  /\ (forall k r, In (k, r) (Search.recall_at_k m) -> (0 <= r <= 1)%Q)
  /\ (forall k p r,
         In (k, p) (Search.precision_at_k m) -> In (k, r) (Search.recall_at_k m) ->
         exists hits : nat,
           (hits <= k)%nat
           /\ (hits <= List.length (set_of string_dec relevant_ids))%nat
           /\ p = (inject_Z (Z.of_nat hits) / inject_Z (Z.of_nat k))%Q
           /\ r = (inject_Z (Z.of_nat hits) / len (set_of string_dec relevant_ids))%Q
           /\ ((p == 0)%Q <-> (r == 0)%Q))
  /\ ((5 <= List.length search_results)%nat ->
      In (5%nat, Search.map_score m) (Search.precision_at_k m))
  /\ ((List.length search_results < 5)%nat -> Search.map_score m = 0%Q).
Proof.
  intros Hne m.
  destruct (precision_recall_unfold search_results relevant_ids Hne) as [Hp Hr].
  fold m in Hp, Hr. cbv zeta in Hp, Hr.
  set (ids := Notions.result_ids search_results) in *.
  set (rel := set_of string_dec relevant_ids) in *.
  assert (Hrel : (0 < len rel)%Q).
  { apply len_pos. unfold rel. rewrite set_of_nil. exact Hne. }
  assert (Hnd : NoDup (set_of string_dec relevant_ids)) by apply NoDup_nodup.
  split; [rewrite Hp, map_map; cbn [fst]; apply map_id|].
  split; [rewrite Hr, map_map; cbn [fst]; apply map_id|].
  split.
  { intros k p Hin. rewrite Hp in Hin. apply in_map_iff in Hin.
    destruct Hin as [k' [Heq Hk]]. inversion Heq; subst k' p. clear Heq.
    apply reached_cutoffs_In in Hk.
    apply ratio_bounds; [apply len_nonneg| |apply inject_nat_pos; lia].
    unfold Search.relevant_in_top, len. apply inject_nat_le, relevant_in_top_le_k. }
  split.
  { intros k r Hin. rewrite Hr in Hin. apply in_map_iff in Hin.
    destruct Hin as [k' [Heq Hk]]. inversion Heq; subst k' r. clear Heq.
    apply ratio_bounds; [apply len_nonneg| |exact Hrel].
    unfold Search.relevant_in_top. apply len_le, inter_length_le_r, NoDup_nodup. }
  split.
  { intros k p r Hinp Hinr. rewrite Hp in Hinp. rewrite Hr in Hinr.
    apply in_map_iff in Hinp. destruct Hinp as [k1 [Heq1 Hk1]].
    apply in_map_iff in Hinr. destruct Hinr as [k2 [Heq2 Hk2]].
    inversion Heq1; subst k1 p. inversion Heq2; subst k2 r. clear Heq1 Heq2.
    apply reached_cutoffs_In in Hk1.
    assert (Hk : (0 < inject_Z (Z.of_nat k))%Q) by (apply inject_nat_pos; lia).
    exists (List.length (inter (set_of string_dec (take k ids)) rel)).
    split; [apply relevant_in_top_le_k|].
    split; [apply inter_length_le_r, NoDup_nodup|].
    split; [reflexivity|]. split; [reflexivity|].
    rewrite (ratio_zero_iff _ _ Hk), (ratio_zero_iff _ _ Hrel). reflexivity. }
  unfold m, Search.evaluate_precision_recall.
  pose proof Hne as Hne'. apply nonempty_true in Hne'. rewrite Hne'.
  cbn [negb Search.precision_at_k Search.recall_at_k Search.map_score].
  fold (Notions.result_ids search_results). fold ids. fold rel.
  rewrite precision_recall_tables. cbn [fst snd].
  assert (Hlen : List.length ids = List.length search_results).
  { unfold ids, Notions.result_ids. apply length_map. }
  rewrite Hlen. unfold Search.cutoffs. cbn [filter].
  split.
  - intros H5. assert (E1 : (1 <=? List.length search_results)%nat = true)
      by (apply Nat.leb_le; lia).
    assert (E3 : (3 <=? List.length search_results)%nat = true) by (apply Nat.leb_le; lia).
    assert (E5 : (5 <=? List.length search_results)%nat = true) by (apply Nat.leb_le; lia).
    rewrite E1, E3, E5. cbn [map Search.dict_get Nat.eqb].
    right. right. left. reflexivity.
  - intros H5.
    assert (E5 : (5 <=? List.length search_results)%nat = false) by (apply Nat.leb_gt; lia).
    assert (E10 : (10 <=? List.length search_results)%nat = false)
      by (apply Nat.leb_gt; lia).
    rewrite E5, E10.
    destruct (1 <=? List.length search_results)%nat;
      destruct (3 <=? List.length search_results)%nat; reflexivity.
Qed.

Lemma precision_recall_values_witness :
  let results :=
    [ {| Multimodal.node_id := Some "a"; Multimodal.score := None;
         Multimodal.metadata := None |};
      {| Multimodal.node_id := Some "b"; Multimodal.score := None;
         Multimodal.metadata := None |};
      {| Multimodal.node_id := None; Multimodal.score := None;
         Multimodal.metadata := None |} ] in
  map fst (Search.precision_at_k (Search.evaluate_precision_recall results ["a"; "c"]))
  = [1; 3]%nat.
Proof.
  intros results.
  exact (proj1 (precision_recall_values results ["a"; "c"] ltac:(discriminate))).
Defined.

Lemma nodup_length_NoDup (l : list string) :
  List.length (set_of string_dec l) = List.length l -> NoDup l.
Proof.
  unfold set_of. induction l as [|x l IH]; intros H; [constructor|].
  cbn [nodup] in H. destruct (in_dec string_dec x l) as [Hin|Hin].
  - pose proof (set_of_length string_dec l) as Hle. unfold set_of in Hle.
    cbn [List.length] in H. lia.
  - cbn [List.length] in H. constructor; [exact Hin|]. apply IH. lia.
Qed.

Lemma filter_length_all {A : Type} (f : A -> bool) (l : list A) :
  List.length (filter f l) = List.length l -> forall x, In x l -> f x = true.
Proof.
  induction l as [|y l IH]; intros H x Hx; [destruct Hx|].
  cbn [filter] in H. pose proof (filter_length_le f l) as Hle.
  destruct (f y) eqn:Ey; cbn [List.length] in H; [|lia].
  destruct Hx as [Hx|Hx]; [subst; exact Ey|]. apply IH; [lia|exact Hx].
Qed.

Lemma relevant_in_top_full (ids relevant_ids : list string) (k : nat) :
  (k <= List.length ids)%nat ->
  List.length (inter (set_of string_dec (take k ids)) (set_of string_dec relevant_ids)) = k
  <-> NoDup (take k ids) /\ forall x, In x (take k ids) -> In x relevant_ids.
Proof.
  intros Hk. pose proof (take_length k ids Hk) as Hlen.
  rewrite inter_filter.
  pose proof (filter_length_le (fun x => mem string_dec x (set_of string_dec relevant_ids))
                (set_of string_dec (take k ids))) as H1.
  pose proof (set_of_length string_dec (take k ids)) as H2.
  split.
  - intros H. assert (Hnd : NoDup (take k ids)) by (apply nodup_length_NoDup; lia).
    split; [exact Hnd|]. intros x Hx.
    apply (set_of_In string_dec). apply (mem_In string_dec).
    apply (filter_length_all
             (fun y => mem string_dec y (set_of string_dec relevant_ids))
             (set_of string_dec (take k ids))); [lia|].
    apply set_of_In. exact Hx.
  - intros [Hnd Hall]. rewrite filter_all.
    + unfold set_of. rewrite nodup_fixed_point; [exact Hlen|exact Hnd].
    + intros x Hx. apply (mem_In string_dec). apply set_of_In. apply Hall.
      apply (set_of_In string_dec). exact Hx.
Qed.

(** X14.  Recall never falls from one recorded cut-off to a larger one,
    and the precision at a recorded cut-off [k] is 1 exactly when the
    first [k] result ids are pairwise distinct and all relevant: an id
    that occurs twice among the first [k] results is counted once, so
    such a list never reaches precision 1. *)
Theorem recall_monotone_precision_full (search_results : list Multimodal.SearchResult)
    (relevant_ids : list string) :
  relevant_ids <> [] ->
  let m := Search.evaluate_precision_recall search_results relevant_ids in
  let ids := Notions.result_ids search_results in
  (forall k k' r r',
      In (k, r) (Search.recall_at_k m) -> In (k', r') (Search.recall_at_k m) ->
      (k <= k')%nat -> (r <= r')%Q)
  /\ (forall k p,
         In (k, p) (Search.precision_at_k m) ->
         (p == 1)%Q
         <-> NoDup (take k ids) /\ forall x, In x (take k ids) -> In x relevant_ids).
Proof.
  intros Hne m ids.
  destruct (precision_recall_unfold search_results relevant_ids Hne) as [Hp Hr].
  fold m in Hp, Hr. cbv zeta in Hp, Hr. fold ids in Hp, Hr.
  set (rel := set_of string_dec relevant_ids) in *.
  assert (Hrel : (0 < len rel)%Q).
  { apply len_pos. unfold rel. rewrite set_of_nil. exact Hne. }
  split.
  - intros k k' r r' Hin Hin' Hle. rewrite Hr in Hin, Hin'.
    apply in_map_iff in Hin. destruct Hin as [k1 [Heq1 _]].
    apply in_map_iff in Hin'. destruct Hin' as [k2 [Heq2 _]].
    inversion Heq1; subst k1 r. inversion Heq2; subst k2 r'. clear Heq1 Heq2.
    unfold Qdiv. apply Qmult_le_compat_r.
    + unfold Search.relevant_in_top. apply len_le. apply inter_length_mono.
      * apply NoDup_nodup.
      * intros x Hx. apply (set_of_In string_dec x (take k' ids)).
        apply (set_of_In string_dec x (take k ids)) in Hx.
        apply (take_incl k k' ids Hle). exact Hx.
    + apply Qinv_le_0_compat. apply Qlt_le_weak. exact Hrel.
  - intros k p Hin. rewrite Hp in Hin. apply in_map_iff in Hin.
    destruct Hin as [k1 [Heq Hk]]. inversion Heq; subst k1 p. clear Heq.
    apply reached_cutoffs_In in Hk.
    assert (Hlen : List.length ids = List.length search_results).
    { unfold ids, Notions.result_ids. apply length_map. }
    assert (Hkpos : (0 < inject_Z (Z.of_nat k))%Q) by (apply inject_nat_pos; lia).
    rewrite <- (relevant_in_top_full ids relevant_ids k) by lia.
    fold rel. unfold Search.relevant_in_top, len. split.
    + intros H. apply ratio_one in H; [|exact Hkpos].
      unfold Qeq in H. simpl in H. lia.
    + intros H. rewrite H. apply ratio_self. exact Hkpos.
Qed.

Lemma recall_monotone_precision_full_witness :
  let results :=
    [ {| Multimodal.node_id := Some "a"; Multimodal.score := None;
         Multimodal.metadata := None |};
      {| Multimodal.node_id := Some "a"; Multimodal.score := None;
         Multimodal.metadata := None |};
      {| Multimodal.node_id := Some "b"; Multimodal.score := None;
         Multimodal.metadata := None |} ] in
  let m := Search.evaluate_precision_recall results ["a"; "b"] in
  In (3%nat, (2 # 3)%Q) (Search.precision_at_k m)
  /\ ~ NoDup (take 3 (Notions.result_ids results))
  /\ forall r r', In (1%nat, r) (Search.recall_at_k m) ->
                  In (3%nat, r') (Search.recall_at_k m) -> (r <= r')%Q.
Proof.
  intros results m.
  destruct (recall_monotone_precision_full results ["a"; "b"] ltac:(discriminate))
    as [Hmono Hfull].
  split; [right; left; reflexivity|]. split.
  - intros Hnd.
    destruct (Hfull 3%nat (2 # 3)%Q) as [_ Hback]; [right; left; reflexivity|].
    assert (H : (2 # 3 == 1)%Q).
    { apply Hback. split; [exact Hnd|]. intros x Hx. simpl in Hx. simpl. tauto. }
    discriminate H.
  - intros r r' H1 H3. apply (Hmono 1%nat 3%nat r r' H1 H3). lia.
Defined.

Lemma half_sum_unit (a b : Q) :
  (0 < a -> a <= 1 -> 0 <= b -> b <= 1 -> 0 < (a + b) / 2 <= 1)%Q.
Proof.
  intros H1 H2 H3 H4. split.
  - apply Qlt_shift_div_l; [reflexivity|]. lra.
  - apply Qle_shift_div_r; [reflexivity|]. lra.
Qed.

(** X15.  [evaluate_cross_modal_search_accuracy] is 0 for no result.  For a
    non-empty result list whose scores, where present, lie in the unit
    interval, it lies in (0, 1]: it is never 0, since at least one content
    type is counted. *)
Theorem cross_modal_search_accuracy_range (search_results : list Multimodal.SearchResult) :
  Search.evaluate_cross_modal_search_accuracy [] = 0%Q
  /\ (search_results <> [] ->
      (forall r s, In r search_results -> Multimodal.score r = Some s -> (0 <= s <= 1)%Q) ->
      (0 < Search.evaluate_cross_modal_search_accuracy search_results <= 1)%Q).
Proof.
  split; [reflexivity|]. intros Hne Hscores.
  unfold Search.evaluate_cross_modal_search_accuracy.
  pose proof Hne as Hne'. apply nonempty_true in Hne'. rewrite Hne'. cbn [negb].
  set (types := map (Multimodal.metadata_get Multimodal.content_type "text") search_results).
  set (confs := map _ search_results).
  assert (Htypes : types <> []).
  { unfold types. intros E. apply map_eq_nil in E. contradiction. }
  assert (Hconfs : confs <> []).
  { unfold confs. intros E. apply map_eq_nil in E. contradiction. }
  assert (Hset : set_of string_dec types <> []).
  { rewrite set_of_nil. exact Htypes. }
  assert (Hd : (0 < len (set_of string_dec types) / len types <= 1)%Q).
  { split.
    - apply Qlt_shift_div_l; [apply len_pos; exact Htypes|].
      rewrite Qmult_0_l. apply len_pos. exact Hset.
    - apply ratio_bounds; [apply len_nonneg| |apply len_pos; exact Htypes].
      apply len_le, set_of_length. }
  assert (Hm : (0 <= mean confs <= 1)%Q).
  { apply mean_between; [exact Hconfs|]. intros y Hy. unfold confs in Hy.
    apply in_map_iff in Hy. destruct Hy as [r [Hy Hr]].
    destruct (Multimodal.score r) as [s|] eqn:Es.
    - subst y. apply (Hscores r s Hr Es).
    - subst y. split; discriminate. }
  apply half_sum_unit; tauto.
Qed.

Lemma cross_modal_search_accuracy_range_witness :
  (0 < Search.evaluate_cross_modal_search_accuracy
         [ {| Multimodal.node_id := Some "a"; Multimodal.score := Some (9 # 10)%Q;
              Multimodal.metadata := None |};
           {| Multimodal.node_id := Some "b"; Multimodal.score := None;
              Multimodal.metadata := None |} ] <= 1)%Q.
Proof.
  apply cross_modal_search_accuracy_range; [discriminate|].
  intros r s [Hr|[Hr|[]]] Hs; subst r; inversion Hs; subst s; split; discriminate.
Defined.

(** X16.  The endpoints [evaluate_search_quality] and
    [evaluate_document_processing] answer every request with status 500:
    each builds its result model from one or two string fields only, while
    the model declares seven, respectively nine, scores without a default,
    so the constructor raises before any metric is computed. *)
Theorem search_and_document_endpoints_fail
    (search : Search.SearchEvaluationRequest)
    (document : DocumentProcessing.DocumentProcessingEvaluationRequest) :
  (exists detail,
      Search.evaluate_search_quality search = Raise (HTTPException 500 detail))
  /\ (exists detail,
         DocumentProcessing.evaluate_document_processing document
         = Raise (HTTPException 500 detail)).
Proof.
  split; eexists; reflexivity.
Qed.

(** ** Document processing evaluation *)

Lemma chunk_size_nonneg (chunk : DocumentProcessing.Chunk) :
  (0 <= DocumentProcessing.chunk_size chunk)%Q.
Proof.
  unfold DocumentProcessing.chunk_size. change 0%Q with (inject_Z 0).
  rewrite <- Zle_Qle. lia.
Qed.

Lemma fields_present_ratio (metadata : option DocumentProcessing.DocMetadata)
    (fields : list string) :
  fields <> [] ->
  (0 <= DocumentProcessing.fields_present metadata fields / len fields <= 1)%Q.
Proof.
  intros Hne. unfold DocumentProcessing.fields_present.
  apply ratio_bounds; [apply len_nonneg| |apply len_pos; exact Hne].
  apply len_le, filter_length_le.
Qed.

Lemma mean_unit_nonempty (l : list Q) :
  l <> [] -> (forall y, In y l -> 0 <= y <= 1)%Q ->
  (0 <= (if nonempty l then mean l else 5 # 10) <= 1)%Q.
Proof.
  intros Hne H. pose proof Hne as Hne'. apply nonempty_true in Hne'. rewrite Hne'.
  apply mean_between; assumption.
Qed.

(** X17.  [evaluate_extraction_completeness] raises [ZeroDivisionError]
    exactly when there is an image and the metadata give 0 for
    ["total_pages"].  Otherwise it returns a score, which lies in the unit
    interval when there is no image or the page count is positive (a
    missing count is read as 1). *)
Theorem extraction_completeness_outcome
    (processing_result : DocumentProcessing.ProcessingResult) :
  let images := DocumentProcessing.get_list (DocumentProcessing.images processing_result) in
  let pages :=
    DocumentProcessing.total_pages_or_default
      (DocumentProcessing.metadata processing_result) in
  (images <> [] /\ pages = 0%Z ->
   DocumentProcessing.evaluate_extraction_completeness processing_result
   = Raise ZeroDivisionError)
  /\ (~ (images <> [] /\ pages = 0%Z) ->
      exists v,
        DocumentProcessing.evaluate_extraction_completeness processing_result = Ok v
        /\ (images = [] \/ (0 < pages)%Z -> (0 <= v <= 1)%Q)).
Proof.
  intros images pages. unfold DocumentProcessing.evaluate_extraction_completeness.
  fold images. fold pages.
  set (chunks := DocumentProcessing.get_list
                   (DocumentProcessing.text_chunks processing_result)).
  set (scores0 := if nonempty chunks then _ else _).
  set (meta := (DocumentProcessing.fields_present _ _ / len _)%Q).
  assert (H0 : forall y, In y scores0 -> (0 <= y <= 1)%Q).
  { unfold scores0. destruct (nonempty chunks); [|intros y []].
    intros y [<-|[]]. apply Qmin_unit.
    apply Qle_shift_div_l; [reflexivity|]. rewrite Qmult_0_l.
    apply mean_nonneg. apply Forall_forall. intros x Hx.
    apply in_map_iff in Hx. destruct Hx as [c [<- _]]. apply chunk_size_nonneg. }
  assert (Hmeta : (0 <= meta <= 1)%Q).
  { unfold meta. apply fields_present_ratio. discriminate. }
  split.
  - intros [Hne Hz]. apply nonempty_true in Hne. rewrite Hne.
    rewrite div_zero; [reflexivity|]. rewrite Hz. reflexivity.
  - intros Hn. destruct (nonempty images) eqn:Hi.
    + apply nonempty_true in Hi.
      assert (Hp : pages <> 0%Z) by (intros E; apply Hn; split; assumption).
      rewrite div_ok.
      2:{ intros E. apply Hp. unfold Qeq in E. simpl in E. lia. }
      cbn [bind]. eexists. split; [reflexivity|].
      intros [He|Hpos]; [contradiction|].
      apply mean_unit_nonempty.
      * intros E. apply app_eq_nil in E. destruct E as [_ E]. discriminate.
      * intros y Hy. apply in_app_or in Hy. destruct Hy as [Hy|[<-|[]]]; [|exact Hmeta].
        apply in_app_or in Hy. destruct Hy as [Hy|[<-|[]]]; [apply H0, Hy|].
        apply Qmin_unit. apply Qle_shift_div_l; [reflexivity|]. rewrite Qmult_0_l.
        apply Qle_shift_div_l; [change 0%Q with (inject_Z 0); rewrite <- Zlt_Qlt; lia|].
        rewrite Qmult_0_l. apply len_nonneg.
    + cbn [bind]. eexists. split; [reflexivity|]. intros _.
      apply mean_unit_nonempty.
      * intros E. apply app_eq_nil in E. destruct E as [_ E]. discriminate.
      * intros y Hy. apply in_app_or in Hy. destruct Hy as [Hy|[<-|[]]]; [|exact Hmeta].
        apply H0, Hy.
Qed.

Lemma extraction_completeness_outcome_witness :
  DocumentProcessing.evaluate_extraction_completeness
    {| DocumentProcessing.text_chunks := None;
       DocumentProcessing.images :=
         Some [ {| Multimodal.image_path := Some "page1.png";
                   Multimodal.extracted_text := None;
                   Multimodal.caption := None |} ];
       DocumentProcessing.metadata :=
         Some {| DocumentProcessing.title := Some "Report";
                 DocumentProcessing.authors := None;
                 DocumentProcessing.total_pages := Some 0%Z;
                 DocumentProcessing.word_count := None |};
       DocumentProcessing.relationships := None;
       DocumentProcessing.processing_time := None |}
  = Raise ZeroDivisionError.
Proof.
  apply extraction_completeness_outcome. split; [discriminate|reflexivity].
Defined.

Lemma sentence_integrity_fold (text_chunks : list DocumentProcessing.Chunk) (n : nat) :
  fold_left
    (fun sentence_integrity_score chunk =>
       if DocumentProcessing.ends_sentence
            (match DocumentProcessing.content chunk with Some c => c | None => "" end)
       then (sentence_integrity_score + 1)%nat else sentence_integrity_score)
    text_chunks n
  = (n + List.length
           (filter (fun c => DocumentProcessing.ends_sentence (Notions.chunk_text c))
              text_chunks))%nat.
Proof.
  revert n. induction text_chunks as [|c l IH]; intros n; cbn [fold_left filter].
  - simpl. lia.
  - rewrite IH. unfold Notions.chunk_text at 2.
    destruct (DocumentProcessing.ends_sentence _); cbn [List.length]; lia.
Qed.

Lemma sentence_integrity_count (text_chunks : list DocumentProcessing.Chunk) :
  DocumentProcessing.sentence_integrity text_chunks
  = List.length
      (filter (fun c => DocumentProcessing.ends_sentence (Notions.chunk_text c))
         text_chunks).
Proof.
  unfold DocumentProcessing.sentence_integrity. rewrite sentence_integrity_fold. lia.
Qed.

Lemma mean_constant (a : Q) (l : list Q) :
  l <> [] -> (forall y, In y l -> y == a)%Q -> (mean l == a)%Q.
Proof.
  intros Hne H. apply Qle_antisym; apply (mean_between a a l Hne);
    intros y Hy; rewrite (H y Hy); split; apply Qle_refl.
Qed.

Lemma var_zero_iff (l : list Q) :
  l <> [] -> (var l == 0)%Q <-> forall x y, In x l -> In y l -> (x == y)%Q.
Proof.
  intros Hne. unfold var. set (m := mean l).
  assert (Hsq : Forall (fun x => 0 <= x)%Q (map (fun x => (x - m) * (x - m))%Q l)).
  { apply Forall_forall. intros y Hy. apply in_map_iff in Hy.
    destruct Hy as [x [<- _]]. generalize (x - m)%Q. intros d. nra. }
  assert (Hlen : (0 < len (map (fun x => (x - m) * (x - m))%Q l))%Q).
  { apply len_pos. intros E. apply map_eq_nil in E. contradiction. }
  unfold mean at 1. rewrite (ratio_zero_iff _ _ Hlen). rewrite (sum_zero_iff _ Hsq).
  rewrite Forall_forall. split.
  - intros H x y Hx Hy.
    assert (Hm : forall z, In z l -> (z == m)%Q).
    { intros z Hz. specialize (H ((z - m) * (z - m))%Q).
      assert (E : ((z - m) * (z - m) == 0)%Q).
      { apply H. apply in_map_iff. exists z. split; [reflexivity|exact Hz]. }
      apply Qmult_integral in E. destruct E; lra. }
    rewrite (Hm x Hx), (Hm y Hy). reflexivity.
  - intros H sq Hin. apply in_map_iff in Hin. destruct Hin as [x [<- Hx]].
    assert (Hm : (m == x)%Q).
    { unfold m. apply mean_constant; [exact Hne|]. intros y Hy. apply H; assumption. }
    rewrite Hm. ring.
Qed.

Lemma mean_three (a b c : Q) : (mean [a; b; c] == (a + b + c) / 3)%Q.
Proof.
  unfold mean, sum, len. simpl. field.
Qed.

(** X18.  [evaluate_chunking_quality] is 0 for no chunk.  Otherwise it is
    the mean of three scores of which the last is the constant 0.8, so it
    lies between [np.mean([0, 0, 0.8])] and [np.mean([1, 1, 0.8])] and
    stays away from both ends of the unit interval.  It reaches
    [np.mean([1, 1, 0.8])] exactly when all chunks have the same length
    and every chunk ends with a full stop, an exclamation mark, a question
    mark or a newline. *)
Theorem chunking_quality_bounds (text_chunks : list DocumentProcessing.Chunk) :
  DocumentProcessing.evaluate_chunking_quality [] = 0%Q
  /\ (text_chunks <> [] ->
      let v := DocumentProcessing.evaluate_chunking_quality text_chunks in
      (mean [0; 0; 8 # 10] <= v <= mean [1; 1; 8 # 10])%Q
      /\ ((v == mean [1; 1; 8 # 10])%Q
          <-> (forall c c', In c text_chunks -> In c' text_chunks ->
                            String.length (Notions.chunk_text c)
                            = String.length (Notions.chunk_text c'))
              /\ forall c, In c text_chunks ->
                           DocumentProcessing.ends_sentence (Notions.chunk_text c) = true)).
Proof.
  split; [reflexivity|]. intros Hne v.
  assert (Hv : (v == (Qmax 0 (1 - var (map DocumentProcessing.chunk_size text_chunks)
                                   / 100000)
                      + inject_Z (Z.of_nat (DocumentProcessing.sentence_integrity
                                              text_chunks))
                        / len text_chunks
                      + (8 # 10)) / 3)%Q).
  { unfold v, DocumentProcessing.evaluate_chunking_quality.
    destruct text_chunks as [|c l]; [contradiction|].
    cbn [nonempty negb map app]. apply mean_three. }
  set (sizes := map DocumentProcessing.chunk_size text_chunks) in *.
  assert (Hsizes : sizes <> []).
  { unfold sizes. intros E. apply map_eq_nil in E. contradiction. }
  pose proof (var_nonneg sizes) as Hvar.
  pose proof (var_zero_iff sizes Hsizes) as Hvz.
  set (w := (var sizes / 100000)%Q) in *.
  assert (Hw : (0 <= w)%Q).
  { unfold w. apply Qle_shift_div_l; [reflexivity|]. lra. }
  assert (Hwz : (w == 0 <-> var sizes == 0)%Q).
  { unfold w. apply ratio_zero_iff. reflexivity. }
  rewrite sentence_integrity_count in Hv.
  set (ends := filter (fun c => DocumentProcessing.ends_sentence (Notions.chunk_text c))
                 text_chunks) in *.
  assert (Hends : (List.length ends <= List.length text_chunks)%nat)
    by apply filter_length_le.
  pose proof (len_pos text_chunks Hne) as Hpos.
  assert (Hi : (0 <= len ends / len text_chunks <= 1)%Q).
  { apply ratio_bounds; [apply len_nonneg|apply len_le; exact Hends|exact Hpos]. }
  change (inject_Z (Z.of_nat (List.length ends))) with (len ends) in Hv.
  set (i := (len ends / len text_chunks)%Q) in *.
  assert (Hs : (0 <= Qmax 0 (1 - w) <= 1)%Q).
  { split; [apply Q.le_max_l|]. apply Q.max_lub; lra. }
  assert (Hs1 : (Qmax 0 (1 - w) == 1 <-> w == 0)%Q).
  { split.
    - intros E. destruct (Q.max_spec 0 (1 - w)) as [[_ Hm]|[_ Hm]]; rewrite Hm in E.
      + lra.
      + discriminate E.
    - intros E. rewrite E. reflexivity. }
  set (sc := Qmax 0 (1 - w)) in *.
  assert (Hi1 : (i == 1)%Q <-> List.length ends = List.length text_chunks).
  { unfold i. split.
    - intros E. apply ratio_one in E; [|exact Hpos]. unfold len, Qeq in E. simpl in E. lia.
    - intros E. unfold len. rewrite E. apply ratio_self. exact Hpos. }
  clearbody sc i w. rewrite !mean_three.
  assert (Elo : ((0 + 0 + (8 # 10)) / 3 == 4 # 15)%Q) by reflexivity.
  assert (Ehi : ((1 + 1 + (8 # 10)) / 3 == 14 # 15)%Q) by reflexivity.
  rewrite Elo, Ehi. split.
  - rewrite Hv. split.
    + apply Qle_shift_div_l; [reflexivity|]. lra.
    + apply Qle_shift_div_r; [reflexivity|]. lra.
  - assert (Hboth : (v == 14 # 15 <-> sc == 1 /\ i == 1)%Q).
    { rewrite Hv. split.
      - intros E. assert (E' : (sc + i + (8 # 10) == (14 # 15) * 3)%Q).
        { rewrite <- E. field. }
        split; lra.
      - intros [E1 E2]. rewrite E1, E2. reflexivity. }
    rewrite Hboth, Hs1, Hwz, Hvz, Hi1. split.
    + intros [Hsame Hall]. split.
      * intros c c' Hc Hc'.
        assert (E : (DocumentProcessing.chunk_size c == DocumentProcessing.chunk_size c')%Q).
        { apply Hsame; unfold sizes; apply in_map; assumption. }
        unfold DocumentProcessing.chunk_size, Qeq in E. simpl in E.
        unfold Notions.chunk_text. lia.
      * intros c Hc.
        apply (filter_length_all
                 (fun c => DocumentProcessing.ends_sentence (Notions.chunk_text c))
                 text_chunks Hall c Hc).
    + intros [Hsame Hall]. split.
      * intros x y Hx Hy. unfold sizes in Hx, Hy.
        apply in_map_iff in Hx. destruct Hx as [c [<- Hc]].
        apply in_map_iff in Hy. destruct Hy as [c' [<- Hc']].
        unfold DocumentProcessing.chunk_size.
        fold (Notions.chunk_text c). fold (Notions.chunk_text c').
        rewrite (Hsame c c' Hc Hc'). reflexivity.
      * unfold ends. rewrite filter_all; [reflexivity|exact Hall].
Qed.

Lemma chunking_quality_bounds_witness :
  (DocumentProcessing.evaluate_chunking_quality
     [ {| DocumentProcessing.content := Some "One." |};
       {| DocumentProcessing.content := Some "Two!" |} ] == mean [1; 1; 8 # 10])%Q.
Proof.
  apply chunking_quality_bounds; [discriminate|]. split.
  - intros c c' [Hc|[Hc|[]]] [Hc'|[Hc'|[]]]; subst c c'; reflexivity.
  - intros c [Hc|[Hc|[]]]; subst c; reflexivity.
Defined.

Lemma counts_get_set (d : list (string * nat)) (k k' : string) (n : nat) :
  DocumentProcessing.counts_get (DocumentProcessing.counts_set d k' n) k
  = if String.eqb k k' then n else DocumentProcessing.counts_get d k.
Proof.
  induction d as [|[k0 n0] d IH]; cbn [DocumentProcessing.counts_set].
  - cbn [DocumentProcessing.counts_get]. destruct (String.eqb k k'); reflexivity.
  - destruct (String.eqb_spec k' k0) as [E|E]; cbn [DocumentProcessing.counts_get].
    + subst k0. destruct (String.eqb k k'); reflexivity.
    + rewrite IH. destruct (String.eqb_spec k k0) as [E0|E0]; [|reflexivity].
      subst k0. destruct (String.eqb_spec k k') as [E1|E1]; [|reflexivity].
      subst k'. contradiction.
Qed.

Lemma count_types_fold (relationship_types : list string) (d : list (string * nat))
    (k : string) :
  DocumentProcessing.counts_get
    (fold_left
       (fun type_counts rel_type =>
          DocumentProcessing.counts_set type_counts rel_type
            (DocumentProcessing.counts_get type_counts rel_type + 1)%nat)
       relationship_types d) k
  = (DocumentProcessing.counts_get d k + count_occ string_dec relationship_types k)%nat.
Proof.
  revert d. induction relationship_types as [|t l IH]; intros d; cbn [fold_left count_occ].
  - lia.
  - rewrite IH, counts_get_set. destruct (string_dec t k) as [E|E].
    + subst t. rewrite String.eqb_refl. lia.
    + destruct (String.eqb_spec k t) as [E'|E']; [subst; contradiction|lia].
Qed.

Lemma count_types_get (relationship_types : list string) (k : string) :
  DocumentProcessing.counts_get (DocumentProcessing.count_types relationship_types) k
  = count_occ string_dec relationship_types k.
Proof.
  unfold DocumentProcessing.count_types. rewrite count_types_fold. reflexivity.
Qed.

Lemma Qabs_zero (x : Q) : (Qabs x == 0 -> x == 0)%Q.
Proof.
  intros E. pose proof (Qle_Qabs x) as H1. pose proof (Qle_Qabs (- x)) as H2.
  rewrite Qabs_opp in H2. lra.
Qed.

Lemma sum_full (l : list Q) :
  (forall y, In y l -> y <= 1)%Q -> (sum l == len l)%Q -> forall y, In y l -> (y == 1)%Q.
Proof.
  induction l as [|x l IH]; intros Hle E y Hy; [destruct Hy|].
  assert (Hl : (sum l <= len l)%Q).
  { apply sum_le_len. apply Forall_forall. intros z Hz. apply Hle. right. exact Hz. }
  assert (Hx : (x <= 1)%Q) by (apply Hle; left; reflexivity).
  rewrite len_cons in E. cbn [sum fold_right] in E. fold (sum l) in E.
  destruct Hy as [<-|Hy]; [lra|].
  apply IH; [intros z Hz; apply Hle; right; exact Hz|lra|exact Hy].
Qed.

Lemma share_of_total (a n : nat) (p : Z) (q : positive) :
  (0 < n)%nat ->
  (inject_Z (Z.of_nat a) / inject_Z (Z.of_nat n) == p # q)%Q
  <-> (Z.of_nat a * Z.pos q = p * Z.of_nat n)%Z.
Proof.
  intros Hn.
  assert (Hnq : (0 < inject_Z (Z.of_nat n))%Q) by (apply inject_nat_pos; lia).
  assert (Hne : ~ (inject_Z (Z.of_nat n) == 0)%Q).
  { intros E0. rewrite E0 in Hnq. apply (Qlt_irrefl 0 Hnq). }
  assert (Hmul : (inject_Z (Z.of_nat a) == (p # q) * inject_Z (Z.of_nat n))%Q
                 <-> (Z.of_nat a * Z.pos q = p * Z.of_nat n)%Z).
  { unfold Qeq. cbn [Qnum Qden Qmult inject_Z]. rewrite Pos.mul_1_r. lia. }
  rewrite <- Hmul. split.
  - intros E. rewrite <- E. field. exact Hne.
  - intros E. rewrite E. field. exact Hne.
Qed.

Lemma Qabs_zero_iff (c x : Q) : (Qabs (c - x) == 0 <-> x == c)%Q.
Proof.
  split.
  - intros E. apply Qabs_zero in E. lra.
  - intros E. apply Qle_antisym; [|apply Qabs_nonneg].
    apply Qabs_Qle_condition. split; lra.
Qed.

Lemma balance_score_full (A B : Q) :
  (0 <= A -> 0 <= B ->
   0 <= Qmax 0 (1 - A - B) <= 1
   /\ (Qmax 0 (1 - A - B) == 1 <-> A == 0 /\ B == 0))%Q.
Proof.
  intros HA HB. split; [split; [apply Q.le_max_l|apply Q.max_lub; lra]|].
  destruct (Q.max_spec 0 (1 - A - B)) as [[Hlt Hm]|[Hle Hm]]; rewrite Hm; split.
  - intros E. split; lra.
  - intros [E1 E2]. lra.
  - intros E. discriminate E.
  - intros [E1 E2]. lra.
Qed.

(** X19.  [evaluate_relationship_accuracy] is 1 for no relationship.  For a
    non-empty list whose confidences, where present, lie in the unit
    interval, it lies in the unit interval, and it is 1 when every
    relationship has confidence 1, three in ten are captions and four in
    ten are references. *)
Theorem relationship_accuracy_bounds (relationships : list Multimodal.CrossModalPair) :
  DocumentProcessing.evaluate_relationship_accuracy [] = 1%Q
  /\ (relationships <> [] ->
      (forall rel c, In rel relationships -> Multimodal.confidence rel = Some c ->
                     (0 <= c <= 1)%Q) ->
      let v := DocumentProcessing.evaluate_relationship_accuracy relationships in
      (0 <= v <= 1)%Q
      /\ ((forall rel, In rel relationships ->
                       (Multimodal.confidence_or_default rel == 1)%Q) ->
          (10 * Notions.typed relationships "caption"
           = 3 * List.length relationships)%nat ->
          (10 * Notions.typed relationships "reference"
           = 4 * List.length relationships)%nat ->
          (v == 1)%Q)).
Proof.
  split; [reflexivity|]. intros Hne Hconf v.
  unfold v, DocumentProcessing.evaluate_relationship_accuracy.
  pose proof Hne as Hne'. apply nonempty_true in Hne'. rewrite Hne'. cbn [negb].
  fold Notions.type_of. rewrite !count_types_get.
  fold (Notions.typed relationships "caption").
  fold (Notions.typed relationships "reference").
  set (confs := map Multimodal.confidence_or_default relationships).
  assert (Hn : (0 < List.length relationships)%nat).
  { destruct relationships; [contradiction|simpl; lia]. }
  pose proof (share_of_total (Notions.typed relationships "caption")
                (List.length relationships) 3 10 Hn) as Hcap.
  pose proof (share_of_total (Notions.typed relationships "reference")
                (List.length relationships) 4 10 Hn) as Href.
  fold (len relationships) in Hcap, Href.
  set (cr := (inject_Z (Z.of_nat (Notions.typed relationships "caption"))
              / len relationships)%Q) in *.
  set (rr := (inject_Z (Z.of_nat (Notions.typed relationships "reference"))
              / len relationships)%Q) in *.
  pose proof (Qabs_zero_iff (3 # 10) cr) as HA0.
  pose proof (Qabs_zero_iff (4 # 10) rr) as HB0.
  pose proof (Qabs_nonneg ((3 # 10) - cr)) as HA.
  pose proof (Qabs_nonneg ((4 # 10) - rr)) as HB.
  destruct (balance_score_full _ _ HA HB) as [Hbal Hbal1].
  set (bal := Qmax 0 (1 - Qabs ((3 # 10) - cr) - Qabs ((4 # 10) - rr))) in *.
  assert (Hconfs : confs <> []).
  { unfold confs. intros E. apply map_eq_nil in E. contradiction. }
  assert (Hunit : forall y, In y confs -> (0 <= y <= 1)%Q).
  { intros y Hy. unfold confs in Hy. apply in_map_iff in Hy.
    destruct Hy as [rel [<- Hrel]]. unfold Multimodal.confidence_or_default.
    destruct (Multimodal.confidence rel) as [c|] eqn:Ec.
    - apply (Hconf rel c Hrel Ec).
    - split; discriminate. }
  pose proof (mean_between 0 1 confs Hconfs Hunit) as Havg.
  assert (Havg1 : (mean confs == 1)%Q
                  <-> forall rel, In rel relationships ->
                                  (Multimodal.confidence_or_default rel == 1)%Q).
  { split.
    - intros E rel Hrel. apply (sum_full confs).
      + intros y Hy. apply Hunit, Hy.
      + unfold mean in E. apply ratio_one in E; [exact E|apply len_pos; exact Hconfs].
      + unfold confs. apply in_map. exact Hrel.
    - intros H. apply mean_constant; [exact Hconfs|]. intros y Hy.
      unfold confs in Hy. apply in_map_iff in Hy. destruct Hy as [rel [<- Hrel]].
      apply H, Hrel. }
  rewrite <- Havg1. clearbody bal. generalize dependent (mean confs). intros avg Havg.
  split.
  - split.
    + apply Qle_shift_div_l; [reflexivity|]. lra.
    + apply Qle_shift_div_r; [reflexivity|]. lra.
  - assert (Hboth : ((avg + bal) / 2 == 1 <-> avg == 1 /\ bal == 1)%Q).
    { split.
      - intros E. assert (E' : (avg + bal == 2)%Q) by (rewrite <- (Qmult_1_l 2), <- E; field).
        split; lra.
      - intros [E1 E2]. rewrite E1, E2. reflexivity. }
    intros E E1 E2. rewrite Hboth, Hbal1, HA0, HB0, Hcap, Href.
    split; [exact E|]. split; lia.
Qed.

Lemma relationship_accuracy_bounds_witness :
  let relationships :=
    [ {| Multimodal.relationship_type := Some "caption";
         Multimodal.confidence := Some (9 # 10)%Q |};
      {| Multimodal.relationship_type := None; Multimodal.confidence := None |} ] in
  (0 <= DocumentProcessing.evaluate_relationship_accuracy relationships <= 1)%Q.
Proof.
  intros relationships.
  apply (relationship_accuracy_bounds relationships); [discriminate|].
  intros rel c [Hrel|[Hrel|[]]] Hc; subst rel; inversion Hc; subst c; split; discriminate.
Defined.

(** ** The batch endpoint over the three endpoints *)

Lemma bind_raise {A B : Type} (m : result A) (k : A -> result B) :
  (forall a, exists e, k a = Raise e) -> exists e, bind m k = Raise e.
Proof.
  intros H. destruct m as [a|e]; cbn [bind]; [apply H|eexists; reflexivity].
Qed.

(** X20.  With the three endpoints of the service behind it,
    [batch_evaluate] never returns an evaluation.  It yields one entry per
    request; the entry of a request of type ["multimodal"] (also when the
    type is missing), ["document_processing"] or ["search"] is an error
    entry, whatever its data, and the entry of any other type is the
    result that reports the unknown type. *)
Theorem batch_never_evaluates
    (Data : Type)
    (parse_multimodal : Data -> result Multimodal.MultimodalEvaluationRequest)
    (parse_document_processing :
       Data -> result DocumentProcessing.DocumentProcessingEvaluationRequest)
    (parse_search : Data -> result Search.SearchEvaluationRequest)
    (post_embed_text post_embed_image : string -> result Multimodal.Response)
    (post_ragas_evaluate :
       Multimodal.MultimodalEvaluationRequest -> result Multimodal.RagasResponse)
    (similarity_model : option (list string -> result (list (list R))))
    (elapsed : Q)
    (requests : list (Multimodal.RequestData Data)) :
  let results :=
    BatchService.batch_evaluate Data parse_multimodal parse_document_processing
      parse_search post_embed_text post_embed_image post_ragas_evaluate
      similarity_model elapsed requests in
  List.length results = List.length requests
  /\ forall i request_data,
       nth_error requests i = Some request_data ->
       (In (Notions.eval_type request_data) Notions.known_types ->
        exists error, nth_error results i = Some (Multimodal.EntryError _ i error))
       /\ (~ In (Notions.eval_type request_data) Notions.known_types ->
           nth_error results i
           = Some (Multimodal.EntryResult _ i
                     (Multimodal.UnknownType _
                        ("Unknown evaluation type: " ++ Notions.eval_type request_data)))).
Proof.
  intros results. unfold results, BatchService.batch_evaluate.
  split; [apply batch_evaluate_length|].
  intros i request_data Hi.
  rewrite (batch_evaluate_nth _ _ _ requests i request_data Hi).
  unfold Multimodal.batch_entry, Multimodal.batch_try.
  fold (Notions.eval_type request_data).
  set (t := Notions.eval_type request_data).
  assert (Hm : forall d, exists e,
               (r <- BatchService.run_multimodal Data parse_multimodal post_embed_text
                       post_embed_image post_ragas_evaluate similarity_model elapsed d ;;
                Ok (Multimodal.Evaluated (BatchService.Output) r)) = Raise e).
  { intros d. unfold BatchService.run_multimodal.
    destruct (parse_multimodal d); cbn [bind]; eexists; reflexivity. }
  assert (Hd : forall d, exists e,
               (r <- BatchService.run_document_processing Data parse_document_processing d ;;
                Ok (Multimodal.Evaluated (BatchService.Output) r)) = Raise e).
  { intros d. unfold BatchService.run_document_processing.
    destruct (parse_document_processing d); cbn [bind]; eexists; reflexivity. }
  assert (Hs : forall d, exists e,
               (r <- BatchService.run_search Data parse_search d ;;
                Ok (Multimodal.Evaluated (BatchService.Output) r)) = Raise e).
  { intros d. unfold BatchService.run_search.
    destruct (parse_search d); cbn [bind]; eexists; reflexivity. }
  unfold Notions.known_types. split.
  - intros Hin.
    destruct (String.eqb_spec t "multimodal") as [E1|E1].
    { destruct (bind_raise (Multimodal.data_of Data request_data) _ Hm) as [e He].
      rewrite He. eexists. reflexivity. }
    destruct (String.eqb_spec t "document_processing") as [E2|E2].
    { destruct (bind_raise (Multimodal.data_of Data request_data) _ Hd) as [e He].
      rewrite He. eexists. reflexivity. }
    destruct (String.eqb_spec t "search") as [E3|E3].
    { destruct (bind_raise (Multimodal.data_of Data request_data) _ Hs) as [e He].
      rewrite He. eexists. reflexivity. }
    exfalso. simpl in Hin. intuition congruence.
  - intros Hn.
    destruct (String.eqb_spec t "multimodal") as [E1|E1];
      [exfalso; apply Hn; rewrite E1; simpl; tauto|].
    destruct (String.eqb_spec t "document_processing") as [E2|E2];
      [exfalso; apply Hn; rewrite E2; simpl; tauto|].
    destruct (String.eqb_spec t "search") as [E3|E3];
      [exfalso; apply Hn; rewrite E3; simpl; tauto|].
    reflexivity.
Qed.

Lemma batch_never_evaluates_witness :
  let search_request :=
    {| Search.query := "cats"; Search.search_results := [];
       Search.search_type := "text"; Search.ground_truth_relevant_ids := None;
       Search.evaluation_metrics := ["diversity"] |} in
  let requests :=
    [ {| Multimodal.type := Some "search"; Multimodal.data := Some tt |};
      {| Multimodal.type := Some "audio"; Multimodal.data := Some tt |} ] in
  let results :=
    BatchService.batch_evaluate unit
      (fun _ => Raise (ValidationError ["query"]))
      (fun _ => Raise (ValidationError ["document_path"]))
      (fun _ => Ok search_request)
      (fun _ => Raise (RequestException "connection refused"))
      (fun _ => Raise (RequestException "connection refused"))
      (fun _ => Raise (RequestException "connection refused"))
      None 0%Q requests in
  (exists error, nth_error results 0 = Some (Multimodal.EntryError _ 0 error))
  /\ nth_error results 1
     = Some (Multimodal.EntryResult _ 1
               (Multimodal.UnknownType _ "Unknown evaluation type: audio")).
Proof.
  intros search_request requests results.
  destruct (batch_never_evaluates unit
              (fun _ => Raise (ValidationError ["query"]))
              (fun _ => Raise (ValidationError ["document_path"]))
              (fun _ => Ok search_request)
              (fun _ => Raise (RequestException "connection refused"))
              (fun _ => Raise (RequestException "connection refused"))
              (fun _ => Raise (RequestException "connection refused"))
              None 0%Q requests) as [_ H].
  split.
  - apply (H 0%nat _ eq_refl). simpl. tauto.
  - apply (H 1%nat _ eq_refl). simpl. intuition discriminate.
Defined.

(** ** The ground-truth file *)

Lemma add_ground_truth_entry_file (entry : GroundTruthStore.GroundTruthEntry)
    (file : GroundTruthStore.File) :
  fst (GroundTruthStore.add_ground_truth_entry entry file)
  = Some (Notions.content file ++ [GroundTruthStore.stored_of entry])%list.
Proof. destruct file; reflexivity. Qed.

Lemma get_ground_truth_data_file (file : GroundTruthStore.File) :
  fst (GroundTruthStore.get_ground_truth_data file)
  = match file with
    | Some _ => file
    | None => Some GroundTruthStore.DEFAULT_GROUND_TRUTH
    end.
Proof. destruct file; reflexivity. Qed.

Lemma get_ground_truth_data_existing (data : list GroundTruthStore.Stored) :
  GroundTruthStore.get_ground_truth_data (Some data)
  = (Some data,
     Ok {| GroundTruthStore.ground_truth_entries := List.length data;
           GroundTruthStore.data := data |}).
Proof. reflexivity. Qed.

(** X21.  Reading the ground truth after adding an entry returns the
    earlier content followed by the new entry and leaves the file as the
    addition wrote it; the message of the addition gives the new number of
    entries.  A missing file counts as empty for an addition, so an entry
    added first is the only one, whereas a first read creates the file
    with the five default entries.  Reading twice gives the same as
    reading once. *)
Theorem ground_truth_add_then_get (entry : GroundTruthStore.GroundTruthEntry)
    (file : GroundTruthStore.File) :
  let added := GroundTruthStore.add_ground_truth_entry entry file in
  let expected := (Notions.content file ++ [GroundTruthStore.stored_of entry])%list in
  GroundTruthStore.get_ground_truth_data (fst added)
  = (fst added,
     Ok {| GroundTruthStore.ground_truth_entries := S (List.length (Notions.content file));
           GroundTruthStore.data := expected |})
  /\ snd added
     = "Added ground truth entry. Total entries: "
       ++ GroundTruthStore.str_of_nat (S (List.length (Notions.content file)))
  /\ (file = None -> fst added = Some [GroundTruthStore.stored_of entry])
  /\ GroundTruthStore.get_ground_truth_data None
     = (Some GroundTruthStore.DEFAULT_GROUND_TRUTH,
        Ok {| GroundTruthStore.ground_truth_entries := 5;
              GroundTruthStore.data := GroundTruthStore.DEFAULT_GROUND_TRUTH |})
  /\ GroundTruthStore.get_ground_truth_data
       (fst (GroundTruthStore.get_ground_truth_data file))
     = GroundTruthStore.get_ground_truth_data file.
Proof.
  intros added expected.
  assert (Hlen : List.length expected = S (List.length (Notions.content file))).
  { unfold expected. rewrite length_app. simpl. lia. }
  split.
  - unfold added. rewrite add_ground_truth_entry_file. fold expected.
    rewrite get_ground_truth_data_existing, Hlen. reflexivity.
  - split.
    + unfold added, GroundTruthStore.add_ground_truth_entry. cbn [snd].
      fold (Notions.content file). fold expected. rewrite Hlen. reflexivity.
    + split; [intros ->; reflexivity|]. split; [reflexivity|].
      destruct file as [data|]; reflexivity.
Qed.

Lemma ground_truth_add_then_get_witness :
  let entry :=
    {| GroundTruthStore.question := "What is RAG?";
       GroundTruthStore.contexts := ["RAG is retrieval augmented generation."];
       GroundTruthStore.answer := "Retrieval augmented generation.";
       GroundTruthStore.ground_truth := "Retrieval augmented generation";
       GroundTruthStore.entry_source := "manual" |} in
  fst (GroundTruthStore.add_ground_truth_entry entry None)
  = Some [GroundTruthStore.stored_of entry].
Proof.
  intros entry.
  destruct (ground_truth_add_then_get entry None) as [_ [_ [H _]]].
  apply H. reflexivity.
Defined.

Lemma stored_of_well_formed (entry : GroundTruthStore.GroundTruthEntry) :
  Notions.well_formed (GroundTruthStore.stored_of entry).
Proof.
  unfold Notions.well_formed, Spec.malformed. simpl. intuition discriminate.
Qed.

Lemma default_ground_truth_well_formed :
  Forall Notions.well_formed GroundTruthStore.DEFAULT_GROUND_TRUTH.
Proof.
  unfold GroundTruthStore.DEFAULT_GROUND_TRUTH.
  repeat constructor; unfold Notions.well_formed, Spec.malformed; simpl;
    intuition discriminate.
Qed.

Lemma reachable_from_defaults (added : list GroundTruthStore.GroundTruthEntry) :
  GroundTruthStore.reachable
    (Some (GroundTruthStore.DEFAULT_GROUND_TRUTH
           ++ map GroundTruthStore.stored_of added)%list).
Proof.
  induction added as [|entry added IH] using rev_ind.
  - cbn [map]. rewrite app_nil_r.
    change (Some GroundTruthStore.DEFAULT_GROUND_TRUTH)
      with (fst (GroundTruthStore.get_ground_truth_data None)).
    apply GroundTruthStore.reachable_get, GroundTruthStore.reachable_start.
  - apply (GroundTruthStore.reachable_add entry) in IH.
    rewrite add_ground_truth_entry_file in IH. cbn [Notions.content] in IH.
    rewrite map_app, app_assoc. exact IH.
Qed.

Lemma reachable_from_nothing (added : list GroundTruthStore.GroundTruthEntry) :
  added <> [] ->
  GroundTruthStore.reachable (Some (map GroundTruthStore.stored_of added)).
Proof.
  induction added as [|entry added IH] using rev_ind; [contradiction|]. intros _.
  rewrite map_app. cbn [map]. destruct added as [|e0 added].
  - pose proof (GroundTruthStore.reachable_add entry None
                  GroundTruthStore.reachable_start) as H.
    rewrite add_ground_truth_entry_file in H. exact H.
  - assert (H : GroundTruthStore.reachable
                  (Some (map GroundTruthStore.stored_of (e0 :: added))))
      by (apply IH; discriminate).
    apply (GroundTruthStore.reachable_add entry) in H.
    rewrite add_ground_truth_entry_file in H. exact H.
Qed.

(** X22.  Starting without a file, the two endpoints only ever produce a
    file that holds the five default entries followed by added entries,
    or added entries alone (at least one), and every such file is
    produced by some sequence of calls.  Hence a file that exists is
    never empty and never holds a record that lacks one of the four
    fields the batch evaluator reads. *)
Theorem ground_truth_file_invariant (file : GroundTruthStore.File) :
  (GroundTruthStore.reachable file
   <-> file = None
       \/ exists added,
            file = Some (GroundTruthStore.DEFAULT_GROUND_TRUTH
                         ++ map GroundTruthStore.stored_of added)%list
            \/ (added <> [] /\ file = Some (map GroundTruthStore.stored_of added)))
  /\ (GroundTruthStore.reachable file ->
      forall data, file = Some data ->
                   data <> [] /\ Forall Notions.well_formed data).
Proof.
  assert (Hshape : GroundTruthStore.reachable file ->
                   file = None
                   \/ exists added,
                        file = Some (GroundTruthStore.DEFAULT_GROUND_TRUTH
                                     ++ map GroundTruthStore.stored_of added)%list
                        \/ (added <> []
                            /\ file = Some (map GroundTruthStore.stored_of added))).
  { induction 1 as [|file0 H IH|entry file0 H IH].
    - left. reflexivity.
    - rewrite get_ground_truth_data_file. destruct IH as [->|[added IH]].
      + right. exists []. left. cbn [map]. rewrite app_nil_r. reflexivity.
      + right. exists added.
        destruct IH as [->|[Hne ->]]; [left; reflexivity|right; split; [exact Hne|reflexivity]].
    - rewrite add_ground_truth_entry_file. right.
      destruct IH as [->|[added [->|[Hne ->]]]].
      + exists [entry]. right. split; [discriminate|reflexivity].
      + exists (added ++ [entry])%list. left. cbn [Notions.content].
        rewrite map_app, app_assoc. reflexivity.
      + exists (added ++ [entry])%list. right.
        split; [intros E; apply app_eq_nil in E; destruct E; discriminate|].
        cbn [Notions.content]. rewrite map_app. reflexivity. }
  split; [split; [exact Hshape|]|].
  - intros [->|[added [->|[Hne ->]]]].
    + apply GroundTruthStore.reachable_start.
    + apply reachable_from_defaults.
    + apply reachable_from_nothing, Hne.
  - intros Hr data Hdata. apply Hshape in Hr. rewrite Hdata in Hr.
    destruct Hr as [Hr|[added [Hr|[Hne Hr]]]]; [discriminate| |].
    + assert (E : data = (GroundTruthStore.DEFAULT_GROUND_TRUTH
                          ++ map GroundTruthStore.stored_of added)%list) by congruence.
      rewrite E. clear E Hr. split.
      * intros E. apply app_eq_nil in E. destruct E as [E _]. discriminate E.
      * apply Forall_app. split; [apply default_ground_truth_well_formed|].
        apply Forall_forall. intros x Hx. apply in_map_iff in Hx.
        destruct Hx as [e [<- _]]. apply stored_of_well_formed.
    + assert (E : data = map GroundTruthStore.stored_of added) by congruence.
      rewrite E. clear E Hr. split.
      * intros E. apply map_eq_nil in E. contradiction.
      * apply Forall_forall. intros x Hx. apply in_map_iff in Hx.
        destruct Hx as [e [<- _]]. apply stored_of_well_formed.
Qed.


Lemma ground_truth_file_invariant_witness :
  let entry :=
    {| GroundTruthStore.question := "What is RAG?";
       GroundTruthStore.contexts := ["RAG is retrieval augmented generation."];
       GroundTruthStore.answer := "Retrieval augmented generation.";
       GroundTruthStore.ground_truth := "Retrieval augmented generation";
       GroundTruthStore.entry_source := "manual" |} in
  let file :=
    fst (GroundTruthStore.add_ground_truth_entry entry
           (fst (GroundTruthStore.get_ground_truth_data None))) in
  GroundTruthStore.reachable file
  /\ List.length (Notions.content file) = 6%nat
  /\ Forall Notions.well_formed (Notions.content file).
Proof.
  intros entry file.
  assert (Hr : GroundTruthStore.reachable file).
  { apply GroundTruthStore.reachable_add, GroundTruthStore.reachable_get,
      GroundTruthStore.reachable_start. }
  split; [exact Hr|]. split; [reflexivity|].
  exact (proj2 (proj2 (ground_truth_file_invariant file) Hr (Notions.content file)
                  eq_refl)).
Defined.

(** ** The test report *)

Lemma filter_disjoint_length {A : Type} (p q : A -> bool) (l : list A) :
  (forall x, p x = true -> q x = false) ->
  (List.length (filter p l) + List.length (filter q l) <= List.length l)%nat.
Proof.
  intros H. induction l as [|x l IH]; [simpl; lia|]. cbn [filter].
  destruct (p x) eqn:Ep.
  - rewrite (H x Ep). cbn [List.length]. lia.
  - destruct (q x); cbn [List.length]; lia.
Qed.

Lemma passed_not_failed (r : Report.TestResult) :
  Report.has_status "passed" r = true -> Report.has_status "failed" r = false.
Proof.
  unfold Report.has_status. intros H. apply String.eqb_eq in H. rewrite H. reflexivity.
Qed.

Lemma rate_at_least_90 (p t : nat) :
  (0 < t)%nat ->
  (90 <= inject_Z (Z.of_nat p) / inject_Z (Z.of_nat t) * 100)%Q
  <-> (9 * t <= 10 * p)%nat.
Proof.
  intros Ht.
  assert (HT : (0 < inject_Z (Z.of_nat t))%Q) by (apply inject_nat_pos; lia).
  assert (Hx : (inject_Z (Z.of_nat p) / inject_Z (Z.of_nat t) * inject_Z (Z.of_nat t)
                == inject_Z (Z.of_nat p))%Q).
  { field. intros E. rewrite E in HT. apply (Qlt_irrefl 0 HT). }
  assert (Hz : (90 * inject_Z (Z.of_nat t) <= 100 * inject_Z (Z.of_nat p))%Q
               <-> (9 * t <= 10 * p)%nat).
  { change 90%Q with (inject_Z 90). change 100%Q with (inject_Z 100).
    rewrite <- !inject_Z_mult, <- Zle_Qle. lia. }
  rewrite <- Hz. clear Hz.
  generalize dependent (inject_Z (Z.of_nat p) / inject_Z (Z.of_nat t))%Q. intros x Hx.
  generalize dependent (inject_Z (Z.of_nat p)). intros P Hx.
  generalize dependent (inject_Z (Z.of_nat t)). intros T HT Hx.
  split; intros H; nra.
Qed.

Lemma summary_verdict (test_results : list Report.TestResult) (total_time : Q) :
  let s := Report.summary (Report.generate_test_report test_results total_time) in
  Report.total_tests s = List.length test_results
  /\ (Report.passed_tests s + Report.failed_tests s <= Report.total_tests s)%nat
  /\ (0 <= Report.success_rate s <= 100)%Q
  /\ (Report.verdict s = "success"
      <-> test_results <> []
          /\ Report.failed_tests s = 0%nat
          /\ (9 * Report.total_tests s <= 10 * Report.passed_tests s)%nat)
  /\ (Report.verdict s <> "success" -> Report.verdict s = "needs_attention").
Proof.
  intros s. unfold s, Report.generate_test_report.
  cbn [Report.summary Report.total_tests Report.passed_tests Report.failed_tests
       Report.success_rate Report.verdict].
  set (passed := List.length (filter (Report.has_status "passed") test_results)).
  set (failed := List.length (filter (Report.has_status "failed") test_results)).
  set (total := List.length test_results).
  assert (Hpf : (passed + failed <= total)%nat).
  { apply filter_disjoint_length. apply passed_not_failed. }
  split; [reflexivity|]. split; [exact Hpf|].
  destruct (0 <? total)%nat eqn:Et.
  - apply Nat.ltb_lt in Et.
    assert (Hne : test_results <> []).
    { intros E. unfold total in Et. rewrite E in Et. simpl in Et. lia. }
    pose proof (rate_at_least_90 passed total Et) as H90.
    assert (Hr : (0 <= inject_Z (Z.of_nat passed) / inject_Z (Z.of_nat total) <= 1)%Q).
    { apply ratio_bounds.
      - change 0%Q with (inject_Z 0). rewrite <- Zle_Qle. lia.
      - apply inject_nat_le. lia.
      - apply inject_nat_pos. lia. }
    set (x := (inject_Z (Z.of_nat passed) / inject_Z (Z.of_nat total))%Q) in *.
    split; [split; lra|].
    destruct (Qle_bool 90 (x * 100)) eqn:Eq.
    + apply Qle_bool_iff in Eq. apply H90 in Eq.
      destruct (failed =? 0)%nat eqn:Ef; cbn [andb].
      * apply Nat.eqb_eq in Ef. split; [|intros H; contradiction].
        split; [tauto|]. intros _. tauto.
      * apply Nat.eqb_neq in Ef. split; [|reflexivity].
        split; [discriminate|]. intros [_ [H _]]. contradiction.
    + assert (Hn : ~ (9 * total <= 10 * passed)%nat).
      { intros H. apply H90 in H. apply Qle_bool_iff in H. congruence. }
      rewrite andb_false_r. split; [|reflexivity].
      split; [discriminate|]. intros [_ [_ H]]. contradiction.
  - apply Nat.ltb_ge in Et.
    assert (E : test_results = []).
    { destruct test_results; [reflexivity|]. unfold total in Et. simpl in Et. lia. }
    split; [split; discriminate|].
    rewrite andb_false_r. split; [|reflexivity].
    split; [discriminate|]. intros [H _]. contradiction.
Qed.

(** X23.  In the report of [generate_test_report], the passed and the
    failed tests together never exceed the total, the success rate lies
    between 0 and 100, and the verdict is ["success"] exactly when there
    is at least one test, none failed and at least nine in ten passed;
    otherwise it is ["needs_attention"].  So a run without any test, or
    with more than a tenth of its tests skipped, needs attention. *)
Theorem report_verdict (test_results : list Report.TestResult) (total_time : Q) :
  let s := Report.summary (Report.generate_test_report test_results total_time) in
  Report.total_tests s = List.length test_results
  /\ (Report.passed_tests s + Report.failed_tests s <= Report.total_tests s)%nat
  /\ (0 <= Report.success_rate s <= 100)%Q
  /\ (Report.verdict s = "success"
      <-> test_results <> []
          /\ Report.failed_tests s = 0%nat
          /\ (9 * Report.total_tests s <= 10 * Report.passed_tests s)%nat)
  /\ (Report.verdict s <> "success" -> Report.verdict s = "needs_attention").
Proof.
  exact (summary_verdict test_results total_time).
Qed.

Lemma report_verdict_witness :
  let skipped :=
    {| Report.name := "search latency"; Report.category := "performance";
       Report.status := "skipped"; Report.duration_ms := 0%Q;
       Report.score := None; Report.threshold := None;
       Report.error := None; Report.benchmark_met := None |} in
  Report.verdict (Report.summary (Report.generate_test_report [skipped] 1%Q))
  = "needs_attention".
Proof.
  intros skipped.
  destruct (report_verdict [skipped] 1%Q) as [_ [_ [_ [_ H]]]].
  apply H. discriminate.
Defined.

Lemma add_to_category_keys (categories : list (string * list Report.TestResult))
    (r : Report.TestResult) (c : string) :
  In c (map fst (Report.add_to_category categories r))
  <-> c = Report.category r \/ In c (map fst categories).
Proof.
  induction categories as [|[c0 rs] rest IH]; cbn [Report.add_to_category].
  - simpl. intuition.
  - destruct (String.eqb_spec (Report.category r) c0) as [E|E]; cbn [map fst In].
    + subst c0. intuition.
    + rewrite IH. intuition.
Qed.

Lemma add_to_category_NoDup (categories : list (string * list Report.TestResult))
    (r : Report.TestResult) :
  NoDup (map fst categories) -> NoDup (map fst (Report.add_to_category categories r)).
Proof.
  induction categories as [|[c0 rs] rest IH]; cbn [Report.add_to_category]; intros H.
  - simpl. constructor; [intros []|constructor].
  - destruct (String.eqb_spec (Report.category r) c0) as [E|E]; cbn [map fst] in *.
    + exact H.
    + inversion H as [|? ? Hnin Hnd]; subst. constructor; [|apply IH, Hnd].
      rewrite add_to_category_keys. intros [E'|Hin]; [congruence|contradiction].
Qed.

Lemma add_to_category_group (categories : list (string * list Report.TestResult))
    (r : Report.TestResult) (c : string) :
  Notions.group_of (Report.add_to_category categories r) c
  = if Notions.in_category c r
    then (Notions.group_of categories c ++ [r])%list
    else Notions.group_of categories c.
Proof.
  unfold Notions.in_category.
  induction categories as [|[c0 rs] rest IH]; cbn [Report.add_to_category].
  - cbn [Notions.group_of]. rewrite (String.eqb_sym c (Report.category r)).
    destruct (String.eqb (Report.category r) c); reflexivity.
  - destruct (String.eqb_spec (Report.category r) c0) as [E|E]; cbn [Notions.group_of].
    + subst c0. rewrite (String.eqb_sym c (Report.category r)).
      destruct (String.eqb (Report.category r) c); reflexivity.
    + rewrite IH. destruct (String.eqb_spec c c0) as [E'|E']; [|reflexivity].
      subst c0. destruct (String.eqb_spec (Report.category r) c); [contradiction|].
      reflexivity.
Qed.

Lemma add_to_category_size (categories : list (string * list Report.TestResult))
    (r : Report.TestResult) :
  list_sum (map (fun entry => List.length (snd entry))
              (Report.add_to_category categories r))
  = S (list_sum (map (fun entry => List.length (snd entry)) categories)).
Proof.
  unfold list_sum.
  induction categories as [|[c0 rs] rest IH]; cbn [Report.add_to_category].
  - reflexivity.
  - destruct (String.eqb (Report.category r) c0); cbn [map fold_right snd].
    + rewrite length_app. simpl. lia.
    + rewrite IH. lia.
Qed.

Lemma group_by_category_fold (test_results : list Report.TestResult) :
  forall categories,
    NoDup (map fst categories) ->
    let grouped := fold_left Report.add_to_category test_results categories in
    NoDup (map fst grouped)
    /\ (forall c, In c (map fst grouped)
                  <-> In c (map fst categories)
                      \/ exists r, In r test_results /\ Report.category r = c)
    /\ (forall c, Notions.group_of grouped c
                  = (Notions.group_of categories c
                     ++ filter (Notions.in_category c) test_results)%list)
    /\ list_sum (map (fun entry => List.length (snd entry)) grouped)
       = (list_sum (map (fun entry => List.length (snd entry)) categories)
          + List.length test_results)%nat.
Proof.
  induction test_results as [|r l IH]; intros categories Hnd; cbn [fold_left].
  - split; [exact Hnd|]. split.
    + intros c. split; [tauto|]. intros [H|[r [[] _]]]. exact H.
    + split; [intros c; cbn [filter]; rewrite app_nil_r; reflexivity|].
      simpl. lia.
  - destruct (IH (Report.add_to_category categories r)
                (add_to_category_NoDup categories r Hnd)) as [H1 [H2 [H3 H4]]].
    split; [exact H1|]. split.
    + intros c. rewrite H2, add_to_category_keys. split.
      * intros [[E|H]|[r' [Hr' E]]].
        -- right. exists r. split; [left; reflexivity|symmetry; exact E].
        -- left. exact H.
        -- right. exists r'. split; [right; exact Hr'|exact E].
      * intros [H|[r' [[Hr'|Hr'] E]]].
        -- left. right. exact H.
        -- subst r'. left. left. symmetry. exact E.
        -- right. exists r'. split; assumption.
    + split.
      * intros c. rewrite H3, add_to_category_group. cbn [filter].
        destruct (Notions.in_category c r); [|reflexivity].
        rewrite <- app_assoc. reflexivity.
      * rewrite H4, add_to_category_size. simpl. lia.
Qed.

Lemma group_of_In (categories : list (string * list Report.TestResult)) (c : string)
    (rs : list Report.TestResult) :
  NoDup (map fst categories) -> In (c, rs) categories ->
  Notions.group_of categories c = rs.
Proof.
  induction categories as [|[c0 rs0] rest IH]; intros Hnd Hin; [destruct Hin|].
  cbn [Notions.group_of]. cbn [map fst] in Hnd.
  inversion Hnd as [|? ? Hnin Hnd']; subst.
  destruct Hin as [Hin|Hin].
  - inversion Hin; subst. rewrite String.eqb_refl. reflexivity.
  - destruct (String.eqb_spec c c0) as [E|E]; [|apply IH; assumption].
    subst c0. exfalso. apply Hnin. apply in_map_iff. exists (c, rs). split; [reflexivity|exact Hin].
Qed.

(** X24.  The categories of the report partition the test results: every
    category of a result occurs exactly once among the keys and no other
    key occurs; the entry of a category counts the results of that
    category, those of them that passed and those that failed, so its
    total is positive and covers passed and failed together; and the
    totals of all categories add up to the total number of tests. *)
Theorem report_categories_partition (test_results : list Report.TestResult)
    (total_time : Q) :
  let report := Report.generate_test_report test_results total_time in
  NoDup (map fst (Report.categories report))
  /\ (forall c, In c (map fst (Report.categories report))
                <-> exists r, In r test_results /\ Report.category r = c)
  /\ (forall c s,
         In (c, s) (Report.categories report) ->
         let members := filter (Notions.in_category c) test_results in
         Report.cat_total s = List.length members
         /\ Report.cat_passed s = List.length (filter (Report.has_status "passed") members)
         /\ Report.cat_failed s = List.length (filter (Report.has_status "failed") members)
         /\ (0 < Report.cat_total s)%nat
         /\ (Report.cat_passed s + Report.cat_failed s <= Report.cat_total s)%nat)
  /\ list_sum (map (fun entry => Report.cat_total (snd entry)) (Report.categories report))
     = Report.total_tests (Report.summary report).
Proof.
  intros report. unfold report, Report.generate_test_report.
  cbn [Report.categories Report.summary Report.total_tests].
  destruct (group_by_category_fold test_results [] (NoDup_nil _)) as [H1 [H2 [H3 H4]]].
  fold (Report.group_by_category test_results) in H1, H2, H3, H4.
  set (grouped := Report.group_by_category test_results) in *.
  rewrite !map_map. cbn [fst snd Report.cat_total].
  split; [exact H1|]. split.
  - intros c. rewrite H2. simpl. tauto.
  - split.
    + intros c s Hin.
      set (members := filter (Notions.in_category c) test_results).
      apply in_map_iff in Hin.
      destruct Hin as [[c0 rs] [Heq Hin]]. cbn [fst snd] in Heq.
      inversion Heq; subst c0 s. clear Heq.
      cbn [Report.cat_total Report.cat_passed Report.cat_failed].
      pose proof (group_of_In grouped c rs H1 Hin) as Hg.
      rewrite H3 in Hg. cbn [Notions.group_of app] in Hg. fold members in Hg.
      subst rs. split; [reflexivity|]. split; [reflexivity|]. split; [reflexivity|].
      split.
      * assert (Hkey : In c (map fst grouped)).
        { apply in_map_iff. exists (c, members). split; [reflexivity|exact Hin]. }
        apply H2 in Hkey. destruct Hkey as [[]|[r [Hr Ec]]].
        assert (Hm : In r members).
        { unfold members. apply filter_In. split; [exact Hr|].
          unfold Notions.in_category. rewrite Ec. apply String.eqb_refl. }
        destruct members; [destruct Hm|simpl; lia].
      * apply filter_disjoint_length. apply passed_not_failed.
    + rewrite H4. reflexivity.
Qed.

Lemma report_categories_partition_witness :
  let result := fun name category status =>
    {| Report.name := name; Report.category := category; Report.status := status;
       Report.duration_ms := 10%Q; Report.score := None; Report.threshold := None;
       Report.error := None; Report.benchmark_met := None |} in
  let test_results :=
    [ result "qdrant" "service_health" "passed";
      result "embedding" "embeddings" "failed";
      result "mclip" "service_health" "failed" ] in
  let s := {| Report.cat_total := 2; Report.cat_passed := 1; Report.cat_failed := 1 |} in
  In ("service_health", s)
    (Report.categories (Report.generate_test_report test_results 1%Q))
  /\ Report.cat_total s
     = List.length (filter (Notions.in_category "service_health") test_results)
  /\ (0 < Report.cat_total s)%nat.
Proof.
  intros result test_results s.
  assert (Hin : In ("service_health", s)
                  (Report.categories (Report.generate_test_report test_results 1%Q)))
    by (left; reflexivity).
  destruct (report_categories_partition test_results 1%Q) as [_ [_ [H _]]].
  destruct (H "service_health" s Hin) as [Ht [_ [_ [Hpos _]]]].
  split; [exact Hin|]. split; [exact Ht|exact Hpos].
Defined.

Lemma service_health_failed (test_results : list Report.TestResult) :
  filter (Report.has_status "failed") test_results = [] ->
  filter (fun r => String.eqb (Report.category r) "service_health"
                   && Report.has_status "failed" r) test_results = [].
Proof.
  induction test_results as [|r l IH]; cbn [filter]; [reflexivity|].
  destruct (Report.has_status "failed" r); [discriminate|].
  rewrite andb_false_r. exact IH.
Qed.

Lemma recommendations_cases (test_results : list Report.TestResult) :
  (Notions.clean test_results ->
   Report.get_recommendations test_results = [Notions.all_passing])
  /\ (~ Notions.clean test_results ->
      Report.get_recommendations test_results <> []
      /\ ~ In Notions.all_passing (Report.get_recommendations test_results)).
Proof.
  unfold Notions.clean, Report.get_recommendations.
  pose proof (service_health_failed test_results) as Hsh.
  set (f := filter (Report.has_status "failed") test_results) in *.
  set (sl := filter Report.benchmark_missed test_results) in *.
  set (q := filter Report.quality_issue test_results) in *.
  set (sh := filter (fun r => String.eqb (Report.category r) "service_health"
                              && Report.has_status "failed" r) test_results) in *.
  clearbody f sl q sh.
  destruct f as [|f0 f]; destruct sl as [|s0 sl]; destruct q as [|q0 q];
    destruct sh as [|h0 sh]; cbn [nonempty negb app];
    try (specialize (Hsh eq_refl); discriminate Hsh);
    (split;
     [ intros [H1 [H2 H3]]; try discriminate; reflexivity
     | intros Hn;
       first
         [ exfalso; apply Hn; repeat split; reflexivity
         | split; [discriminate|];
           unfold Notions.all_passing; cbn [In append];
           intros Hin; repeat (destruct Hin as [Hin|Hin]; [discriminate Hin|]);
           exact Hin ] ]).
Qed.

Lemma clean_dec (test_results : list Report.TestResult) :
  Notions.clean test_results \/ ~ Notions.clean test_results.
Proof.
  unfold Notions.clean.
  destruct (filter (Report.has_status "failed") test_results);
    [|right; intros [H _]; discriminate].
  destruct (filter Report.benchmark_missed test_results);
    [|right; intros [_ [H _]]; discriminate].
  destruct (filter Report.quality_issue test_results);
    [|right; intros [_ [_ H]]; discriminate].
  left. repeat split.
Qed.

(** X25.  [get_recommendations] never returns an empty list.  It returns
    the single recommendation that all tests pass and Phase 2 is ready for
    production exactly when no test failed, no benchmark was missed and no
    score lies below its threshold, and otherwise that recommendation is
    absent.  It does not look at how many tests passed: for a run without
    findings that is empty, or in which fewer than nine in ten tests
    passed, the report gives the verdict ["needs_attention"] together with
    that recommendation. *)
Theorem recommendations_and_verdict (test_results : list Report.TestResult)
    (total_time : Q) :
  let report := Report.generate_test_report test_results total_time in
  Report.recommendations report = Report.get_recommendations test_results
  /\ Report.recommendations report <> []
  /\ (Report.recommendations report = [Notions.all_passing]
      <-> Notions.clean test_results)
  /\ (~ Notions.clean test_results ->
      ~ In Notions.all_passing (Report.recommendations report))
  /\ (Notions.clean test_results ->
      (10 * Report.passed_tests (Report.summary report)
       < 9 * Report.total_tests (Report.summary report))%nat
      \/ test_results = [] ->
      Report.verdict (Report.summary report) = "needs_attention"
      /\ Report.recommendations report = [Notions.all_passing]).
Proof.
  intros report.
  assert (Hrec : Report.recommendations report = Report.get_recommendations test_results)
    by reflexivity.
  destruct (recommendations_cases test_results) as [Hclean Hdirty].
  split; [exact Hrec|]. rewrite Hrec.
  split.
  { destruct (clean_dec test_results) as [H|H].
    - rewrite (Hclean H). discriminate.
    - apply (Hdirty H). }
  split.
  { split; [|exact Hclean]. intros E.
    destruct (clean_dec test_results) as [H|H]; [exact H|].
    exfalso. apply (proj2 (Hdirty H)). rewrite E. left. reflexivity. }
  split; [intros H; apply (Hdirty H)|].
  intros H Hfew. split; [|exact (Hclean H)].
  destruct (summary_verdict test_results total_time) as [_ [_ [_ [Hiff Hneed]]]].
  fold report in Hiff, Hneed. apply Hneed. intros Hs. apply Hiff in Hs.
  destruct Hs as [Hne [_ Hmost]]. destruct Hfew as [Hfew|Hfew]; [lia|contradiction].
Qed.

Lemma recommendations_and_verdict_witness :
  let skipped :=
    {| Report.name := "search latency"; Report.category := "performance";
       Report.status := "skipped"; Report.duration_ms := 0%Q;
       Report.score := Some 0%Q; Report.threshold := Some (7 # 10)%Q;
       Report.error := None; Report.benchmark_met := None |} in
  let report := Report.generate_test_report [skipped] 1%Q in
  Report.verdict (Report.summary report) = "needs_attention"
  /\ Report.recommendations report = [Notions.all_passing].
Proof.
  intros skipped report.
  destruct (recommendations_and_verdict [skipped] 1%Q) as [_ [_ [_ [_ H]]]].
  apply H.
  - repeat split.
  - left. simpl. lia.
Defined.

(** ** Ranking quality and result diversity *)








Lemma Qmin_one_iff (a : Q) : (Qmin a 1 == 1 <-> 1 <= a)%Q.
Proof.
  split.
  - intros E. destruct (Q.min_spec a 1) as [[Hlt Hm]|[Hle Hm]]; rewrite Hm in E; lra.
  - intros H. apply Q.min_r. exact H.
Qed.

Lemma share_at_least (n k : nat) :
  (0 < k)%nat ->
  (1 <= inject_Z (Z.of_nat n) / inject_Z (Z.of_nat k))%Q <-> (k <= n)%nat.
Proof.
  intros Hk.
  assert (Hpos : (0 < inject_Z (Z.of_nat k))%Q) by (apply inject_nat_pos; lia).
  split.
  - intros H. apply (Qmult_le_compat_r _ _ (inject_Z (Z.of_nat k))) in H; [|lra].
    assert (E : (inject_Z (Z.of_nat n) / inject_Z (Z.of_nat k) * inject_Z (Z.of_nat k)
                 == inject_Z (Z.of_nat n))%Q).
    { field. intros E0. rewrite E0 in Hpos. apply (Qlt_irrefl 0 Hpos). }
    rewrite E, Qmult_1_l in H. rewrite <- Zle_Qle in H. lia.
  - intros H. apply Qle_shift_div_l; [exact Hpos|]. rewrite Qmult_1_l.
    apply inject_nat_le. exact H.
Qed.

Lemma set_of_full (l : list string) :
  List.length (set_of string_dec l) = List.length l <-> NoDup l.
Proof.
  split; [apply nodup_length_NoDup|].
  intros H. unfold set_of. rewrite nodup_fixed_point; [reflexivity|exact H].
Qed.

(** X27.  [evaluate_result_diversity] is 1 for fewer than two results.
    For two or more results it lies in (0, 1], and it is 1 exactly when
    the document ids are pairwise distinct, at least three content types
    and at least five page numbers occur; so with two to four results it
    stays below 1. *)
Theorem result_diversity_full (search_results : list Multimodal.SearchResult) :
  ((List.length search_results < 2)%nat ->
   Multimodal.evaluate_result_diversity search_results = 1%Q)
  /\ ((2 <= List.length search_results)%nat ->
      let v := Multimodal.evaluate_result_diversity search_results in
      (0 < v <= 1)%Q
      /\ ((v == 1)%Q
          <-> NoDup (Notions.doc_ids search_results)
              /\ (3 <= List.length (set_of string_dec (Notions.content_types search_results)))%nat
              /\ (5 <= List.length (set_of Z.eq_dec (Notions.page_numbers search_results)))%nat)
      /\ ((List.length search_results < 5)%nat -> (v < 1)%Q)).
Proof.
  unfold Multimodal.evaluate_result_diversity. split.
  - intros H. apply Nat.ltb_lt in H. rewrite H. reflexivity.
  - intros Hlen. assert (E : (List.length search_results <? 2)%nat = false)
      by (apply Nat.ltb_ge; exact Hlen).
    rewrite E. cbv zeta.
    fold (Notions.doc_ids search_results). fold (Notions.content_types search_results).
    fold (Notions.page_numbers search_results).
    assert (Hne : search_results <> []).
    { intros E0. subst. simpl in Hlen. lia. }
    assert (Hdl : List.length (Notions.doc_ids search_results) = List.length search_results)
      by apply length_map.
    assert (Htl : List.length (Notions.content_types search_results)
                  = List.length search_results) by apply length_map.
    assert (Hpl : List.length (Notions.page_numbers search_results)
                  = List.length search_results) by apply length_map.
    set (docs := set_of string_dec (Notions.doc_ids search_results)) in *.
    set (types := set_of string_dec (Notions.content_types search_results)) in *.
    set (pages := set_of Z.eq_dec (Notions.page_numbers search_results)) in *.
    pose proof (set_of_length string_dec (Notions.doc_ids search_results)) as Hd1.
    pose proof (set_of_length Z.eq_dec (Notions.page_numbers search_results)) as Hp1.
    fold docs in Hd1. fold pages in Hp1.
    assert (Hdocs : docs <> []).
    { unfold docs. rewrite set_of_nil. intros E0. apply map_eq_nil in E0. contradiction. }
    assert (Htypes : types <> []).
    { unfold types. rewrite set_of_nil. intros E0. apply map_eq_nil in E0. contradiction. }
    assert (Hpages : pages <> []).
    { unfold pages. rewrite set_of_nil. intros E0. apply map_eq_nil in E0. contradiction. }
    pose proof (len_pos search_results Hne) as Hn.
    assert (Ha : (0 < len docs / len search_results <= 1)%Q).
    { split.
      - apply Qlt_shift_div_l; [exact Hn|]. rewrite Qmult_0_l. apply len_pos, Hdocs.
      - apply ratio_bounds; [apply len_nonneg|apply len_le; lia|exact Hn]. }
    assert (Ha1 : (len docs / len search_results == 1)%Q
                  <-> NoDup (Notions.doc_ids search_results)).
    { rewrite <- set_of_full. fold docs. rewrite Hdl. split.
      - intros E1. apply ratio_one in E1; [|exact Hn].
        unfold len, Qeq in E1. simpl in E1. lia.
      - intros E1. unfold len. rewrite E1. apply ratio_self. exact Hn. }
    assert (Hb : (0 < Qmin (len types / 3) 1 <= 1)%Q).
    { split; [|apply Q.le_min_r]. apply Q.min_glb_lt; [|reflexivity].
      apply Qlt_shift_div_l; [reflexivity|]. rewrite Qmult_0_l. apply len_pos, Htypes. }
    assert (Hb1 : (Qmin (len types / 3) 1 == 1)%Q <-> (3 <= List.length types)%nat).
    { rewrite Qmin_one_iff. apply (share_at_least (List.length types) 3). lia. }
    assert (Hc : (0 < Qmin (len pages / 5) 1 <= 1)%Q).
    { split; [|apply Q.le_min_r]. apply Q.min_glb_lt; [|reflexivity].
      apply Qlt_shift_div_l; [reflexivity|]. rewrite Qmult_0_l. apply len_pos, Hpages. }
    assert (Hc1 : (Qmin (len pages / 5) 1 == 1)%Q <-> (5 <= List.length pages)%nat).
    { rewrite Qmin_one_iff. apply (share_at_least (List.length pages) 5). lia. }
    set (a := (len docs / len search_results)%Q) in *.
    set (b := Qmin (len types / 3) 1) in *.
    set (c := Qmin (len pages / 5) 1) in *.
    clearbody a b c.
    assert (Hall : ((a + b + c) / 3 == 1 <-> a == 1 /\ b == 1 /\ c == 1)%Q).
    { split.
      - intros E1. assert (E2 : (a + b + c == 3)%Q).
        { rewrite <- (Qmult_1_l 3), <- E1. field. }
        repeat split; lra.
      - intros [E1 [E2 E3]]. rewrite E1, E2, E3. reflexivity. }
    split; [|split].
    + split.
      * apply Qlt_shift_div_l; [reflexivity|]. lra.
      * apply Qle_shift_div_r; [reflexivity|]. lra.
    + rewrite Hall, Ha1, Hb1, Hc1. reflexivity.
    + intros Hfew. destruct Hc as [Hc0 Hc].
      assert (Hcl : (c < 1)%Q).
      { apply Qle_lteq in Hc. destruct Hc as [Hc|Hc]; [exact Hc|].
        apply Hc1 in Hc. lia. }
      apply Qlt_shift_div_r; [reflexivity|]. lra.
Qed.

Lemma result_diversity_full_witness :
  let result := fun doc page =>
    {| Multimodal.node_id := None; Multimodal.score := None;
       Multimodal.metadata :=
         Some {| Multimodal.document_id := Some doc;
                 Multimodal.content_type := None;
                 Multimodal.page_number := Some page |} |} in
  (Multimodal.evaluate_result_diversity [result "a" 1%Z; result "b" 2%Z] < 1)%Q.
Proof.
  intros result.
  destruct (result_diversity_full [result "a" 1%Z; result "b" 2%Z]) as [_ H].
  apply H; simpl; lia.
Defined.

(** ** Image relevance and multimodal faithfulness *)

Lemma relevance_loop_raises
    (post_embed_image : string -> result Multimodal.Response)
    (query_embedding : list R) (images : list Multimodal.Image) :
  (exists image path e,
      In image images
      /\ Multimodal.get_truthy (Multimodal.image_path image) = Some path
      /\ post_embed_image path = Raise e) ->
  forall relevance_scores,
  exists e, Multimodal.relevance_loop post_embed_image query_embedding images
              relevance_scores = Raise e.
Proof.
  induction images as [|image0 rest IH]; intros [image [path [e [Hin [Hp He]]]]] acc.
  - destruct Hin.
  - cbn [Multimodal.relevance_loop].
    assert (Hrest : In image rest ->
                    forall acc', exists e',
                      Multimodal.relevance_loop post_embed_image query_embedding rest acc'
                      = Raise e').
    { intros Hr. apply IH. exists image, path, e. tauto. }
    destruct Hin as [Hin|Hin].
    + subst image0. rewrite Hp, He. cbn [bind]. eexists. reflexivity.
    + destruct (Multimodal.get_truthy (Multimodal.image_path image0)) as [p0|];
        [|apply Hrest, Hin].
      destruct (post_embed_image p0) as [response|e0]; cbn [bind];
        [|eexists; reflexivity].
      destruct (Multimodal.status_code response =? 200)%Z; [|apply Hrest, Hin].
      destruct (Multimodal.json_embedding response) as [emb|e1]; cbn [bind];
        [|eexists; reflexivity].
      destruct (Multimodal.cosine_similarity query_embedding emb) as [sim|e2]; cbn [bind];
        [|eexists; reflexivity].
      apply Hrest, Hin.
Qed.

Lemma relevance_loop_skips
    (post_embed_image : string -> result Multimodal.Response)
    (query_embedding : list R) (images : list Multimodal.Image) :
  (forall image path,
      In image images ->
      Multimodal.get_truthy (Multimodal.image_path image) = Some path ->
      exists response, post_embed_image path = Ok response
                       /\ Multimodal.status_code response <> 200%Z) ->
  forall relevance_scores,
    Multimodal.relevance_loop post_embed_image query_embedding images relevance_scores
    = Ok relevance_scores.
Proof.
  induction images as [|image0 rest IH]; intros H acc; [reflexivity|].
  cbn [Multimodal.relevance_loop].
  assert (Hrest : Multimodal.relevance_loop post_embed_image query_embedding rest acc
                  = Ok acc).
  { apply IH. intros image path Hin. apply H. right. exact Hin. }
  destruct (Multimodal.get_truthy (Multimodal.image_path image0)) as [p0|] eqn:Ep;
    [|exact Hrest].
  destruct (H image0 p0 (or_introl eq_refl) Ep) as [response [Hr Hs]].
  rewrite Hr. cbn [bind]. apply Z.eqb_neq in Hs. rewrite Hs. exact Hrest.
Qed.

(** X28.  [evaluate_image_relevance] never raises: it is 0 for no image,
    and 0.5 when the text embedding request raises or is answered with a
    status other than 200.  Once the query embedding is there, an image
    request that raises makes the whole metric fall back to 0.5, whatever
    the other images scored, whereas images without a path or answered
    with a status other than 200 are skipped, and the metric is 0 when all
    are. *)
Theorem image_relevance_fallbacks
    (post_embed_text post_embed_image : string -> result Multimodal.Response)
    (query : string) (images : list Multimodal.Image) :
  let v := Multimodal.evaluate_image_relevance post_embed_text post_embed_image
             query images in
  (images = [] -> v = Multimodal.Num 0%R)
  /\ (images <> [] ->
      match post_embed_text query with
      | Raise _ => True
      | Ok response => Multimodal.status_code response <> 200%Z
      end ->
      v = Multimodal.Num (5 / 10)%R)
  /\ (images <> [] ->
      forall response query_embedding,
        post_embed_text query = Ok response ->
        Multimodal.status_code response = 200%Z ->
        Multimodal.json_embedding response = Ok query_embedding ->
        ((exists image path e,
             In image images
             /\ Multimodal.get_truthy (Multimodal.image_path image) = Some path
             /\ post_embed_image path = Raise e) ->
         v = Multimodal.Num (5 / 10)%R)
        /\ ((forall image path,
                In image images ->
                Multimodal.get_truthy (Multimodal.image_path image) = Some path ->
                exists img_response,
                  post_embed_image path = Ok img_response
                  /\ Multimodal.status_code img_response <> 200%Z) ->
            v = Multimodal.Num 0%R)).
Proof.
  intros v. unfold v, Multimodal.evaluate_image_relevance. split; [|split].
  - intros ->. reflexivity.
  - intros Hne Hdown. apply nonempty_true in Hne. rewrite Hne. cbn [negb].
    unfold Multimodal.image_relevance_try.
    destruct (post_embed_text query) as [response|e]; cbn [bind]; [|reflexivity].
    apply Z.eqb_neq in Hdown. rewrite Hdown. reflexivity.
  - intros Hne response query_embedding Hq Hs Hj.
    apply nonempty_true in Hne. rewrite Hne. cbn [negb].
    unfold Multimodal.image_relevance_try. rewrite Hq. cbn [bind].
    apply Z.eqb_eq in Hs. rewrite Hs. cbn [negb]. rewrite Hj. cbn [bind]. split.
    + intros Hraise.
      destruct (relevance_loop_raises post_embed_image query_embedding images Hraise [])
        as [e He].
      rewrite He. reflexivity.
    + intros Hskip.
      rewrite (relevance_loop_skips post_embed_image query_embedding images Hskip []).
      reflexivity.
Qed.

Lemma image_relevance_fallbacks_witness :
  let ok := fun embedding : list R =>
    {| Multimodal.status_code := 200%Z; Multimodal.json_embedding := Ok embedding |} in
  let image := fun path =>
    {| Multimodal.image_path := Some path; Multimodal.extracted_text := None;
       Multimodal.caption := None |} in
  Multimodal.evaluate_image_relevance
    (fun _ => Ok (ok [1%R; 0%R]))
    (fun path => if String.eqb path "good.png" then Ok (ok [1%R; 0%R])
                 else Raise (RequestException "timeout"))
    "a cat" [image "good.png"; image "slow.png"]
  = Multimodal.Num (5 / 10)%R.
Proof.
  intros ok image.
  pose proof (image_relevance_fallbacks
                (fun _ => Ok (ok [1%R; 0%R]))
                (fun path => if String.eqb path "good.png" then Ok (ok [1%R; 0%R])
                             else Raise (RequestException "timeout"))
                "a cat" [image "good.png"; image "slow.png"]) as [_ [_ H]].
  apply (H ltac:(discriminate) (ok [1%R; 0%R]) [1%R; 0%R] eq_refl eq_refl eq_refl).
  exists (image "slow.png"), "slow.png", (RequestException "timeout").
  split; [right; left; reflexivity|]. split; reflexivity.
Defined.

Lemma all_contexts_app (contexts : list string) (images : list Multimodal.Image) :
  Multimodal.all_contexts contexts images
  = (contexts ++ flat_map Notions.image_texts images)%list.
Proof.
  unfold Multimodal.all_contexts. revert contexts.
  induction images as [|image rest IH]; intros contexts; cbn [fold_left flat_map].
  - rewrite app_nil_r. reflexivity.
  - rewrite IH. unfold Notions.image_texts at 2.
    destruct (Multimodal.get_truthy (Multimodal.extracted_text image));
      destruct (Multimodal.get_truthy (Multimodal.caption image));
      cbn [app]; rewrite <- ?app_assoc; cbn [app]; rewrite ?app_nil_r; reflexivity.
Qed.

Lemma similarities_mismatch (a : list R) (embs : list (list R)) :
  (exists c, In c embs /\ List.length c <> List.length a) ->
  exists e, Multimodal.similarities a embs = Raise e.
Proof.
  induction embs as [|c0 rest IH]; intros [c [Hin Hlen]]; [destruct Hin|].
  cbn [Multimodal.similarities].
  destruct (Multimodal.cosine_similarity a c0) as [sim|e] eqn:Ec; cbn [bind];
    [|eexists; reflexivity].
  destruct Hin as [Hin|Hin].
  - subst c0. unfold Multimodal.cosine_similarity in Ec.
    assert (E : (List.length a =? List.length c)%nat = false)
      by (apply Nat.eqb_neq; congruence).
    rewrite E in Ec. discriminate Ec.
  - destruct IH as [e He]; [exists c; split; assumption|].
    rewrite He. cbn [bind]. eexists. reflexivity.
Qed.

(** X29.  [evaluate_multimodal_faithfulness] never raises.  Its contexts
    are the text contexts followed, image by image, by the non-empty
    extracted text and caption.  Without any context it is 0; with
    contexts but no similarity model it is 0.7; and it falls back to 0.5
    when the model fails to encode the answer or the contexts, returns no
    embedding for the answer or for the contexts, or returns a context
    embedding whose dimension differs from that of the answer. *)
Theorem multimodal_faithfulness_cases
    (similarity_model : option (list string -> result (list (list R))))
    (answer : string) (contexts : list string) (images : list Multimodal.Image) :
  let v := Multimodal.evaluate_multimodal_faithfulness similarity_model answer
             contexts images in
  let all_contexts := Multimodal.all_contexts contexts images in
  all_contexts = (contexts ++ flat_map Notions.image_texts images)%list
  /\ (all_contexts = [] -> v = Multimodal.Num 0%R)
  /\ (all_contexts <> [] -> similarity_model = None -> v = Multimodal.Num (7 / 10)%R)
  /\ (all_contexts <> [] ->
      forall encode,
        similarity_model = Some encode ->
        ((exists e, encode [answer] = Raise e)
         \/ (exists e, encode all_contexts = Raise e)
         \/ encode [answer] = Ok [] ->
         v = Multimodal.Num (5 / 10)%R)
        /\ (forall a others embs,
               encode [answer] = Ok (a :: others) ->
               encode all_contexts = Ok embs ->
               embs = [] \/ (exists c, In c embs /\ List.length c <> List.length a) ->
               v = Multimodal.Num (5 / 10)%R)).
Proof.
  intros v all_contexts. split; [apply all_contexts_app|].
  unfold v, Multimodal.evaluate_multimodal_faithfulness. fold all_contexts.
  split; [intros ->; reflexivity|]. split.
  - intros Hne ->. apply nonempty_true in Hne. rewrite Hne. reflexivity.
  - intros Hne encode ->. apply nonempty_true in Hne. rewrite Hne. cbn [negb]. split.
    + intros [[e He]|[[e He]|He]].
      * rewrite He. reflexivity.
      * destruct (encode [answer]) as [emb|e0]; cbn [bind]; [|reflexivity].
        rewrite He. reflexivity.
      * rewrite He. cbn [bind].
        destruct (encode all_contexts) as [embs|e0]; reflexivity.
    + intros a others embs Ha He Hbad.
      rewrite Ha. cbn [bind]. rewrite He. cbn [bind].
      destruct Hbad as [->|Hbad]; [reflexivity|].
      destruct (similarities_mismatch a embs Hbad) as [e Hs].
      rewrite Hs. reflexivity.
Qed.

Lemma multimodal_faithfulness_cases_witness :
  Multimodal.evaluate_multimodal_faithfulness None "The chart shows growth"
    ["Revenue grew in 2023."]
    [ {| Multimodal.image_path := Some "chart.png";
         Multimodal.extracted_text := Some "Revenue 2023";
         Multimodal.caption := None |} ]
  = Multimodal.Num (7 / 10)%R.
Proof.
  apply multimodal_faithfulness_cases; [discriminate|reflexivity].
Defined.

(** ** Faithfulness and context utilization *)

Lemma faithfulness_no_word (contexts : list string) (answer : string) :
  Spec.tokens answer = [] -> SimpleRAGAS.calculate_faithfulness contexts answer = 0%Q.
Proof.
  intros Et. unfold SimpleRAGAS.calculate_faithfulness.
  destruct (negb (nonempty contexts) || negb (truthy answer)); [reflexivity|].
  destruct (negb (nonempty (words (split (lower (join " " contexts)))))); [reflexivity|].
  fold (Spec.tokens answer). rewrite Et. reflexivity.
Qed.

Lemma context_utilization_no_word (contexts : list string) (answer : string) :
  Spec.tokens answer = [] ->
  (SimpleRAGAS.calculate_context_utilization contexts answer == 0)%Q.
Proof.
  intros Et. unfold SimpleRAGAS.calculate_context_utilization.
  destruct (negb (nonempty contexts) || negb (truthy answer)); [reflexivity|].
  destruct (negb (nonempty (SimpleRAGAS.context_vocabulary contexts))); [reflexivity|].
  fold (Spec.tokens answer). rewrite Et. unfold inter, intersection. cbn [filter].
  change (len (@nil string)) with 0%Q. unfold Qdiv. rewrite Qmult_0_l.
  apply Q.min_l. discriminate.
Qed.

Lemma faithfulness_shared (contexts : list string) (answer : string) :
  contexts <> [] -> Spec.tokens answer <> [] -> Spec.vocabulary contexts <> [] ->
  (SimpleRAGAS.calculate_faithfulness contexts answer
   == len (Notions.shared_words contexts answer) / len (Spec.tokens answer))%Q.
Proof.
  intros Hc Ha Hv. rewrite (faithfulness_unfold _ _ Hc Ha).
  apply nonempty_true in Hv. rewrite Hv.
  pose proof (grounded_fraction_bounds contexts answer Ha) as [_ Hhi].
  rewrite (Q.min_l _ _ Hhi). unfold Spec.grounded_fraction, Notions.shared_words.
  rewrite inter_filter. reflexivity.
Qed.

(** X3.  Faithfulness and context utilization are built on one count, the
    number of distinct words that the answer shares with the contexts,
    which exceeds neither the number of answer words nor the number of
    context words: where contexts, answer words and context words exist,
    faithfulness is that count over the number of answer words and
    utilization is that count over the number of context words, so
    neither cap [min(., 1.0)] takes effect.  Hence on every input one of
    them is 0 exactly when the other is, and they are equal when the
    answer has as many words as the contexts. *)
Theorem faithfulness_utilization_shared_count (contexts : list string) (answer : string) :
  let shared := Notions.shared_words contexts answer in
  let faithfulness := SimpleRAGAS.calculate_faithfulness contexts answer in
  let utilization := SimpleRAGAS.calculate_context_utilization contexts answer in
  (List.length shared <= List.length (Spec.tokens answer))%nat
  /\ (List.length shared <= List.length (Spec.vocabulary contexts))%nat
  /\ (contexts <> [] -> Spec.tokens answer <> [] -> Spec.vocabulary contexts <> [] ->
      (faithfulness == len shared / len (Spec.tokens answer))%Q
      /\ (utilization == len shared / len (Spec.vocabulary contexts))%Q)
  /\ ((faithfulness == 0)%Q <-> (utilization == 0)%Q)
  /\ (List.length (Spec.tokens answer) = List.length (Spec.vocabulary contexts) ->
      (faithfulness == utilization)%Q).
Proof.
  intros shared faithfulness utilization.
  assert (H1 : (List.length shared <= List.length (Spec.tokens answer))%nat).
  { unfold shared, Notions.shared_words. rewrite inter_filter. apply filter_length_le. }
  assert (H2 : (List.length shared <= List.length (Spec.vocabulary contexts))%nat).
  { unfold shared, Notions.shared_words. apply inter_length_le_r. apply words_NoDup. }
  assert (Hshape : contexts <> [] -> Spec.tokens answer <> [] ->
                   Spec.vocabulary contexts <> [] ->
                   (faithfulness == len shared / len (Spec.tokens answer))%Q
                   /\ (utilization == len shared / len (Spec.vocabulary contexts))%Q).
  { intros Hc Ha Hv. split; [apply faithfulness_shared; assumption|].
    apply context_utilization_unfold; [exact Hc| |exact Hv].
    intros E. rewrite E in Ha. apply Ha. reflexivity. }
  assert (Hdegenerate : contexts = [] \/ Spec.tokens answer = []
                        \/ Spec.vocabulary contexts = [] ->
                        (faithfulness == 0)%Q /\ (utilization == 0)%Q).
  { intros [Hc|[Ha|Hv]].
    - unfold faithfulness, utilization. rewrite Hc. split; reflexivity.
    - unfold faithfulness, utilization. rewrite (faithfulness_no_word _ _ Ha). split;
        [reflexivity|apply context_utilization_no_word; exact Ha].
    - unfold faithfulness, utilization.
      rewrite (context_utilization_no_vocabulary _ _ Hv). split; [|reflexivity].
      unfold SimpleRAGAS.calculate_faithfulness.
      destruct (negb (nonempty contexts) || negb (truthy answer)); [reflexivity|].
      fold (Spec.tokens (join " " contexts)). fold (Spec.vocabulary contexts).
      rewrite Hv. reflexivity. }
  assert (Hcases : (contexts = [] \/ Spec.tokens answer = []
                    \/ Spec.vocabulary contexts = [])
                   \/ (contexts <> [] /\ Spec.tokens answer <> []
                       /\ Spec.vocabulary contexts <> [])).
  { destruct contexts as [|c cs]; [left; left; reflexivity|].
    destruct (Spec.tokens answer) as [|t ts]; [left; right; left; reflexivity|].
    destruct (Spec.vocabulary (c :: cs)) as [|v vs]; [left; right; right; reflexivity|].
    right. repeat split; discriminate. }
  split; [exact H1|]. split; [exact H2|]. split; [exact Hshape|]. split.
  - destruct Hcases as [Hd|[Hc [Ha Hv]]].
    + destruct (Hdegenerate Hd) as [Hf Hu]. rewrite Hf, Hu. tauto.
    + destruct (Hshape Hc Ha Hv) as [Hf Hu]. rewrite Hf, Hu.
      rewrite (ratio_zero_iff _ _ (len_pos _ Ha)), (ratio_zero_iff _ _ (len_pos _ Hv)).
      tauto.
  - intros Hsame. destruct Hcases as [Hd|[Hc [Ha Hv]]].
    + destruct (Hdegenerate Hd) as [Hf Hu]. rewrite Hf, Hu. reflexivity.
    + destruct (Hshape Hc Ha Hv) as [Hf Hu]. rewrite Hf, Hu.
      unfold len at 2 4. rewrite Hsame. reflexivity.
Qed.

Lemma faithfulness_utilization_shared_count_witness :
  (SimpleRAGAS.calculate_faithfulness ["Paris is the capital"; "of France"]
     "paris is big" == 2 # 3)%Q
  /\ (SimpleRAGAS.calculate_context_utilization ["Paris is the capital"; "of France"]
        "paris is big" == 2 # 6)%Q.
Proof.
  destruct (faithfulness_utilization_shared_count
              ["Paris is the capital"; "of France"] "paris is big")
    as [_ [_ [H _]]].
  destruct H as [Hf Hu]; [discriminate|discriminate|discriminate|].
  split; [rewrite Hf|rewrite Hu]; reflexivity.
Defined.
